(** * EbayCustomAlgo: the ranking core, embedded and verified

    Shallow embedding of the TypeScript ranking core:

    - [ranking-engine.ts]           preference scorer ([EbayRankingEngine])
    - [ml-deal-scoring.ts]          deal quality model ([MLDealScoringService])
    - [azure-openai-service.ts]     embedding provider ([AzureOpenAIEmbeddingService])
    - [enhanced-ranking-engine.ts]  fusion and explanation ([EnhancedEbayRankingEngine])

    Conventions of the model.

    - A JavaScript number is a [number]: NaN, the two infinities, or a finite
      value held as an exact rational.  Arithmetic on finite values is exact
      (no rounding to binary64, no overflow) and there is a single zero
      ([-0] is read as [0]).  Two numbers are compared with [==n], which is
      [Qeq] on finite values.
    - A JavaScript string is a [string] of 8-bit characters; case conversion
      and white space are the ASCII ones.
    - [Math.tanh], [Math.exp], [Math.sqrt] and the regular-expression engine
      are parameters ([Builtins]); the remote embedding endpoint is a
      parameter too ([Remote]), indexed by the number of calls made so far,
      so that any sequence of answers and failures is covered.
    - [await] is sequential composition; timers and logging have no effect
      on the values computed and are left out. *)

From Stdlib Require Import QArith Qround Qabs ZArith Lia Lqa Bool List String Ascii.
From Stdlib Require Import Permutation Sorted.
Import ListNotations.

Local Open Scope Q_scope.

(* ================================================================== *)
(** * JavaScript numbers *)

Module JsNum.

Inductive number : Type :=
| NaN
| PInf
| NInf
| Fin (q : Q).

Definition of_Z (z : Z) : number := Fin (inject_Z z).
Definition of_nat (n : nat) : number := of_Z (Z.of_nat n).

(** The value held, up to [Qeq]. *)
Definition num_eq (a b : number) : Prop :=
  match a, b with
  | NaN, NaN => True
  | PInf, PInf => True
  | NInf, NInf => True
  | Fin x, Fin y => x == y
  | _, _ => False
  end.

(** The extended order; NaN is related to nothing. *)
Definition num_le (a b : number) : Prop :=
  match a, b with
  | NaN, _ | _, NaN => False
  | NInf, _ => True
  | _, PInf => True
  | Fin x, Fin y => x <= y
  | _, _ => False
  end.

Definition num_lt (a b : number) : Prop :=
  match a, b with
  | NaN, _ | _, NaN => False
  | PInf, _ => False
  | _, NInf => False
  | Fin x, Fin y => x < y
  | _, _ => True
  end.

Definition is_NaN (a : number) : bool :=
  match a with NaN => true | _ => false end.

Definition Qeqb (x y : Q) : bool := Qeq_bool x y.
Definition Qltb (x y : Q) : bool := negb (Qle_bool y x).

(** [a < b] *)
Definition lt (a b : number) : bool :=
  match a, b with
  | NaN, _ | _, NaN => false
  | PInf, _ => false
  | _, NInf => false
  | Fin x, Fin y => Qltb x y
  | _, _ => true
  end.

(** [a > b] *)
Definition gt (a b : number) : bool := lt b a.

(** [a <= b] *)
Definition le (a b : number) : bool :=
  match a, b with
  | NaN, _ | _, NaN => false
  | NInf, _ => true
  | _, PInf => true
  | Fin x, Fin y => Qle_bool x y
  | _, _ => false
  end.

(** [a >= b] *)
Definition ge (a b : number) : bool := le b a.

(** [a === b] on numbers *)
Definition strict_eq (a b : number) : bool :=
  match a, b with
  | PInf, PInf => true
  | NInf, NInf => true
  | Fin x, Fin y => Qeqb x y
  | _, _ => false
  end.

(** ToBoolean: [0] and NaN are falsy. *)
Definition truthy (a : number) : bool :=
  match a with
  | NaN => false
  | Fin x => negb (Qeqb x 0)
  | _ => true
  end.

Definition neg (a : number) : number :=
  match a with
  | NaN => NaN
  | PInf => NInf
  | NInf => PInf
  | Fin x => Fin (- x)
  end.

Definition add (a b : number) : number :=
  match a, b with
  | NaN, _ | _, NaN => NaN
  | PInf, NInf | NInf, PInf => NaN
  | PInf, _ | _, PInf => PInf
  | NInf, _ | _, NInf => NInf
  | Fin x, Fin y => Fin (x + y)
  end.

Definition sub (a b : number) : number := add a (neg b).

(** Sign of a finite value: [Gt], [Eq] or [Lt] against zero. *)
Definition sgn (x : Q) : comparison := Qcompare x 0.

Definition mul (a b : number) : number :=
  match a, b with
  | NaN, _ | _, NaN => NaN
  | Fin x, Fin y => Fin (x * y)
  | PInf, PInf | NInf, NInf => PInf
  | PInf, NInf | NInf, PInf => NInf
  | PInf, Fin y | Fin y, PInf =>
      match sgn y with Eq => NaN | Gt => PInf | Lt => NInf end
  | NInf, Fin y | Fin y, NInf =>
      match sgn y with Eq => NaN | Gt => NInf | Lt => PInf end
  end.

Definition div (a b : number) : number :=
  match a, b with
  | NaN, _ | _, NaN => NaN
  | (PInf | NInf), (PInf | NInf) => NaN
  | Fin _, (PInf | NInf) => Fin 0
  | PInf, Fin y => match sgn y with Lt => NInf | _ => PInf end
  | NInf, Fin y => match sgn y with Lt => PInf | _ => NInf end
  | Fin x, Fin y =>
      match sgn y with
      | Eq => match sgn x with Eq => NaN | Gt => PInf | Lt => NInf end
      | _ => Fin (x / y)
      end
  end.

(** [Math.max(a, b)] and [Math.min(a, b)]: NaN if either argument is. *)
Definition Math_max (a b : number) : number :=
  match a, b with
  | NaN, _ | _, NaN => NaN
  | _, _ => if lt a b then b else a
  end.

Definition Math_min (a b : number) : number :=
  match a, b with
  | NaN, _ | _, NaN => NaN
  | _, _ => if lt b a then b else a
  end.

Definition Math_abs (a : number) : number :=
  match a with
  | NaN => NaN
  | PInf | NInf => PInf
  | Fin x => Fin (Qabs x)
  end.

(** [Math.round]: the nearest integer, halves towards +Infinity. *)
Definition Math_round (a : number) : number :=
  match a with
  | Fin x => Fin (inject_Z (Qfloor (x + (1 # 2))))
  | _ => a
  end.

(** [a || b] on numbers. *)
Definition or_else (a b : number) : number :=
  if truthy a then a else b.

End JsNum.

Export JsNum.

Declare Scope js_scope.
Delimit Scope js_scope with js.
Bind Scope js_scope with number.
Infix "+" := add : js_scope.
Infix "-" := sub : js_scope.
Infix "*" := mul : js_scope.
Infix "/" := div : js_scope.
Infix "==n" := num_eq (at level 70, no associativity).

Local Open Scope string_scope.
Local Open Scope list_scope.

(* ================================================================== *)
(** * JavaScript strings *)

Module JsString.

(** White space as [\s] and [trim] see it, on 8-bit characters. *)
Definition is_ws (c : ascii) : bool :=
  let n := nat_of_ascii c in
  (Nat.eqb n 32 || (Nat.leb 9 n && Nat.leb n 13))%bool.

Definition upper_char (c : ascii) : ascii :=
  let n := nat_of_ascii c in
  if (Nat.leb 97 n && Nat.leb n 122)%bool then ascii_of_nat (n - 32) else c.

Definition lower_char (c : ascii) : ascii :=
  let n := nat_of_ascii c in
  if (Nat.leb 65 n && Nat.leb n 90)%bool then ascii_of_nat (n + 32) else c.

Fixpoint map_chars (f : ascii -> ascii) (s : string) : string :=
  match s with
  | EmptyString => EmptyString
  | String c s' => String (f c) (map_chars f s')
  end.

Definition toUpperCase : string -> string := map_chars upper_char.
Definition toLowerCase : string -> string := map_chars lower_char.

(** [hay.includes(needle)] *)
Fixpoint includes (hay needle : string) : bool :=
  (prefix needle hay ||
   match hay with
   | EmptyString => false
   | String _ hay' => includes hay' needle
   end)%bool.

Fixpoint trimStart (s : string) : string :=
  match s with
  | EmptyString => EmptyString
  | String c s' => if is_ws c then trimStart s' else s
  end.

Fixpoint trimEnd (s : string) : string :=
  match s with
  | EmptyString => EmptyString
  | String c s' =>
      match trimEnd s' with
      | EmptyString => if is_ws c then EmptyString else String c EmptyString
      | t => String c t
      end
  end.

Definition trim (s : string) : string := trimEnd (trimStart s).

(** [s.replace(/\s+/g, rep)]: every maximal run of white space becomes
    [rep]; [in_run] tells that the previous character was white space. *)
Fixpoint replace_ws_from (rep : string) (in_run : bool) (s : string) : string :=
  match s with
  | EmptyString => EmptyString
  | String c s' =>
      if is_ws c
      then (if in_run then replace_ws_from rep true s'
            else rep ++ replace_ws_from rep true s')
      else String c (replace_ws_from rep false s')
  end.

Definition replace_ws (rep s : string) : string := replace_ws_from rep false s.

(** ToBoolean on strings: only the empty string is falsy. *)
Definition str_truthy (s : string) : bool :=
  match s with EmptyString => false | _ => true end.

(** [a || b] on an optional string. *)
Definition str_or (a : option string) (b : string) : string :=
  match a with
  | Some s => if str_truthy s then s else b
  | None => b
  end.

(** [arr.includes(x)] on an array of strings. *)
Definition arr_includes (arr : list string) (x : string) : bool :=
  existsb (String.eqb x) arr.

(** ** [parseFloat] *)

Definition digit_of (c : ascii) : option Z :=
  let n := nat_of_ascii c in
  if (Nat.leb 48 n && Nat.leb n 57)%bool then Some (Z.of_nat (n - 48)) else None.

(** Reads decimal digits: the value accumulated onto [acc], how many were
    read, and the rest of the string. *)
Fixpoint read_digits (s : string) (acc : Z) (cnt : nat) : Z * nat * string :=
  match s with
  | EmptyString => (acc, cnt, s)
  | String c s' =>
      match digit_of c with
      | Some d => read_digits s' (acc * 10 + d)%Z (S cnt)
      | None => (acc, cnt, s)
      end
  end.

(** ExponentPart, when a well-formed one starts [s]; [0] otherwise. *)
Definition read_exponent (s : string) : Z :=
  match s with
  | String c s' =>
      if (Ascii.eqb c "e" || Ascii.eqb c "E")%bool then
        let '(negative, s'') :=
          match s' with
          | String "+" r => (false, r)
          | String "-" r => (true, r)
          | _ => (false, s')
          end in
        let '(v, cnt, _) := read_digits s'' 0 0 in
        if Nat.eqb cnt 0 then 0%Z else if negative then (- v)%Z else v
      else 0%Z
  | EmptyString => 0%Z
  end.

Definition pow10 (e : Z) : Q :=
  if (0 <=? e)%Z then inject_Z (10 ^ e) else 1 / inject_Z (10 ^ (- e)).

(** The longest prefix that is a StrUnsignedDecimalLiteral. *)
Definition read_unsigned (s : string) : option number :=
  if prefix "Infinity" s then Some PInf else
  let '(ip, ic, r1) := read_digits s 0 0 in
  match r1 with
  | String "." r2 =>
      let '(m, fc, r3) := read_digits r2 ip 0 in
      if (Nat.eqb ic 0 && Nat.eqb fc 0)%bool then None
      else Some (Fin (inject_Z m / inject_Z (10 ^ Z.of_nat fc) * pow10 (read_exponent r3)))
  | _ =>
      if Nat.eqb ic 0 then None
      else Some (Fin (inject_Z ip * pow10 (read_exponent r1)))
  end.

Definition parseFloat (s : string) : number :=
  let t := trimStart s in
  let r :=
    match t with
    | String "-" r => option_map neg (read_unsigned r)
    | String "+" r => read_unsigned r
    | _ => read_unsigned t
    end in
  match r with Some v => v | None => NaN end.

End JsString.

Export JsString.


(* ================================================================== *)
(** * Data model ([types/ebay.ts]) *)

Record Money : Type := {
  value : string;
  currency : string
}.

Record Seller : Type := {
  username : string;
  feedbackPercentage : number;
  feedbackScore : number
}.

Record ShippingOption : Type := {
  shippingCost : Money;
  type_ : string
}.

Record EbayItem : Type := {
  itemId : string;
  title : string;
  price : Money;
  image : option string;
  itemWebUrl : string;
  condition : string;
  seller : Seller;
  shippingOptions : option (list ShippingOption);
  location : option string;
  shortDescription : option string
}.

(** Every field is optional; [None] is [undefined] (or [null]). *)
Record UserPreferences : Type := {
  maxPrice : option number;
  preferredCondition : option (list string);
  minimumSellerRating : option number;
  freeShippingOnly : option bool;
  preferredCountries : option (list string);
  keywords : option (list string)
}.

Record RankingFactors : Type := {
  priceScore : number;
  conditionScore : number;
  sellerScore : number;
  shippingScore : number;
  keywordScore : number
}.

(** [RankedItem extends EbayItem]: [item] holds the spread fields. *)
Record RankedItem : Type := {
  item : EbayItem;
  relevanceScore : number;
  rankingFactors : RankingFactors
}.

(** ToBoolean of an optional number: [undefined], [0] and NaN are falsy. *)
Definition opt_truthy (x : option number) : bool :=
  match x with
  | Some v => truthy v
  | None => false
  end.

(** [Math.round(x * 100) / 100] *)
Definition round2 (x : number) : number :=
  (Math_round (x * Fin 100) / Fin 100)%js.

(* ================================================================== *)
(** * Array.prototype.sort

    [arr.sort(compareFn)] is stable; [compareFn(a, b) > 0] puts [a] after
    [b], and a NaN answer counts as [0].  The model is the stable insertion
    sort: for a consistent comparator every stable sort gives this list. *)

Section ArraySort.
Context {A : Type} (compareFn : A -> A -> number).

Fixpoint sort_insert (x : A) (l : list A) : list A :=
  match l with
  | [] => [x]
  | y :: l' =>
      if gt (compareFn x y) (Fin 0) then y :: sort_insert x l'
      else x :: l
  end.

Definition sort (l : list A) : list A := fold_right sort_insert [] l.
End ArraySort.

(* ================================================================== *)
(** * Preference scorer ([ranking-engine.ts]) *)

Module EbayRankingEngine.

Definition calculatePriceScore (item : EbayItem) (maxPrice : option number) : number :=
  match maxPrice with
  | Some maxPrice' =>
      if negb (truthy maxPrice') then Fin 50
      else
        let itemPrice := parseFloat (value (price item)) in
        if gt itemPrice maxPrice' then Fin 0
        else
          let priceRatio := (itemPrice / maxPrice')%js in
          Math_max (Fin 0) (Fin 100 - priceRatio * Fin 50)%js
  | None => Fin 50
  end.

Definition calculateConditionScore (item : EbayItem)
    (preferredConditions : option (list string)) : number :=
  match preferredConditions with
  | None => Fin 50
  | Some [] => Fin 50
  | Some preferred =>
      let itemCondition := toUpperCase (condition item) in
      if arr_includes (map toUpperCase preferred) itemCondition then Fin 100
      else if (includes itemCondition "NEW" &&
               existsb (fun c => includes (toUpperCase c) "NEW") preferred)%bool
      then Fin 80
      else if (includes itemCondition "USED" &&
               existsb (fun c => includes (toUpperCase c) "USED") preferred)%bool
      then Fin 60
      else Fin 20
  end.

Definition calculateSellerScore (item : EbayItem) (minimumRating : option number) : number :=
  match minimumRating with
  | Some minimumRating' =>
      if negb (truthy minimumRating') then Fin 50
      else
        let sellerRating := feedbackPercentage (seller item) in
        if lt sellerRating minimumRating' then Fin 0
        else
          let ratingBonus := Math_min ((sellerRating - minimumRating') * Fin 2)%js (Fin 50) in
          Math_min (Fin 100) (Fin 50 + ratingBonus)%js
  | None => Fin 50
  end.

Definition calculateShippingScore (item : EbayItem) (freeShippingOnly : option bool) : number :=
  match freeShippingOnly with
  | Some true =>
      let hasFreeShipping :=
        match shippingOptions item with
        | Some options =>
            existsb (fun option =>
                       strict_eq (parseFloat (value (shippingCost option))) (Fin 0))
                    options
        | None => false
        end in
      if hasFreeShipping then Fin 100 else Fin 0
  | _ => Fin 50
  end.

Definition calculateKeywordScore (item : EbayItem) (keywords : option (list string)) : number :=
  match keywords with
  | None => Fin 50
  | Some [] => Fin 50
  | Some kws =>
      let itemText :=
        toLowerCase (title item ++ " " ++ str_or (shortDescription item) "") in
      let matchCount :=
        fold_left (fun matchCount keyword =>
                     if includes itemText (toLowerCase keyword)
                     then S matchCount else matchCount)
                  kws 0%nat in
      Math_min (Fin 100) (of_nat matchCount / of_nat (List.length kws) * Fin 100)%js
  end.

Definition calculateRelevanceScore (item : EbayItem) (preferences : UserPreferences)
    : RankedItem :=
  let priceScore' := calculatePriceScore item (maxPrice preferences) in
  let conditionScore' := calculateConditionScore item (preferredCondition preferences) in
  let sellerScore' := calculateSellerScore item (minimumSellerRating preferences) in
  let shippingScore' := calculateShippingScore item (freeShippingOnly preferences) in
  let keywordScore' := calculateKeywordScore item (keywords preferences) in
  let relevanceScore' :=
    (priceScore' * Fin 0.25 +
     conditionScore' * Fin 0.15 +
     sellerScore' * Fin 0.20 +
     shippingScore' * Fin 0.15 +
     keywordScore' * Fin 0.25)%js in
  {| item := item;
     relevanceScore := round2 relevanceScore';
     rankingFactors :=
       {| priceScore := priceScore'; conditionScore := conditionScore';
          sellerScore := sellerScore'; shippingScore := shippingScore';
          keywordScore := keywordScore' |} |}.

Definition rankItems (items : list EbayItem) (preferences : UserPreferences)
    : list RankedItem :=
  sort (fun a b => (relevanceScore b - relevanceScore a)%js)
       (filter (fun item => gt (relevanceScore item) (Fin 0))
               (map (fun item => calculateRelevanceScore item preferences) items)).

(** [getScoreExplanation]: the phrases pushed, joined, or ['Standard match']
    when the joined text is empty. *)
Definition getScoreExplanation (rankedItem : RankedItem) : string :=
  let factors := rankingFactors rankedItem in
  let explanations :=
    (if gt (priceScore factors) (Fin 70) then ["Great price value"]
     else if lt (priceScore factors) (Fin 30) then ["Higher priced"] else []) ++
    (if gt (conditionScore factors) (Fin 70) then ["Preferred condition"]
     else if lt (conditionScore factors) (Fin 30) then ["Condition not preferred"]
     else []) ++
    (if gt (sellerScore factors) (Fin 70) then ["Excellent seller rating"]
     else if lt (sellerScore factors) (Fin 30) then ["Lower seller rating"] else []) ++
    (if gt (shippingScore factors) (Fin 70) then ["Free shipping available"]
     else if strict_eq (shippingScore factors) (Fin 0) then ["No free shipping"]
     else []) ++
    (if gt (keywordScore factors) (Fin 70) then ["High keyword relevance"]
     else if lt (keywordScore factors) (Fin 30) then ["Low keyword match"] else []) in
  str_or (Some (String.concat ", " explanations)) "Standard match".

End EbayRankingEngine.


(* ================================================================== *)
(** * Exceptions *)

(** What [catch] can inspect of a thrown value. *)
Record JsError : Type := {
  message : string;
  response_status : option number;
  status : option number;
  code : option string
}.

Definition TypeError (msg : string) : JsError :=
  {| message := msg; response_status := None; status := None; code := None |}.

Definition newError (msg : string) : JsError :=
  {| message := msg; response_status := None; status := None; code := None |}.

(** A computation that returns or throws. *)
Definition Try (A : Type) : Type := (JsError + A)%type.

Definition ret {A : Type} (a : A) : Try A := inr a.
Definition throw {A : Type} (e : JsError) : Try A := inl e.

Definition bind {A B : Type} (m : Try A) (k : A -> Try B) : Try B :=
  match m with
  | inl e => inl e
  | inr a => k a
  end.

Notation "x <- m ;; k" := (bind m (fun x => k))
  (at level 61, m at next level, right associativity).

(** Reading a property of [obj.name]: a TypeError when [obj.name] is
    [undefined]. *)
Definition property {A : Type} (name : string) (o : option A) : Try A :=
  match o with
  | Some a => ret a
  | None => throw (TypeError ("Cannot read properties of undefined: " ++ name))
  end.

(* ================================================================== *)
(** * Built-in functions left abstract *)

(** The regular expressions of [calculateTitleQuality]. *)
Inductive TitlePattern : Type :=
| BrandModel      (* the capitalised brand-and-model pattern *)
| ConditionWord   (* new, used, refurbished, excellent or good, as a word *)
| SizeSpec        (* a number followed by a unit such as gb, inch or mm *)
| Hype.           (* three exclamation marks, wow, amazing, incredible, must see *)

Record Builtins : Type := {
  Math_tanh : number -> number;
  Math_exp : number -> number;
  Math_sqrt : number -> number;
  RegExp_test : TitlePattern -> string -> bool;
  (** [String(x)] of a number, as a template literal prints it *)
  Number_toString : number -> string
}.

(* ================================================================== *)
(** * Deal quality model ([ml-deal-scoring.ts]) *)

Record DealFeatures : Type := {
  priceVsAverage : number;
  sellerRating : number;
  shippingCostRatio : number;
  f_conditionScore : number;
  titleQualityScore : number;
  listingAgeScore : number;
  bidCountScore : number
}.

Record DealFactors : Type := {
  d_priceScore : number;
  d_sellerScore : number;
  d_shippingScore : number;
  d_conditionScore : number;
  titleScore : number;
  freshnessScore : number
}.

Inductive Recommendation : Type := excellent | good | fair | poor.

Record DealScore : Type := {
  overallScore : number;
  confidence : number;
  factors : DealFactors;
  recommendation : Recommendation
}.

(** The object [scoreDeal] receives at run time.  The interface [EbayItem]
    is erased by then, and the listing is whatever the marketplace sent: a
    member the interface requires may be [undefined] ([None]). *)
Record JsShippingOption : Type := {
  js_shippingCost : option Money
}.

Record JsItem : Type := {
  js_title : option string;
  js_price : option Money;
  js_condition : option string;
  js_seller : option Seller;
  js_shippingOptions : option (list JsShippingOption)
}.

(** A listing that has the declared shape, as a run-time object. *)
Definition js_of_item (item : EbayItem) : JsItem :=
  {| js_title := Some (title item);
     js_price := Some (price item);
     js_condition := Some (condition item);
     js_seller := Some (seller item);
     js_shippingOptions :=
       option_map (map (fun o => {| js_shippingCost := Some (shippingCost o) |}))
                  (shippingOptions item) |}.

(** [Map.get] on a map held as an association list, latest binding first. *)
Fixpoint map_get {V : Type} (m : list (string * V)) (k : string) : option V :=
  match m with
  | [] => None
  | (k', v) :: m' => if String.eqb k k' then Some v else map_get m' k
  end.

(** [Map.set]: the new binding hides an older one for the key. *)
Definition map_set {V : Type} (m : list (string * V)) (k : string) (v : V)
    : list (string * V) :=
  (k, v) :: m.

Module MLDealScoringService.

Record dealWeights_t : Type := {
  w_priceVsAverage : number;
  w_sellerRating : number;
  w_shippingCostRatio : number;
  w_conditionScore : number;
  w_titleQualityScore : number;
  w_listingAgeScore : number;
  w_bidCountScore : number;
  w_bias : number
}.

Definition dealWeights : dealWeights_t :=
  {| w_priceVsAverage := Fin (-0.35);
     w_sellerRating := Fin 0.25;
     w_shippingCostRatio := Fin (-0.15);
     w_conditionScore := Fin 0.20;
     w_titleQualityScore := Fin 0.10;
     w_listingAgeScore := Fin 0.05;
     w_bidCountScore := Fin 0.05;
     w_bias := Fin 0.15 |}.

(** [initializeMarketAverages] *)
Definition initialMarketAverages : list (string * number) :=
  [ ("electronics", Fin 250); ("clothing", Fin 45); ("books", Fin 15);
    ("home", Fin 85); ("automotive", Fin 150); ("general", Fin 75) ].

(** [updateMarketAverages]: every entry of [categoryAverages], in the
    order [forEach] visits them, is set in [this.marketAverages]. *)
Definition updateMarketAverages (categoryAverages : list (string * number))
    (marketAverages : list (string * number)) : list (string * number) :=
  fold_left (fun m '(category, average) => map_set m category average)
            categoryAverages marketAverages.

Definition neutralDealScore : DealScore :=
  {| overallScore := Fin 50;
     confidence := Fin 0.1;
     factors := {| d_priceScore := Fin 50; d_sellerScore := Fin 50;
                   d_shippingScore := Fin 50; d_conditionScore := Fin 50;
                   titleScore := Fin 50; freshnessScore := Fin 50 |};
     recommendation := fair |}.

Definition conditionMap : list (string * number) :=
  [ ("NEW", Fin 1.0); ("LIKE_NEW", Fin 0.9); ("EXCELLENT", Fin 0.85);
    ("VERY_GOOD", Fin 0.75); ("GOOD", Fin 0.6); ("ACCEPTABLE", Fin 0.4);
    ("USED", Fin 0.5); ("REFURBISHED", Fin 0.7);
    ("FOR_PARTS_OR_NOT_WORKING", Fin 0.2) ].

Section Service.
Context (B : Builtins).
(** [this.marketAverages] *)
Context (marketAverages : list (string * number)).

Definition getMarketAverage (category : string) (currentPrice : number) : number :=
  let average := map_get marketAverages category in
  if opt_truthy average then
    match average with Some a => a | None => NaN end
  else (currentPrice * Fin 1.2)%js.

Definition normalizePriceRatio (price marketAverage : number) : number :=
  let ratio := (price / marketAverage)%js in
  Math_tanh B ((ratio - Fin 1) * Fin 2)%js.

Definition calculateShippingRatio (item : JsItem) (itemPrice : number) : Try number :=
  match js_shippingOptions item with
  | None => ret (Fin 0.5)
  | Some [] => ret (Fin 0.5)
  | Some (first :: _) =>
      cost <- property "value" (js_shippingCost first) ;;
      let shippingCost := parseFloat (value cost) in
      if strict_eq shippingCost (Fin 0) then ret (Fin 0)
      else
        let ratio := (shippingCost / itemPrice)%js in
        ret (Math_min (Fin 1) ratio)
  end.

Definition calculateConditionScore (condition : option string) : Try number :=
  c <- property "toUpperCase" condition ;;
  let normalizedCondition := replace_ws "_" (toUpperCase c) in
  ret (match map_get conditionMap normalizedCondition with
       | Some v => or_else v (Fin 0.5)
       | None => Fin 0.5
       end).

Definition calculateTitleQuality (title : option string) : Try number :=
  t <- property "length" title ;;
  let len := String.length t in
  let score := Fin 0.5 in
  let score := if (Nat.ltb 30 len && Nat.ltb len 120)%bool
               then (score + Fin 0.2)%js else score in
  let score := if Nat.ltb len 20 then (score - Fin 0.2)%js else score in
  let score := if RegExp_test B BrandModel t then (score + Fin 0.15)%js else score in
  let score := if RegExp_test B ConditionWord t then (score + Fin 0.1)%js else score in
  let score := if RegExp_test B SizeSpec t then (score + Fin 0.1)%js else score in
  let score := if RegExp_test B Hype t then (score - Fin 0.15)%js else score in
  let score := if includes t "???" then (score - Fin 0.1)%js else score in
  ret (Math_max (Fin 0) (Math_min (Fin 1) score)).

Definition extractFeatures (item : JsItem) (marketCategory : option string)
    : Try DealFeatures :=
  p <- property "value" (js_price item) ;;
  let price := parseFloat (value p) in
  let marketAverage := getMarketAverage (str_or marketCategory "general") price in
  let priceVsAverage' := normalizePriceRatio price marketAverage in
  s <- property "feedbackPercentage" (js_seller item) ;;
  let sellerRating' := (feedbackPercentage s / Fin 100)%js in
  shippingCostRatio' <- calculateShippingRatio item price ;;
  conditionScore' <- calculateConditionScore (js_condition item) ;;
  titleQualityScore' <- calculateTitleQuality (js_title item) ;;
  ret {| priceVsAverage := priceVsAverage';
         sellerRating := sellerRating';
         shippingCostRatio := shippingCostRatio';
         f_conditionScore := conditionScore';
         titleQualityScore := titleQualityScore';
         listingAgeScore := Fin 0.8;
         bidCountScore := Fin 0.6 |}.

Definition calculateDealScore (features : DealFeatures) : number :=
  let score :=
    (priceVsAverage features * w_priceVsAverage dealWeights +
     sellerRating features * w_sellerRating dealWeights +
     shippingCostRatio features * w_shippingCostRatio dealWeights +
     f_conditionScore features * w_conditionScore dealWeights +
     titleQualityScore features * w_titleQualityScore dealWeights +
     listingAgeScore features * w_listingAgeScore dealWeights +
     bidCountScore features * w_bidCountScore dealWeights +
     w_bias dealWeights)%js in
  (Fin 1 / (Fin 1 + Math_exp B (neg score)))%js.

Definition calculateConfidence (features : DealFeatures) : number :=
  let confidence := Fin 0.5 in
  let confidence := if gt (sellerRating features) (Fin 0.95)
                    then (confidence + Fin 0.2)%js else confidence in
  let confidence := if gt (Math_abs (priceVsAverage features)) (Fin 0.3)
                    then (confidence + Fin 0.15)%js else confidence in
  let confidence := if gt (titleQualityScore features) (Fin 0.8)
                    then (confidence + Fin 0.1)%js else confidence in
  let confidence := if lt (sellerRating features) (Fin 0.9)
                    then (confidence - Fin 0.15)%js else confidence in
  Math_max (Fin 0.1) (Math_min (Fin 1.0) confidence).

Definition calculateFactorScores (features : DealFeatures) : DealFactors :=
  {| d_priceScore := Math_round ((Fin 1 - Math_abs (priceVsAverage features)) * Fin 100)%js;
     d_sellerScore := Math_round (sellerRating features * Fin 100)%js;
     d_shippingScore := Math_round ((Fin 1 - shippingCostRatio features) * Fin 100)%js;
     d_conditionScore := Math_round (f_conditionScore features * Fin 100)%js;
     titleScore := Math_round (titleQualityScore features * Fin 100)%js;
     freshnessScore := Math_round (listingAgeScore features * Fin 100)%js |}.

Definition getRecommendation (score : number) : Recommendation :=
  if ge score (Fin 80) then excellent
  else if ge score (Fin 65) then good
  else if ge score (Fin 40) then fair
  else poor.

(** The body of the [try] block of [scoreDeal]. *)
Definition scoreDeal_try (item : JsItem) (marketCategory : option string)
    : Try DealScore :=
  features <- extractFeatures item marketCategory ;;
  let rawScore := calculateDealScore features in
  let overallScore' := Math_max (Fin 0) (Math_min (Fin 100) (rawScore * Fin 100)%js) in
  let confidence' := calculateConfidence features in
  let factors' := calculateFactorScores features in
  let recommendation' := getRecommendation overallScore' in
  ret {| overallScore := round2 overallScore';
         confidence := round2 confidence';
         factors := factors';
         recommendation := recommendation' |}.

(** [try { ... } catch (error) { return neutral }] *)
Definition scoreDeal (item : JsItem) (marketCategory : option string) : DealScore :=
  match scoreDeal_try item marketCategory with
  | inr score => score
  | inl _ => neutralDealScore
  end.

Definition scoreBatchDeals (items : list JsItem) (marketCategory : option string)
    : list DealScore :=
  map (fun item => scoreDeal item marketCategory) items.

End Service.

End MLDealScoringService.

(* ================================================================== *)
(** * Embedding provider ([azure-openai-service.ts]) *)

Definition Embedding : Type := list number.

(** The [input] of [client.embeddings.create]. *)
Inductive EmbeddingInput : Type :=
| InputText (text : string)
| InputBatch (texts : list string).

(** How the awaited call ends: the promise rejects, or it resolves to a
    response whose [data] may be missing; a datum is its [embedding]. *)
Inductive CreateResult : Type :=
| Rejected (error : JsError)
| Resolved (data : option (list Embedding)).

(** The remote endpoint: what the n-th call made to it answers. *)
Definition Remote : Type := nat -> EmbeddingInput -> CreateResult.

(** An awaited computation: it threads the number of calls made so far. *)
Definition Async (A : Type) : Type := nat -> A * nat.

Definition aret {A : Type} (a : A) : Async A := fun calls => (a, calls).

Definition abind {A B : Type} (m : Async A) (k : A -> Async B) : Async B :=
  fun calls => let '(a, calls') := m calls in k a calls'.

Notation "x <~ m ;; k" := (abind m (fun x => k))
  (at level 61, m at next level, right associativity).

(** [arr.slice(from, to)] *)
Definition slice {A : Type} (arr : list A) (from to : nat) : list A :=
  firstn (to - from) (skipn from arr).

(** [Array(n).fill(null)] *)
Definition nulls {A : Type} (n : nat) : list (option A) := repeat None n.

Module AzureOpenAIEmbeddingService.

Record t : Type := {
  isConfigured : bool;
  client : option Remote
}.

Definition isAvailable (this : t) : bool := isConfigured this.

(** The ceiling of [preprocessText], 6000 characters. *)
Definition maxChars : nat := 60 * 100.

Definition preprocessText (text : string) : string :=
  let cleaned := trim (replace_ws " " text) in
  if Nat.ltb maxChars (String.length cleaned) then substring 0 maxChars cleaned else cleaned.

Definition retryableCodes : list number :=
  [Fin 429; Fin 500; Fin 502; Fin 503; Fin 504].

Definition isRetryableError (error : JsError) : bool :=
  let statusCode :=
    if opt_truthy (response_status error) then response_status error
    else status error in
  (match statusCode with
   | Some c => existsb (strict_eq c) retryableCodes
   | None => false
   end
   || match code error with
      | Some c => String.eqb c "ENOTFOUND" || String.eqb c "ECONNRESET"
      | None => false
      end)%bool.

(** [generateEmbedding(text, retryCount)]; [fuel] bounds the recursion and
    three retries never exhaust the fuel [generateEmbedding] gives. *)
Fixpoint generateEmbedding_rec (fuel : nat) (this : t) (text : string)
    (retryCount : nat) : Async (option Embedding) :=
  fun calls =>
    match isConfigured this, client this with
    | true, Some remote =>
        let cleanText := preprocessText text in
        if negb (str_truthy (trim cleanText)) then (None, calls)
        else
          match remote calls (InputText cleanText) with
          | Resolved (Some (first :: _)) => (Some first, S calls)
          | Resolved _ => (None, S calls)
          | Rejected error =>
              if (Nat.ltb retryCount 3 && isRetryableError error)%bool then
                match fuel with
                | S fuel' => generateEmbedding_rec fuel' this text (S retryCount) (S calls)
                | O => (None, S calls)
                end
              else (None, S calls)
          end
    | _, _ => (None, calls)
    end.

Definition generateEmbedding (this : t) (text : string) : Async (option Embedding) :=
  generateEmbedding_rec 3 this text 0.

Definition batchSize : nat := 16.

(** One turn of the [for] loop of [generateBatchEmbeddings], at offset [i]:
    the new [results]. *)
Definition batchStep (remote : Remote) (texts : list string) (i : nat)
    (results : list (option Embedding)) : Async (list (option Embedding)) :=
  fun calls =>
    let batch := slice texts i (i + batchSize) in
    let cleanBatch :=
      filter (fun text => str_truthy (trim text)) (map preprocessText batch) in
    match cleanBatch with
    | [] => (results ++ nulls (List.length batch), calls)
    | _ =>
        match remote calls (InputBatch cleanBatch) with
        | Resolved (Some embeddings) =>
            let results' := results ++ map Some embeddings in
            (results' ++ nulls (i + List.length batch - List.length results'), S calls)
        | Resolved None => (results ++ nulls (List.length batch), S calls)
        | Rejected _ => (results ++ nulls (List.length batch), S calls)
        end
    end.

(** [for (let i = ...; i < texts.length; i += batchSize)]; [fuel] bounds
    the number of turns. *)
Fixpoint batchLoop (fuel : nat) (remote : Remote) (texts : list string) (i : nat)
    (results : list (option Embedding)) : Async (list (option Embedding)) :=
  match fuel with
  | O => aret results
  | S fuel' =>
      if Nat.ltb i (List.length texts) then
        results' <~ batchStep remote texts i results ;;
        batchLoop fuel' remote texts (i + batchSize) results'
      else aret results
  end.

Definition generateBatchEmbeddings (this : t) (texts : list string)
    : Async (list (option Embedding)) :=
  match isConfigured this, client this with
  | true, Some remote => batchLoop (List.length texts) remote texts 0 []
  | _, _ => aret (map (fun _ => None) texts)
  end.

Section Cosine.
Context (B : Builtins).

(** [embedding[i]]; reading past the end gives [undefined], NaN in
    arithmetic. *)
Definition at_index (embedding : Embedding) (i : nat) : number :=
  nth i embedding NaN.

(** The accumulators [dotProduct], [norm1], [norm2] after the loop. *)
Definition cosineLoop (embedding1 embedding2 : Embedding) : number * number * number :=
  fold_left
    (fun '(dotProduct, norm1, norm2) i =>
       ((dotProduct + at_index embedding1 i * at_index embedding2 i)%js,
        (norm1 + at_index embedding1 i * at_index embedding1 i)%js,
        (norm2 + at_index embedding2 i * at_index embedding2 i)%js))
    (seq 0 (List.length embedding1))
    (Fin 0, Fin 0, Fin 0).

Definition calculateCosineSimilarity (embedding1 embedding2 : Embedding) : Try number :=
  if negb (Nat.eqb (List.length embedding1) (List.length embedding2)) then
    throw (newError "Embeddings must have the same dimension")
  else
    let '(dotProduct, norm1, norm2) := cosineLoop embedding1 embedding2 in
    let norm1 := Math_sqrt B norm1 in
    let norm2 := Math_sqrt B norm2 in
    if (strict_eq norm1 (Fin 0) || strict_eq norm2 (Fin 0))%bool then ret (Fin 0)
    else ret (dotProduct / (norm1 * norm2))%js.
End Cosine.

End AzureOpenAIEmbeddingService.

(* ================================================================== *)
(** * Fusion and explanation ([enhanced-ranking-engine.ts]) *)

Record AiRankingFactors : Type := {
  semanticSimilarity : number;
  dealQuality : number;
  traditionalRelevance : number;
  finalScore : number
}.

Record Explanation : Type := {
  semanticReason : option string;
  dealReason : string;
  overallReason : string
}.

(** [EnhancedRankedItem extends RankedItem]: [ranked] holds the spread
    fields, with [relevanceScore] as [combineScores] overwrites it. *)
Record EnhancedRankedItem : Type := {
  ranked : RankedItem;
  semanticScore : option number;
  dealScore : option DealScore;
  aiRankingFactors : AiRankingFactors;
  explanation : Explanation
}.

(** [arr.map((x, index) => f x index)] *)
Fixpoint mapi_from {A C : Type} (f : A -> nat -> C) (index : nat) (l : list A) : list C :=
  match l with
  | [] => []
  | x :: l' => f x index :: mapi_from f (S index) l'
  end.

Definition mapi {A C : Type} (f : A -> nat -> C) (l : list A) : list C :=
  mapi_from f 0 l.

(** [arr[index]] of an array of [number | null]: [None] past the end too. *)
Definition lookup_score (arr : list (option number)) (index : nat) : option number :=
  match nth_error arr index with
  | Some s => s
  | None => None
  end.

(** All of a list of computations, left to right; the first throw wins. *)
Fixpoint sequence {A : Type} (l : list (Try A)) : Try (list A) :=
  match l with
  | [] => ret []
  | m :: l' => a <- m ;; r <- sequence l' ;; ret (a :: r)
  end.

Definition recommendation_name (r : Recommendation) : string :=
  match r with
  | excellent => "excellent"
  | good => "good"
  | fair => "fair"
  | poor => "poor"
  end.

(** [arr.join(', ')] *)
Definition join (l : list string) : string := String.concat ", " l.

Module EnhancedEbayRankingEngine.

(** The private copies of the traditional scoring methods. *)
Definition calculatePriceScore (item : EbayItem) (maxPrice : option number) : number :=
  match maxPrice with
  | Some maxPrice' =>
      if negb (truthy maxPrice') then Fin 50
      else
        let itemPrice := parseFloat (value (price item)) in
        if gt itemPrice maxPrice' then Fin 0
        else
          let priceRatio := (itemPrice / maxPrice')%js in
          Math_max (Fin 0) (Fin 100 - priceRatio * Fin 50)%js
  | None => Fin 50
  end.

Definition calculateConditionScore (item : EbayItem)
    (preferredConditions : option (list string)) : number :=
  match preferredConditions with
  | None => Fin 50
  | Some [] => Fin 50
  | Some preferred =>
      let itemCondition := toUpperCase (condition item) in
      if arr_includes (map toUpperCase preferred) itemCondition then Fin 100
      else if (includes itemCondition "NEW" &&
               existsb (fun c => includes (toUpperCase c) "NEW") preferred)%bool
      then Fin 80
      else if (includes itemCondition "USED" &&
               existsb (fun c => includes (toUpperCase c) "USED") preferred)%bool
      then Fin 60
      else Fin 20
  end.

Definition calculateSellerScore (item : EbayItem) (minimumRating : option number) : number :=
  match minimumRating with
  | Some minimumRating' =>
      if negb (truthy minimumRating') then Fin 50
      else
        let sellerRating := feedbackPercentage (seller item) in
        if lt sellerRating minimumRating' then Fin 0
        else
          let ratingBonus := Math_min ((sellerRating - minimumRating') * Fin 2)%js (Fin 50) in
          Math_min (Fin 100) (Fin 50 + ratingBonus)%js
  | None => Fin 50
  end.

Definition calculateShippingScore (item : EbayItem) (freeShippingOnly : option bool) : number :=
  match freeShippingOnly with
  | Some true =>
      let hasFreeShipping :=
        match shippingOptions item with
        | Some options =>
            existsb (fun option =>
                       strict_eq (parseFloat (value (shippingCost option))) (Fin 0))
                    options
        | None => false
        end in
      if hasFreeShipping then Fin 100 else Fin 0
  | _ => Fin 50
  end.

Definition calculateKeywordScore (item : EbayItem) (keywords : option (list string)) : number :=
  match keywords with
  | None => Fin 50
  | Some [] => Fin 50
  | Some kws =>
      let itemText :=
        toLowerCase (title item ++ " " ++ str_or (shortDescription item) "") in
      let matchCount :=
        fold_left (fun matchCount keyword =>
                     if includes itemText (toLowerCase keyword)
                     then S matchCount else matchCount)
                  kws 0%nat in
      Math_min (Fin 100) (of_nat matchCount / of_nat (List.length kws) * Fin 100)%js
  end.

Definition getTraditionalRanking (items : list EbayItem) (preferences : UserPreferences)
    : list RankedItem :=
  map (fun item =>
         let priceScore' := calculatePriceScore item (maxPrice preferences) in
         let conditionScore' := calculateConditionScore item (preferredCondition preferences) in
         let sellerScore' := calculateSellerScore item (minimumSellerRating preferences) in
         let shippingScore' := calculateShippingScore item (freeShippingOnly preferences) in
         let keywordScore' := calculateKeywordScore item (keywords preferences) in
         let relevanceScore' :=
           (priceScore' * Fin 0.25 +
            conditionScore' * Fin 0.15 +
            sellerScore' * Fin 0.20 +
            shippingScore' * Fin 0.15 +
            keywordScore' * Fin 0.25)%js in
         {| item := item;
            relevanceScore := round2 relevanceScore';
            rankingFactors :=
              {| priceScore := priceScore'; conditionScore := conditionScore';
                 sellerScore := sellerScore'; shippingScore := shippingScore';
                 keywordScore := keywordScore' |} |})
      items.

Section Engine.
Context (B : Builtins).
(** The singletons [azureOpenAIService] and [mlDealScoringService] (its
    table of market averages). *)
Context (azureOpenAIService : AzureOpenAIEmbeddingService.t).
Context (marketAverages : list (string * number)).

Definition scoreBatchDeals (items : list EbayItem) : list DealScore :=
  MLDealScoringService.scoreBatchDeals B marketAverages (map js_of_item items) None.

Definition getDealExplanation (dealScore : DealScore) : string :=
  let f := factors dealScore in
  let factors' :=
    (if gt (d_priceScore f) (Fin 75) then ["competitive pricing"] else []) ++
    (if gt (d_sellerScore f) (Fin 85) then ["trusted seller"] else []) ++
    (if gt (d_shippingScore f) (Fin 80) then ["low shipping cost"] else []) ++
    (if gt (d_conditionScore f) (Fin 80) then ["good condition"] else []) in
  let baseExplanation :=
    (recommendation_name (recommendation dealScore) ++ " deal (" ++
     Number_toString B (overallScore dealScore) ++ "% quality)")%string in
  match factors' with
  | [] => baseExplanation
  | _ => (baseExplanation ++ ": " ++ join factors')%string
  end.

Definition generateExplanation (semanticScore : number) (dealScore : DealScore)
    (traditionalItem : RankedItem) : Explanation :=
  let semanticReason' :=
    if ge semanticScore (Fin 75) then "Highly relevant to your search intent"
    else if ge semanticScore (Fin 60) then "Good match for your search intent"
    else if ge semanticScore (Fin 40) then "Somewhat relevant to your search"
    else "Limited relevance to your search intent" in
  let dealReason' := getDealExplanation dealScore in
  let rf := rankingFactors traditionalItem in
  let traditionalFactors :=
    (if gt (priceScore rf) (Fin 70) then ["great price"] else []) ++
    (if gt (sellerScore rf) (Fin 80) then ["excellent seller"] else []) ++
    (if gt (shippingScore rf) (Fin 80) then ["free shipping"] else []) ++
    (if gt (keywordScore rf) (Fin 70) then ["keyword match"] else []) in
  let overallReason' :=
    if (ge semanticScore (Fin 70) && ge (overallScore dealScore) (Fin 70))%bool then
      "Excellent match: highly relevant and great deal quality"
    else if (ge semanticScore (Fin 60) || ge (overallScore dealScore) (Fin 70))%bool then
      ("Good option: " ++
       (if ge semanticScore (Fin 60) then "relevant to your needs" else "attractive deal"))%string
    else
      ("Consider carefully: " ++
       (if lt semanticScore (Fin 40) then "limited relevance" else "fair deal quality"))%string in
  let overallReason' :=
    match traditionalFactors with
    | [] => overallReason'
    | _ => (overallReason' ++ " (" ++ join traditionalFactors ++ ")")%string
    end in
  {| semanticReason := if truthy semanticScore then Some semanticReason' else None;
     dealReason := dealReason';
     overallReason := overallReason' |}.

(** [semanticScore || 50] on [number | null]. *)
Definition normalizeSemantic (semanticScore : option number) : number :=
  if opt_truthy semanticScore then
    match semanticScore with Some s => s | None => NaN end
  else Fin 50.

Definition combineScores (traditionalItem : RankedItem) (semanticScore : option number)
    (dealScore : DealScore) : EnhancedRankedItem :=
  let normalizedTraditional := relevanceScore traditionalItem in
  let normalizedSemantic := normalizeSemantic semanticScore in
  let normalizedDeal := overallScore dealScore in
  let finalScore' :=
    (normalizedSemantic * Fin 0.35 +
     normalizedDeal * Fin 0.35 +
     normalizedTraditional * Fin 0.30)%js in
  let explanation' := generateExplanation normalizedSemantic dealScore traditionalItem in
  {| ranked := {| item := item traditionalItem;
                  relevanceScore := finalScore';
                  rankingFactors := rankingFactors traditionalItem |};
     semanticScore := if opt_truthy semanticScore then semanticScore else None;
     dealScore := Some dealScore;
     aiRankingFactors :=
       {| semanticSimilarity := round2 normalizedSemantic;
          dealQuality := round2 normalizedDeal;
          traditionalRelevance := round2 normalizedTraditional;
          finalScore := round2 finalScore' |};
     explanation := explanation' |}.

(** The 0 to 100 scale of a similarity. *)
Definition rescale (similarity : number) : number :=
  Math_max (Fin 0) (Math_min (Fin 100) ((similarity + Fin 1) * Fin 50)%js).

Definition calculateSemanticScores (items : list EbayItem) (userQuery : string)
    : Async (list (option number)) :=
  queryEmbedding <~
    AzureOpenAIEmbeddingService.generateEmbedding azureOpenAIService userQuery ;;
  match queryEmbedding with
  | None => aret (map (fun _ => None) items)
  | Some queryEmbedding' =>
      let itemTexts :=
        map (fun item => (title item ++ " " ++ str_or (shortDescription item) "")%string) items in
      itemEmbeddings <~
        AzureOpenAIEmbeddingService.generateBatchEmbeddings azureOpenAIService itemTexts ;;
      aret (map (fun embedding =>
                   match embedding with
                   | None => None
                   | Some embedding' =>
                       match AzureOpenAIEmbeddingService.calculateCosineSimilarity
                               B queryEmbedding' embedding' with
                       | inr similarity => Some (rescale similarity)
                       | inl _ => None
                       end
                   end)
                itemEmbeddings)
  end.

Definition fallbackToTraditional (items : list EbayItem) (preferences : UserPreferences)
    : Try (list EnhancedRankedItem) :=
  let traditionalRanked := getTraditionalRanking items preferences in
  let dealScores := scoreBatchDeals items in
  sequence
    (mapi (fun item index =>
             d <- property "overallScore" (nth_error dealScores index) ;;
             ret {| ranked := item;
                    semanticScore := None;
                    dealScore := Some d;
                    aiRankingFactors :=
                      {| semanticSimilarity := Fin 50;
                         dealQuality := overallScore d;
                         traditionalRelevance := relevanceScore item;
                         finalScore :=
                           ((relevanceScore item + overallScore d) / Fin 2)%js |};
                    explanation :=
                      {| semanticReason := None;
                         dealReason := getDealExplanation d;
                         overallReason :=
                           "Ranked using traditional factors and deal quality assessment" |}
                 |})
          traditionalRanked).

(** Step 2 of [rankItemsWithAI]: the semantic scores, [[]] when there is no
    query or the provider is not available. *)
Definition semanticPhase (items : list EbayItem) (userQuery : option string)
    : Async (list (option number)) :=
  match userQuery with
  | Some userQuery' =>
      if (str_truthy userQuery' &&
          AzureOpenAIEmbeddingService.isAvailable azureOpenAIService)%bool
      then calculateSemanticScores items userQuery'
      else aret []
  | None => aret []
  end.

(** Step 4 of [rankItemsWithAI]: [dealScores[index]] is read as an object,
    a TypeError if it is [undefined]. *)
Definition combineAll (traditionalRanked : list RankedItem)
    (semanticScores : list (option number)) (dealScores : list DealScore)
    : Try (list EnhancedRankedItem) :=
  sequence
    (mapi (fun item index =>
             d <- property "overallScore" (nth_error dealScores index) ;;
             ret (combineScores item (lookup_score semanticScores index) d))
          traditionalRanked).

(** The [try] block of [rankItemsWithAI]. *)
Definition rankItemsWithAI_try (items : list EbayItem) (preferences : UserPreferences)
    (userQuery : option string) : Async (Try (list EnhancedRankedItem)) :=
  let traditionalRanked := getTraditionalRanking items preferences in
  semanticScores <~ semanticPhase items userQuery ;;
  let dealScores := scoreBatchDeals items in
  aret (enhancedItems <- combineAll traditionalRanked semanticScores dealScores ;;
        ret (sort (fun a b => (finalScore (aiRankingFactors b) -
                               finalScore (aiRankingFactors a))%js)
                  enhancedItems)).

(** [rankItemsWithAI]: the [try] block, and [fallbackToTraditional] when
    it throws; a throw of the fallback rejects the promise. *)
Definition rankItemsWithAI (items : list EbayItem) (preferences : UserPreferences)
    (userQuery : option string) : Async (Try (list EnhancedRankedItem)) :=
  r <~ rankItemsWithAI_try items preferences userQuery ;;
  match r with
  | inr finalRanked => aret (ret finalRanked)
  | inl _ => aret (fallbackToTraditional items preferences)
  end.

End Engine.

End EnhancedEbayRankingEngine.

(* ================================================================== *)
(** * eBay client ([ebay-api.ts]) *)

Module EbaySearchCriteria.

Record t : Type := {
  keywords : string;
  categoryId : option string;
  minPrice : option number;
  maxPrice : option number;
  condition : option string;
  sellerRating : option number;
  freeShipping : option bool;
  buyItNow : option bool;
  sortOrder : option string
}.

End EbaySearchCriteria.

(** ToBoolean of an optional string and of an optional flag. *)
Definition opt_str_truthy (s : option string) : bool :=
  match s with
  | Some s' => str_truthy s'
  | None => false
  end.

Definition opt_flag (b : option bool) : bool :=
  match b with
  | Some b' => b'
  | None => false
  end.

Module EbayAPIClient.

(** The [data] of the token endpoint's answer. *)
Record TokenResponse : Type := {
  access_token : string;
  expires_in : number
}.

(** What the client meets outside itself during one call: the two readings
    of [Date.now()] (at the test of the cached token, and when the token
    answer has arrived), the answer of the token endpoint and the answer of
    the search endpoint to a token and a list of query parameters
    ([data.itemSummaries], which may be missing). *)
Record Network : Type := {
  now : number;
  later : number;
  post_token : Try TokenResponse;
  get_search : string -> list (string * string) -> Try (option (list EbayItem))
}.

(** The mutable fields of the client. *)
Record t : Type := {
  accessToken : option string;
  tokenExpiry : number
}.

(** The client as its constructor leaves it. *)
Definition fresh : t := {| accessToken := None; tokenExpiry := Fin 0 |}.

(** [getAccessToken]: the token, or the throw, and the client after the
    call. *)
Definition getAccessToken (net : Network) (this : t) : Try string * t :=
  let request :=
    match post_token net with
    | inr response =>
        (ret (access_token response),
         {| accessToken := Some (access_token response);
            tokenExpiry := (later net + expires_in response * Fin 900)%js |})
    | inl _ => (throw (newError "Failed to authenticate with eBay API"), this)
    end in
  match accessToken this with
  | Some token =>
      if (str_truthy token && lt (now net) (tokenExpiry this))%bool
      then (ret token, this)
      else request
  | None => request
  end.

(** [a || ''] inside a template literal. *)
Definition number_or_empty (B : Builtins) (x : option number) : string :=
  if opt_truthy x then
    match x with Some v => Number_toString B v | None => "" end
  else "".

(** The [filters] array of [searchItems]. *)
Definition filters (B : Builtins) (criteria : EbaySearchCriteria.t) : list string :=
  (if (opt_truthy (EbaySearchCriteria.minPrice criteria) ||
       opt_truthy (EbaySearchCriteria.maxPrice criteria))%bool
   then ["price:[" ++ number_or_empty B (EbaySearchCriteria.minPrice criteria) ++ ".." ++
         number_or_empty B (EbaySearchCriteria.maxPrice criteria) ++ "]"]%string
   else []) ++
  (if opt_str_truthy (EbaySearchCriteria.condition criteria)
   then ["conditions:{" ++ str_or (EbaySearchCriteria.condition criteria) "" ++ "}"]%string
   else []) ++
  (if opt_flag (EbaySearchCriteria.freeShipping criteria)
   then ["deliveryOptions:{FAST_N_FREE}"] else []) ++
  (if opt_flag (EbaySearchCriteria.buyItNow criteria)
   then ["buyingOptions:{FIXED_PRICE}"] else []).

(** The query parameters, in the order they are appended. *)
Definition searchParams (B : Builtins) (criteria : EbaySearchCriteria.t) (limit : number)
    : list (string * string) :=
  [("q", EbaySearchCriteria.keywords criteria); ("limit", Number_toString B limit)] ++
  (if opt_str_truthy (EbaySearchCriteria.categoryId criteria)
   then [("category_ids", str_or (EbaySearchCriteria.categoryId criteria) "")] else []) ++
  (match filters B criteria with
   | [] => []
   | fs => [("filter", String.concat "," fs)]
   end) ++
  (if opt_str_truthy (EbaySearchCriteria.sortOrder criteria)
   then [("sort", str_or (EbaySearchCriteria.sortOrder criteria) "")] else []).

(** [searchItems]: every throw inside its [try] is thrown again as the one
    error of the search. *)
Definition searchItems (B : Builtins) (net : Network) (this : t)
    (criteria : EbaySearchCriteria.t) (limit : number) : Try (list EbayItem) * t :=
  let '(token, this') := getAccessToken net this in
  match token with
  | inr accessToken' =>
      match get_search net accessToken' (searchParams B criteria limit) with
      | inr itemSummaries =>
          (ret (match itemSummaries with Some found => found | None => [] end), this')
      | inl _ => (throw (newError "Failed to search eBay items"), this')
      end
  | inl _ => (throw (newError "Failed to search eBay items"), this')
  end.

End EbayAPIClient.

(* ================================================================== *)
(** * Search route ([app/api/search/route.ts]) *)

Module SearchRoute.

(** The parsed request body. *)
Record SearchBody : Type := {
  searchCriteria : EbaySearchCriteria.t;
  userPreferences : UserPreferences;
  useAIRanking : option bool
}.

(** The ranked list of either path. *)
Inductive Ranking : Type :=
| Traditional (items : list RankedItem)
| Enhanced (items : list EnhancedRankedItem).

Definition ranking_length (r : Ranking) : nat :=
  match r with
  | Traditional items => List.length items
  | Enhanced items => List.length items
  end.

(** [rankedItems.slice(0, 50)] *)
Definition top (r : Ranking) : Ranking :=
  match r with
  | Traditional items => Traditional (slice items 0 50)
  | Enhanced items => Enhanced (slice items 0 50)
  end.

(** What [NextResponse.json] is given, with its status. *)
Inductive Response : Type :=
| Failure (status : nat) (error : string)
| NoItems (message : string)
| Found (items : Ranking) (total originalTotal : nat) (aiEnhanced : bool)
        (message : string).

Definition status_of (r : Response) : nat :=
  match r with
  | Failure status _ => status
  | NoItems _ => 200
  | Found _ _ _ _ _ => 200
  end.

Section Route.
Context (B : Builtins).
Context (azureOpenAIService : AzureOpenAIEmbeddingService.t).
Context (marketAverages : list (string * number)).
Context (net : EbayAPIClient.Network) (ebayAPI : EbayAPIClient.t).

(** The [try] block of [POST]; [body] is what [request.json()] gives, or
    its throw, and [calls] the state of the embedding endpoint. *)
Definition POST_try (body : Try SearchBody) (calls : nat) : Try Response :=
  b <- body ;;
  let criteria := searchCriteria b in
  if negb (str_truthy (EbaySearchCriteria.keywords criteria)) then
    ret (Failure 400 "Keywords are required for search")
  else
    items <- fst (EbayAPIClient.searchItems B net ebayAPI criteria (Fin 100)) ;;
    match items with
    | [] => ret (NoItems "No items found for your search criteria")
    | _ :: _ =>
        rankedItems <-
          (if opt_flag (useAIRanking b) then
             ranked <- fst (EnhancedEbayRankingEngine.rankItemsWithAI B azureOpenAIService
                              marketAverages items (userPreferences b)
                              (Some (EbaySearchCriteria.keywords criteria)) calls) ;;
             ret (Enhanced ranked)
           else ret (Traditional (EbayRankingEngine.rankItems items (userPreferences b)))) ;;
        let topItems := top rankedItems in
        ret (Found topItems (ranking_length topItems) (List.length items)
                   (opt_flag (useAIRanking b))
                   ("Found " ++ Number_toString B (of_nat (ranking_length topItems)) ++
                    " relevant items out of " ++
                    Number_toString B (of_nat (List.length items)) ++ " total results" ++
                    (if opt_flag (useAIRanking b) then " (AI-enhanced ranking)" else ""))%string)
    end.

(** [POST]: the [try] block, and the status chosen from the message of
    what it threw. *)
Definition POST (body : Try SearchBody) (calls : nat) : Response :=
  match POST_try body calls with
  | inr response => response
  | inl error =>
      if includes (message error) "authenticate" then
        Failure 401 "eBay API authentication failed. Please check your credentials."
      else if includes (message error) "rate limit" then
        Failure 429 "Rate limit exceeded. Please try again later."
      else
        Failure 500 "An error occurred while searching eBay. Please try again."
  end.

End Route.

End SearchRoute.

(* ================================================================== *)
(** * Search page ([app/page.tsx]) *)

(** [s.split(sep)] for a one-character separator. *)
Fixpoint split (sep : ascii) (s : string) : list string :=
  match s with
  | EmptyString => [EmptyString]
  | String c s' =>
      if Ascii.eqb c sep then EmptyString :: split sep s'
      else
        match split sep s' with
        | word :: words => String c word :: words
        | [] => [String c EmptyString]
        end
  end.

(** A number after [JSON.stringify] and [JSON.parse]: NaN and the
    infinities are written [null]; a missing member stays missing. *)
Definition viaJSON (x : option number) : option number :=
  match x with
  | Some (Fin q) => Some (Fin q)
  | _ => None
  end.

Module SearchFormData.

Record t : Type := {
  keywords : string;
  category : string;
  minPrice : string;
  maxPrice : string;
  condition : string;
  minSellerRating : string;
  freeShipping : bool;
  buyItNow : bool;
  sortBy : string;
  useAIRanking : option bool
}.

End SearchFormData.

Module Home.

(** The [searchCriteria] object of [handleSearch]. *)
Definition searchCriteriaOf (formData : SearchFormData.t) : EbaySearchCriteria.t :=
  {| EbaySearchCriteria.keywords := SearchFormData.keywords formData;
     EbaySearchCriteria.categoryId := None;
     EbaySearchCriteria.minPrice :=
       if str_truthy (SearchFormData.minPrice formData)
       then Some (parseFloat (SearchFormData.minPrice formData)) else None;
     EbaySearchCriteria.maxPrice :=
       if str_truthy (SearchFormData.maxPrice formData)
       then Some (parseFloat (SearchFormData.maxPrice formData)) else None;
     EbaySearchCriteria.condition :=
       if str_truthy (SearchFormData.condition formData)
       then Some (SearchFormData.condition formData) else None;
     EbaySearchCriteria.sellerRating := None;
     EbaySearchCriteria.freeShipping := Some (SearchFormData.freeShipping formData);
     EbaySearchCriteria.buyItNow := Some (SearchFormData.buyItNow formData);
     EbaySearchCriteria.sortOrder := Some (SearchFormData.sortBy formData) |}.

(** The [userPreferences] object of [handleSearch]. *)
Definition userPreferencesOf (formData : SearchFormData.t) : UserPreferences :=
  {| maxPrice :=
       if str_truthy (SearchFormData.maxPrice formData)
       then Some (parseFloat (SearchFormData.maxPrice formData)) else None;
     preferredCondition :=
       if str_truthy (SearchFormData.condition formData)
       then Some [SearchFormData.condition formData] else None;
     minimumSellerRating := Some (parseFloat (SearchFormData.minSellerRating formData));
     freeShippingOnly := Some (SearchFormData.freeShipping formData);
     preferredCountries := None;
     keywords :=
       Some (filter (fun keyword => Nat.ltb 2 (String.length keyword))
                    (split " " (SearchFormData.keywords formData))) |}.

(** The body the route parses: what [JSON.stringify] wrote of the object
    [handleSearch] posts. *)
Definition requestBody (formData : SearchFormData.t) : SearchRoute.SearchBody :=
  let criteria := searchCriteriaOf formData in
  let preferences := userPreferencesOf formData in
  {| SearchRoute.searchCriteria :=
       {| EbaySearchCriteria.keywords := EbaySearchCriteria.keywords criteria;
          EbaySearchCriteria.categoryId := EbaySearchCriteria.categoryId criteria;
          EbaySearchCriteria.minPrice := viaJSON (EbaySearchCriteria.minPrice criteria);
          EbaySearchCriteria.maxPrice := viaJSON (EbaySearchCriteria.maxPrice criteria);
          EbaySearchCriteria.condition := EbaySearchCriteria.condition criteria;
          EbaySearchCriteria.sellerRating := EbaySearchCriteria.sellerRating criteria;
          EbaySearchCriteria.freeShipping := EbaySearchCriteria.freeShipping criteria;
          EbaySearchCriteria.buyItNow := EbaySearchCriteria.buyItNow criteria;
          EbaySearchCriteria.sortOrder := EbaySearchCriteria.sortOrder criteria |};
     SearchRoute.userPreferences :=
       {| maxPrice := viaJSON (maxPrice preferences);
          preferredCondition := preferredCondition preferences;
          minimumSellerRating := viaJSON (minimumSellerRating preferences);
          freeShippingOnly := freeShippingOnly preferences;
          preferredCountries := preferredCountries preferences;
          keywords := keywords preferences |};
     SearchRoute.useAIRanking := SearchFormData.useAIRanking formData |}.

End Home.

(* ================================================================== *)
(** * The formulas the specification names *)

(** The dot product of two vectors, summed from the first component on. *)
Definition dotProduct (a b : Embedding) : number :=
  fold_left (fun acc '(x, y) => (acc + x * y)%js) (combine a b) (Fin 0).

(** The sum of the squares of the components. *)
Definition squaredNorm (a : Embedding) : number :=
  fold_left (fun acc x => (acc + x * x)%js) a (Fin 0).

(** One turn of the loop of [calculateCosineSimilarity], on the accumulators
    and the pair of components read. *)
Definition cosineStep (acc : number * number * number) (xy : number * number)
    : number * number * number :=
  let '(dotProduct, norm1, norm2) := acc in
  let '(x, y) := xy in
  ((dotProduct + x * y)%js, (norm1 + x * x)%js, (norm2 + y * y)%js).

(** The semantic score an item carries, the neutral 50 when it has none. *)
Definition semanticOrNeutral (semanticScore : option number) : number :=
  match semanticScore with
  | Some s => s
  | None => Fin 50
  end.

(** The comparator [(a, b) => key(b) - key(a)]: largest key first. *)
Definition descending {A : Type} (key : A -> number) : A -> A -> number :=
  fun a b => (key b - key a)%js.

(** No key of the list is NaN. *)
Definition keyed {A : Type} (key : A -> number) (l : list A) : Prop :=
  Forall (fun x => is_NaN (key x) = false) l.

(** Sorted non-increasing by key: every element's key is at least the key
    of each element after it. *)
Definition nonIncreasing {A : Type} (key : A -> number) (l : list A) : Prop :=
  StronglySorted (fun a b => num_le (key b) (key a)) l.

(** The parsed price of a listing, [parseFloat(item.price.value)]. *)
Definition priceOf (item : EbayItem) : number := parseFloat (value (price item)).

(** A score on the 0 to 100 scale. *)
Definition inRange (a : number) : Prop := num_le (Fin 0) a /\ num_le a (Fin 100).

(** The endpoint never answers with more embeddings than texts sent. *)
Definition answersWithinBatch (remote : Remote) : Prop :=
  forall n texts data,
    remote n (InputBatch texts) = Resolved (Some data) ->
    (List.length data <= List.length texts)%nat.

(** The run-time listing has every member [scoreDeal] reads. *)
Definition wellShaped (item : JsItem) : bool :=
  match js_price item, js_seller item, js_condition item, js_title item with
  | Some _, Some _, Some _, Some _ =>
      match js_shippingOptions item with
      | Some (first :: _) =>
          match js_shippingCost first with Some _ => true | None => false end
      | _ => true
      end
  | _, _, _, _ => false
  end.

(** The fused final score of a returned item. *)
Definition finalOf (r : EnhancedRankedItem) : number := finalScore (aiRankingFactors r).

(** The listing a returned item was made from. *)
Definition listingOf (r : EnhancedRankedItem) : EbayItem := item (ranked r).

(** The semantic scores Step 2 leaves, from the state of the endpoint. *)
Definition semanticScoresAt (B : Builtins) (service : AzureOpenAIEmbeddingService.t)
    (items : list EbayItem) (userQuery : option string) (calls : nat)
    : list (option number) :=
  fst (EnhancedEbayRankingEngine.semanticPhase B service items userQuery calls).

(** The item [combineScores] makes of the listing at [index]. *)
Definition fusedItem (B : Builtins) (marketAverages : list (string * number))
    (preferences : UserPreferences) (semanticScores : list (option number))
    (listing : EbayItem) (index : nat) : EnhancedRankedItem :=
  EnhancedEbayRankingEngine.combineScores B
    (EbayRankingEngine.calculateRelevanceScore listing preferences)
    (lookup_score semanticScores index)
    (MLDealScoringService.scoreDeal B marketAverages (js_of_item listing) None).

(** The value [rankItemsWithAI] resolves to, [[]] if the promise rejects. *)
Definition resolved {A : Type} (r : Try (list A) * nat) : list A :=
  match fst r with
  | inr l => l
  | inl _ => []
  end.

(** The listing's price text parses to a non-negative number and its
    seller rating is finite. *)
Definition numericListing (item : EbayItem) : bool :=
  match priceOf item, feedbackPercentage (seller item) with
  | Fin p, Fin _ => Qle_bool 0 p
  | _, _ => false
  end.

(** No preference is set: every field is missing, falsy or empty. *)
Definition noPreference (preferences : UserPreferences) : bool :=
  (negb (opt_truthy (maxPrice preferences)) &&
   match preferredCondition preferences with Some (_ :: _) => false | _ => true end &&
   negb (opt_truthy (minimumSellerRating preferences)) &&
   negb (opt_flag (freeShippingOnly preferences)) &&
   match keywords preferences with Some (_ :: _) => false | _ => true end)%bool.

(** No factor is one [getScoreExplanation] has a phrase for. *)
Definition unremarkable (f : RankingFactors) : bool :=
  (negb (gt (priceScore f) (Fin 70)) && negb (lt (priceScore f) (Fin 30)) &&
   negb (gt (conditionScore f) (Fin 70)) && negb (lt (conditionScore f) (Fin 30)) &&
   negb (gt (sellerScore f) (Fin 70)) && negb (lt (sellerScore f) (Fin 30)) &&
   negb (gt (shippingScore f) (Fin 70)) && negb (strict_eq (shippingScore f) (Fin 0)) &&
   negb (gt (keywordScore f) (Fin 70)) && negb (lt (keywordScore f) (Fin 30)))%bool.

(** NaN, or a score on the 0 to 100 scale. *)
Definition nanOrInRange (a : number) : Prop := a = NaN \/ inRange a.

(** A finite number between two bounds. *)
Definition between (lo hi : Q) (a : number) : Prop :=
  exists v, a = Fin v /\ lo <= v /\ v <= hi.

(** The bracket of the returned overall score that goes with a
    recommendation. *)
Definition bracket (r : Recommendation) (overall : number) : Prop :=
  match r with
  | excellent => num_le (Fin 80) overall
  | good => num_le (Fin 65) overall /\ num_le overall (Fin 80)
  | fair => num_le (Fin 40) overall /\ num_le overall (Fin 65)
  | poor => overall = NaN \/ num_le overall (Fin 40)
  end.

(** Every character of the text is white space. *)
Fixpoint blank (s : string) : bool :=
  match s with
  | EmptyString => true
  | String c s' => (is_ws c && blank s')%bool
  end.

(** The endpoint rejects every call. *)
Definition alwaysRejects (remote : Remote) : Prop :=
  forall n input, exists error, remote n input = Rejected error.

(** The endpoint answers a batch with one embedding per text, the
    embedding [embed] assigns to the text. *)
Definition answersWith (embed : string -> Embedding) (remote : Remote) : Prop :=
  forall n texts, remote n (InputBatch texts) = Resolved (Some (map embed texts)).

(** An entry of the semantic scores: null, or NaN, or on the scale. *)
Definition scored (s : option number) : Prop :=
  match s with
  | Some v => nanOrInRange v
  | None => True
  end.

(** Not one of the two infinities. *)
Definition notInfinite (a : number) : bool :=
  match a with
  | PInf | NInf => false
  | _ => true
  end.

(** The number of groups of [batchSize] texts. *)
Definition groups (n : nat) : nat :=
  ((n + (AzureOpenAIEmbeddingService.batchSize - 1)) / AzureOpenAIEmbeddingService.batchSize)%nat.

(* ================================================================== *)
(** * Sample data

    Concrete listings, preferences, endpoints and built-ins on which the
    model is run.  The built-ins are rational stand-ins for the real ones:
    [exp] and [tanh] by quotients of polynomials that are close to them
    near 0, [sqrt] by the integer square root on six decimals (exact on
    perfect squares), the regular expressions by substring tests. *)

Module Sample.

(** exp x, by the quotient (12 + 6x + x^2) / (12 - 6x + x^2). *)
Definition exp_rational (x : Q) : Q :=
  Qred ((12 + 6 * x + x * x) / (12 - 6 * x + x * x)).

(** tanh x, by the quotient x (15 + x^2) / (15 + 6 x^2). *)
Definition tanh_rational (x : Q) : Q :=
  Qred (x * (15 + x * x) / (15 + 6 * (x * x))).

Definition exp (a : number) : number :=
  match a with
  | NaN => NaN
  | PInf => PInf
  | NInf => Fin 0
  | Fin x => Fin (exp_rational x)
  end.

Definition tanh (a : number) : number :=
  match a with
  | NaN => NaN
  | PInf => Fin 1
  | NInf => Fin (-1)
  | Fin x => Fin (tanh_rational x)
  end.

Definition sqrt (a : number) : number :=
  match a with
  | NaN | NInf => NaN
  | PInf => PInf
  | Fin x =>
      if Qltb x 0 then NaN
      else
        let scale := (10 ^ 6)%Z in
        Fin (Qred (inject_Z (Z.sqrt (Qnum x * Z.pos (Qden x) * scale * scale))
                   / inject_Z (Z.pos (Qden x) * scale)))
  end.

Definition test (p : TitlePattern) (s : string) : bool :=
  let low := toLowerCase s in
  match p with
  | BrandModel => false
  | SizeSpec => false
  | ConditionWord =>
      existsb (includes low) ["new"; "used"; "refurbished"; "excellent"; "good"]
  | Hype =>
      existsb (includes low) ["!!!"; "wow"; "amazing"; "incredible"; "must see"]
  end.

Definition digit (n : nat) : string :=
  String (ascii_of_nat (48 + n mod 10)) EmptyString.

Fixpoint digits (fuel n : nat) : string :=
  match fuel with
  | O => digit n
  | S fuel' => if Nat.ltb n 10 then digit n else (digits fuel' (n / 10) ++ digit n)%string
  end.

(** Prints a number of at most two decimals. *)
Definition toString (a : number) : string :=
  match a with
  | NaN => "NaN"
  | PInf => "Infinity"
  | NInf => "-Infinity"
  | Fin x =>
      let h := Qfloor (x * 100 + (1 # 2)) in
      let m := Z.to_nat (Z.abs h) in
      let whole := digits 20 (m / 100) in
      let frac := (m mod 100)%nat in
      let body :=
        if Nat.eqb frac 0 then whole
        else if Nat.eqb (frac mod 10) 0 then (whole ++ "." ++ digit (frac / 10))%string
        else (whole ++ "." ++ digit (frac / 10) ++ digit frac)%string in
      if (h <? 0)%Z then ("-" ++ body)%string else body
  end.

Definition builtins : Builtins :=
  {| Math_tanh := tanh; Math_exp := exp; Math_sqrt := sqrt;
     RegExp_test := test; Number_toString := toString |}.

Definition usd (v : string) : Money := {| value := v; currency := "USD" |}.

Definition listing (t : string) (p : string) (c : string) (fb : Q)
    (ship : option (list string)) (d : option string) : EbayItem :=
  {| itemId := "v1|1|0"; title := t; price := usd p;
     image := None; itemWebUrl := "https://www.ebay.com/itm/1"; condition := c;
     seller := {| username := "seller"; feedbackPercentage := Fin fb;
                  feedbackScore := Fin 1200 |};
     shippingOptions :=
       option_map (map (fun v => {| shippingCost := usd v; type_ := "FIXED" |})) ship;
     location := None; shortDescription := d |}.

Definition noPreferences : UserPreferences :=
  {| maxPrice := None; preferredCondition := None; minimumSellerRating := None;
     freeShippingOnly := None; preferredCountries := None; keywords := None |}.

Definition withMaxPrice (m : number) : UserPreferences :=
  {| maxPrice := Some m; preferredCondition := None; minimumSellerRating := None;
     freeShippingOnly := None; preferredCountries := None; keywords := None |}.

Definition phoneCase (p : string) : EbayItem :=
  listing "Phone Case Blue" p "NEW" 99 (Some ["0.00"]) None.

(** An endpoint that answers every call, one embedding per text: the
    length of the text as a one-component vector. *)
Definition lengthRemote : Remote :=
  fun _ input =>
    match input with
    | InputText text => Resolved (Some [[of_nat (String.length text)]])
    | InputBatch texts =>
        Resolved (Some (map (fun text => [of_nat (String.length text)]) texts))
    end.

Definition configured (remote : Remote) : AzureOpenAIEmbeddingService.t :=
  {| AzureOpenAIEmbeddingService.isConfigured := true;
     AzureOpenAIEmbeddingService.client := Some remote |}.

Definition unconfigured : AzureOpenAIEmbeddingService.t :=
  {| AzureOpenAIEmbeddingService.isConfigured := false;
     AzureOpenAIEmbeddingService.client := None |}.

(** An endpoint whose item embeddings point away from the query's. *)
Definition oppositeRemote : Remote :=
  fun _ input =>
    match input with
    | InputText _ => Resolved (Some [[Fin 1]])
    | InputBatch texts => Resolved (Some (map (fun _ => [Fin (-1)]) texts))
    end.

(** Three listings that differ in price text and description only. *)
Definition plainCase : EbayItem :=
  listing "Phone Case Blue" "80" "NEW" 99 (Some ["0.00"]) None.

Definition unparsedCase : EbayItem :=
  listing "Phone Case Blue" "N/A" "NEW" 99 (Some ["0.00"]) None.

Definition leatherCase : EbayItem :=
  listing "Phone Case Blue" "80" "NEW" 99 (Some ["0.00"]) (Some "Leather").

Definition leatherUnder100 : UserPreferences :=
  {| maxPrice := Some (Fin 100); preferredCondition := None;
     minimumSellerRating := None; freeShippingOnly := None;
     preferredCountries := None; keywords := Some ["leather"] |}.

(** A listing as the marketplace may send it: no [price] member. *)
Definition unpricedListing : JsItem :=
  {| js_title := Some "Vintage camera, untested";
     js_price := None;
     js_condition := Some "USED";
     js_seller := Some {| username := "seller"; feedbackPercentage := Fin 98;
                          feedbackScore := Fin 40 |};
     js_shippingOptions := None |}.

End Sample.

(** More sample data: a failing endpoint, new market averages, a
    marketplace and the search form. *)
Module Scenario.

(** An endpoint that rejects every call with an error that carries no
    status and no code. *)
Definition rejecting : Remote :=
  fun _ _ => Rejected (newError "Service unavailable").

(** The embedding [Sample.lengthRemote] gives a text. *)
Definition lengthOf (text : string) : Embedding := [of_nat (String.length text)].

Definition newAverages : list (string * number) :=
  [("electronics", Fin 300); ("toys", Fin 20)].

(** A marketplace that grants a token for two hours and finds the given
    listings. *)
Definition shop (found : list EbayItem) : EbayAPIClient.Network :=
  {| EbayAPIClient.now := Fin 1000;
     EbayAPIClient.later := Fin 1200;
     EbayAPIClient.post_token :=
       inr {| EbayAPIClient.access_token := "token-1";
              EbayAPIClient.expires_in := Fin 7200 |};
     EbayAPIClient.get_search := fun _ _ => inr (Some found) |}.

(** The marketplace an hour later, its token endpoint out of service. *)
Definition closed : EbayAPIClient.Network :=
  {| EbayAPIClient.now := Fin 3601000;
     EbayAPIClient.later := Fin 3601200;
     EbayAPIClient.post_token := inl (newError "Request failed with status code 500");
     EbayAPIClient.get_search := fun _ _ => inl (newError "Network Error") |}.

(** The form as [SearchForm] starts it, with a query and the two ends of
    the price range. *)
Definition form (query minPrice maxPrice : string) : SearchFormData.t :=
  {| SearchFormData.keywords := query;
     SearchFormData.category := "";
     SearchFormData.minPrice := minPrice;
     SearchFormData.maxPrice := maxPrice;
     SearchFormData.condition := "";
     SearchFormData.minSellerRating := "95";
     SearchFormData.freeShipping := false;
     SearchFormData.buyItNow := false;
     SearchFormData.sortBy := "BestMatch";
     SearchFormData.useAIRanking := Some true |}.

End Scenario.


(* ================================================================== *)
(** * Facts about numbers *)

Lemma Qltb_lt (x y : Q) : Qltb x y = true <-> x < y.
Proof.
  unfold Qltb. rewrite negb_true_iff.
  split; intro H.
  - apply Qnot_le_lt. intro Hle. apply Qle_bool_iff in Hle. congruence.
  - destruct (Qle_bool y x) eqn:E; [|reflexivity].
    apply Qle_bool_iff in E. exfalso. apply (Qlt_not_le _ _ H E).
Qed.

Lemma Qltb_ge (x y : Q) : Qltb x y = false <-> y <= x.
Proof.
  unfold Qltb. rewrite negb_false_iff. apply Qle_bool_iff.
Qed.

Lemma Qeqb_eq (x y : Q) : Qeqb x y = true <-> x == y.
Proof. apply Qeq_bool_iff. Qed.

Lemma Qeqb_neq (x y : Q) : Qeqb x y = false <-> ~ x == y.
Proof.
  unfold Qeqb. split; intro H.
  - intro E. apply Qeq_bool_iff in E. congruence.
  - destruct (Qeq_bool x y) eqn:E; [|reflexivity].
    apply Qeq_bool_iff in E. contradiction.
Qed.

Lemma sgn_Gt (x : Q) : sgn x = Gt <-> 0 < x.
Proof. unfold sgn. symmetry. apply Qgt_alt. Qed.

Lemma sgn_Lt (x : Q) : sgn x = Lt <-> x < 0.
Proof. unfold sgn. symmetry. apply Qlt_alt. Qed.

Lemma sgn_Eq (x : Q) : sgn x = Eq <-> x == 0.
Proof. unfold sgn. symmetry. apply Qeq_alt. Qed.

(** Turns the boolean tests of a goal or hypothesis into propositions. *)
Ltac bool_to_prop :=
  repeat match goal with
  | H : Qltb _ _ = true |- _ => apply Qltb_lt in H
  | H : Qltb _ _ = false |- _ => apply Qltb_ge in H
  | H : Qle_bool _ _ = true |- _ => apply Qle_bool_iff in H
  | H : Qeqb _ _ = true |- _ => apply Qeqb_eq in H
  | H : Qeqb _ _ = false |- _ => apply Qeqb_neq in H
  | H : sgn _ = Gt |- _ => apply sgn_Gt in H
  | H : sgn _ = Lt |- _ => apply sgn_Lt in H
  | H : sgn _ = Eq |- _ => apply sgn_Eq in H
  end.

Lemma Qle_bool_false (x y : Q) : Qle_bool x y = false <-> y < x.
Proof.
  split; intro H.
  - apply Qnot_le_lt. intro Hle. apply Qle_bool_iff in Hle. congruence.
  - destruct (Qle_bool x y) eqn:E; [|reflexivity].
    apply Qle_bool_iff in E. exfalso. apply (Qlt_not_le _ _ H E).
Qed.

Lemma num_eq_refl (a : number) : a ==n a.
Proof. destruct a; simpl; auto. reflexivity. Qed.

Lemma num_le_refl (a : number) : is_NaN a = false -> num_le a a.
Proof. destruct a; simpl; intros; try discriminate; auto. apply Qle_refl. Qed.

Lemma num_le_trans (a b c : number) : num_le a b -> num_le b c -> num_le a c.
Proof.
  destruct a, b, c; simpl; intros; try contradiction; auto.
  eapply Qle_trans; eauto.
Qed.

Lemma num_lt_le (a b : number) : num_lt a b -> num_le a b.
Proof.
  destruct a, b; simpl; intros; try contradiction; auto.
  apply Qlt_le_weak; assumption.
Qed.

Lemma lt_num_lt (a b : number) : lt a b = true <-> num_lt a b.
Proof.
  destruct a, b; simpl;
    try solve [split; intros; (discriminate || contradiction || auto)].
  apply Qltb_lt.
Qed.

Lemma lt_false_num_le (a b : number) :
  is_NaN a = false -> is_NaN b = false -> lt a b = false -> num_le b a.
Proof.
  destruct a, b; simpl; intros; try discriminate; auto.
  apply Qltb_ge; assumption.
Qed.

(** On numbers, [b - a > 0] says that [a] is below [b]. *)
Lemma gt_sub_zero (a b : number) :
  is_NaN a = false -> is_NaN b = false ->
  gt (b - a)%js (Fin 0) = true <-> num_lt a b.
Proof.
  unfold gt.
  destruct a, b; simpl; intros; try discriminate;
    try solve [split; intros; (discriminate || contradiction || auto)].
  rewrite Qltb_lt. split; intro; lra.
Qed.

Lemma Qfloor_half (z : Z) : Qfloor (inject_Z z + (1 # 2)) = z.
Proof.
  unfold Qfloor, Qplus, inject_Z. simpl.
  symmetry. apply Z.div_unique with (r := 1%Z); lia.
Qed.

Lemma Math_round_integer (z : Z) : Math_round (Fin (inject_Z z)) = Fin (inject_Z z).
Proof. unfold Math_round. rewrite Qfloor_half. reflexivity. Qed.

(* ================================================================== *)
(** * Array.prototype.sort: permutation and order *)

Section SortFacts.
Context {A : Type}.

Lemma sort_insert_perm (compareFn : A -> A -> number) (x : A) (l : list A) :
  Permutation (sort_insert compareFn x l) (x :: l).
Proof.
  induction l as [|y l IH]; cbn [sort_insert].
  - apply Permutation_refl.
  - destruct (gt (compareFn x y) (Fin 0)).
    + eapply perm_trans; [apply perm_skip, IH | apply perm_swap].
    + apply Permutation_refl.
Qed.

Lemma sort_perm (compareFn : A -> A -> number) (l : list A) :
  Permutation (sort compareFn l) l.
Proof.
  induction l as [|x l IH]; simpl.
  - apply perm_nil.
  - eapply perm_trans; [apply sort_insert_perm | apply perm_skip, IH].
Qed.

Lemma sort_length (compareFn : A -> A -> number) (l : list A) :
  List.length (sort compareFn l) = List.length l.
Proof. apply Permutation_length, sort_perm. Qed.

Lemma sort_In (compareFn : A -> A -> number) (l : list A) (x : A) :
  In x (sort compareFn l) <-> In x l.
Proof.
  split; apply Permutation_in; [|apply Permutation_sym]; apply sort_perm.
Qed.

Lemma sort_insert_keyed (key : A -> number) (x : A) (l : list A) :
  is_NaN (key x) = false -> keyed key l ->
  keyed key (sort_insert (descending key) x l).
Proof.
  intros Hx Hl. unfold keyed in *.
  eapply Permutation_Forall.
  - apply Permutation_sym, sort_insert_perm.
  - constructor; assumption.
Qed.

Lemma sort_insert_sorted (key : A -> number) (x : A) (l : list A) :
  is_NaN (key x) = false -> keyed key l ->
  nonIncreasing key l ->
  nonIncreasing key (sort_insert (descending key) x l).
Proof.
  intros Hx Hk Hs. induction Hs as [|y l Hs IH Hy]; cbn [sort_insert].
  - constructor; constructor.
  - inversion Hk as [|? ? Hky Hkl]; subst.
    unfold descending at 1.
    destruct (gt (key y - key x)%js (Fin 0)) eqn:E.
    + apply gt_sub_zero in E; [|assumption|assumption].
      constructor.
      * apply IH; assumption.
      * eapply Permutation_Forall.
        { apply Permutation_sym, sort_insert_perm. }
        constructor; [apply num_lt_le; assumption | assumption].
    + assert (Hle : num_le (key y) (key x)).
      { destruct (lt (key x) (key y)) eqn:L.
        - apply lt_num_lt in L.
          apply (gt_sub_zero (key x) (key y) Hx Hky) in L. congruence.
        - apply lt_false_num_le; assumption. }
      constructor.
      * constructor; assumption.
      * constructor; [assumption|].
        eapply Forall_impl; [|exact Hy].
        intros z Hz. simpl in Hz. eapply num_le_trans; eassumption.
Qed.

Lemma sort_keyed (key : A -> number) (l : list A) :
  keyed key l -> keyed key (sort (descending key) l).
Proof.
  intro H. unfold keyed in *.
  eapply Permutation_Forall; [apply Permutation_sym, sort_perm | assumption].
Qed.

(** When no key is NaN the sorted array is in non-increasing order. *)
Lemma sort_sorted (key : A -> number) (l : list A) :
  keyed key l -> nonIncreasing key (sort (descending key) l).
Proof.
  induction 1 as [|x l Hx Hl IH]; simpl.
  - constructor.
  - apply sort_insert_sorted; [assumption | apply sort_keyed; assumption | assumption].
Qed.

Lemma nonIncreasing_map (key : A -> number) (l : list A) :
  nonIncreasing key l -> StronglySorted (fun a b => num_le b a) (map key l).
Proof.
  induction 1 as [|x l Hs IH Hx]; cbn [map]; constructor.
  - exact IH.
  - apply Forall_map. exact Hx.
Qed.

End SortFacts.

(* ================================================================== *)
(** * Preference scorer: price and seller sub-scores *)

Import EbayRankingEngine.

Lemma mul_comm (a b : number) : (a * b)%js = (b * a)%js.
Proof.
  destruct a, b; simpl; try reflexivity.
  unfold Qmult. rewrite Z.mul_comm, Pos.mul_comm. reflexivity.
Qed.

Lemma truthy_Fin (q : Q) : truthy (Fin q) = true <-> ~ q == 0.
Proof.
  simpl. rewrite negb_true_iff. apply Qeqb_neq.
Qed.

Lemma falsy_Fin (q : Q) : truthy (Fin q) = false <-> q == 0.
Proof.
  simpl. rewrite negb_false_iff. apply Qeqb_eq.
Qed.

(** With a positive budget the guard passes and the score is the branch on
    [itemPrice > maxPrice]. *)
Lemma calculatePriceScore_positive (item : EbayItem) (m : Q) :
  0 < m ->
  calculatePriceScore item (Some (Fin m)) =
  if gt (priceOf item) (Fin m) then Fin 0
  else Math_max (Fin 0) (Fin 100 - priceOf item / Fin m * Fin 50)%js.
Proof.
  intro Hm. unfold calculatePriceScore.
  assert (Ht : truthy (Fin m) = true) by (apply truthy_Fin; lra).
  rewrite Ht. reflexivity.
Qed.

(** The score below or at the budget, for a finite price. *)
Lemma priceFormula_Fin (x m : Q) :
  0 < m ->
  Math_max (Fin 0) (Fin 100 - Fin x / Fin m * Fin 50)%js =
  if Qltb 0 (100 + - (x / m * 50)) then Fin (100 + - (x / m * 50)) else Fin 0.
Proof.
  intro Hm. unfold div.
  assert (Hs : sgn m = Gt) by (apply sgn_Gt; assumption).
  rewrite Hs. reflexivity.
Qed.

Lemma priceFormula_NInf (m : Q) :
  0 < m ->
  Math_max (Fin 0) (Fin 100 - NInf / Fin m * Fin 50)%js = PInf.
Proof.
  intro Hm. unfold div.
  assert (Hs : sgn m = Gt) by (apply sgn_Gt; assumption).
  rewrite Hs. reflexivity.
Qed.

Lemma Qdiv_le_mono (x y m : Q) : 0 < m -> x <= y -> x / m <= y / m.
Proof.
  intros Hm Hxy. unfold Qdiv.
  apply Qmult_le_compat_r; [assumption|].
  apply Qlt_le_weak, Qinv_lt_0_compat; assumption.
Qed.

Lemma priceScore_monotone (i1 i2 : EbayItem) (m : Q) :
  0 < m ->
  num_le (priceOf i1) (priceOf i2) ->
  num_le (calculatePriceScore i2 (Some (Fin m)))
         (calculatePriceScore i1 (Some (Fin m))).
Proof.
  intros Hm Hle.
  rewrite !calculatePriceScore_positive by assumption.
  destruct (priceOf i1) as [| | |x], (priceOf i2) as [| | |y];
    simpl in Hle; try contradiction.
  - (* +Infinity, +Infinity *) simpl. apply Qle_refl.
  - (* -Infinity, +Infinity *)
    rewrite priceFormula_NInf by assumption. simpl. exact I.
  - (* -Infinity, -Infinity *)
    rewrite priceFormula_NInf by assumption. simpl. exact I.
  - (* -Infinity, finite *)
    rewrite priceFormula_NInf by assumption.
    rewrite priceFormula_Fin by assumption.
    unfold gt, lt. destruct (Qltb m y), (Qltb 0 (100 + - (y / m * 50))); simpl; exact I.
  - (* finite, +Infinity *)
    rewrite priceFormula_Fin by assumption.
    unfold gt, lt.
    destruct (Qltb m x); [simpl; apply Qle_refl|].
    destruct (Qltb 0 (100 + - (x / m * 50))) eqn:E; simpl; [|apply Qle_refl].
    bool_to_prop. lra.
  - (* finite, finite *)
    rewrite !priceFormula_Fin by assumption.
    unfold gt, lt.
    pose proof (Qdiv_le_mono x y m Hm Hle) as Hd.
    destruct (Qltb m y) eqn:Ey.
    + destruct (Qltb m x); [simpl; apply Qle_refl|].
      destruct (Qltb 0 (100 + - (x / m * 50))) eqn:E; simpl; [|apply Qle_refl].
      bool_to_prop. lra.
    + assert (Ex : Qltb m x = false) by (bool_to_prop; apply Qltb_ge; lra).
      rewrite Ex.
      destruct (Qltb 0 (100 + - (y / m * 50))) eqn:E2,
               (Qltb 0 (100 + - (x / m * 50))) eqn:E1; simpl; bool_to_prop; lra.
Qed.

(** C10. A maxPrice or a minimumSellerRating of exactly 0 is treated as the
    field being absent: presence is tested by truthiness, so the sub-score
    is the neutral 50 for every listing, never the hard exclusion 0; a NaN
    minimum rating gives the neutral 50 as well. *)
Theorem zero_preference_counts_as_absent (item : EbayItem) (q : Q) :
  q == 0 ->
  calculatePriceScore item (Some (Fin q)) = Fin 50 /\
  calculatePriceScore item (Some (Fin q)) = calculatePriceScore item None /\
  calculateSellerScore item (Some (Fin q)) = Fin 50 /\
  calculateSellerScore item (Some (Fin q)) = calculateSellerScore item None /\
  calculateSellerScore item (Some NaN) = Fin 50.
Proof.
  intro Hq.
  assert (Hf : truthy (Fin q) = false) by (apply falsy_Fin; assumption).
  unfold calculatePriceScore, calculateSellerScore.
  rewrite Hf. simpl. repeat split; reflexivity.
Qed.

Lemma zero_preference_counts_as_absent_witness :
  0 == 0 /\
  calculatePriceScore (Sample.phoneCase "80") (Some (Fin 0)) = Fin 50 /\
  calculateSellerScore (Sample.phoneCase "80") (Some (Fin 0)) = Fin 50.
Proof.
  split; [reflexivity|].
  pose proof (zero_preference_counts_as_absent (Sample.phoneCase "80") 0 (Qeq_refl 0))
    as (H1 & _ & H3 & _).
  split; assumption.
Defined.

(** C5, as the code has it. For a fixed positive max price: the price
    sub-score is 0 whenever the listing price exceeds the max price, it is
    max(0, 100 - 50 * (price / maxPrice)) otherwise, it is non-increasing
    in the listing price, and price 80 with max price 100 gives 60. *)
Theorem priceScore_positive_budget (m : Q) :
  0 < m ->
  (forall item, gt (priceOf item) (Fin m) = true ->
     calculatePriceScore item (Some (Fin m)) = Fin 0) /\
  (forall item, gt (priceOf item) (Fin m) = false ->
     calculatePriceScore item (Some (Fin m)) =
     Math_max (Fin 0) (Fin 100 - Fin 50 * (priceOf item / Fin m))%js) /\
  (forall i1 i2, num_le (priceOf i1) (priceOf i2) ->
     num_le (calculatePriceScore i2 (Some (Fin m)))
            (calculatePriceScore i1 (Some (Fin m)))) /\
  calculatePriceScore (Sample.phoneCase "80") (Some (Fin 100)) ==n Fin 60.
Proof.
  intro Hm. split; [|split; [|split]].
  - intros item H. rewrite calculatePriceScore_positive by assumption.
    rewrite H. reflexivity.
  - intros item H. rewrite calculatePriceScore_positive by assumption.
    rewrite H. rewrite (mul_comm (Fin 50)). reflexivity.
  - intros i1 i2. apply priceScore_monotone. assumption.
  - vm_compute. reflexivity.
Qed.

Lemma priceScore_positive_budget_witness :
  0 < 100 /\
  calculatePriceScore (Sample.phoneCase "120") (Some (Fin 100)) = Fin 0 /\
  num_le (calculatePriceScore (Sample.phoneCase "80") (Some (Fin 100)))
         (calculatePriceScore (Sample.phoneCase "20") (Some (Fin 100))).
Proof.
  assert (H : 0 < 100) by reflexivity.
  split; [exact H|].
  destruct (priceScore_positive_budget 100 H) as (Hover & _ & Hmono & _).
  split.
  - apply Hover. reflexivity.
  - apply Hmono. vm_compute. discriminate.
Defined.

(** C5 as stated fails for a max price that is not positive: with max
    price 0 a listing priced 10 is over budget and scores 50, not 0; with
    max price -100 the score rises from 0 at price -200 to 50 at -100. *)
Lemma priceScore_counterexample :
  (gt (priceOf (Sample.phoneCase "10")) (Fin 0) = true /\
   calculatePriceScore (Sample.phoneCase "10") (Some (Fin 0)) = Fin 50 /\
   ~ calculatePriceScore (Sample.phoneCase "10") (Some (Fin 0)) ==n Fin 0) /\
  (num_le (priceOf (Sample.phoneCase "-200")) (priceOf (Sample.phoneCase "-100")) /\
   calculatePriceScore (Sample.phoneCase "-200") (Some (Fin (-100))) ==n Fin 0 /\
   calculatePriceScore (Sample.phoneCase "-100") (Some (Fin (-100))) ==n Fin 50 /\
   ~ num_le (calculatePriceScore (Sample.phoneCase "-100") (Some (Fin (-100))))
            (calculatePriceScore (Sample.phoneCase "-200") (Some (Fin (-100))))).
Proof.
  split; [split; [|split] | split; [|split; [|split]]].
  - reflexivity.
  - reflexivity.
  - vm_compute. discriminate.
  - vm_compute. discriminate.
  - vm_compute. reflexivity.
  - vm_compute. reflexivity.
  - vm_compute. intro H. apply H. reflexivity.
Qed.

(* ================================================================== *)
(** * Preference scorer: the range of the sub-scores and the composite *)

Lemma inRange_Fin (x : Q) : 0 <= x -> x <= 100 -> inRange (Fin x).
Proof. intros; split; simpl; assumption. Qed.

Ltac range_const := apply inRange_Fin; unfold Qle; simpl; lia.

Lemma conditionScore_range (item : EbayItem) (preferred : option (list string)) :
  inRange (calculateConditionScore item preferred).
Proof.
  unfold calculateConditionScore.
  destruct preferred as [[|c l]|]; try range_const.
  repeat match goal with |- context [if ?b then _ else _] => destruct b end;
    range_const.
Qed.

Lemma shippingScore_range (item : EbayItem) (freeOnly : option bool) :
  inRange (calculateShippingScore item freeOnly).
Proof.
  unfold calculateShippingScore.
  destruct freeOnly as [[|]|]; try range_const.
  match goal with |- context [if ?b then _ else _] => destruct b end; range_const.
Qed.

Lemma of_nat_nonneg (n : nat) : 0 <= inject_Z (Z.of_nat n).
Proof. change 0 with (inject_Z 0). rewrite <- Zle_Qle. lia. Qed.

Lemma of_nat_pos (n : nat) : 0 < inject_Z (Z.of_nat (S n)).
Proof. change 0 with (inject_Z 0). rewrite <- Zlt_Qlt. lia. Qed.

Lemma Math_min_100_range (v : Q) : 0 <= v -> inRange (Math_min (Fin 100) (Fin v)).
Proof.
  intro Hv. unfold Math_min, lt.
  destruct (Qltb v 100) eqn:E; bool_to_prop; apply inRange_Fin; lra.
Qed.

Lemma keywordScore_range (item : EbayItem) (kws : option (list string)) :
  inRange (calculateKeywordScore item kws).
Proof.
  unfold calculateKeywordScore.
  destruct kws as [[|k l]|]; try range_const.
  cbv zeta. set (mc := fold_left _ _ _).
  unfold of_nat, of_Z, div.
  assert (Hs : sgn (inject_Z (Z.of_nat (List.length (k :: l)))) = Gt).
  { apply sgn_Gt. simpl List.length. apply of_nat_pos. }
  rewrite Hs. cbn [mul].
  apply Math_min_100_range.
  pose proof (of_nat_nonneg mc) as Ha.
  simpl List.length. pose proof (of_nat_pos (List.length l)) as Hb.
  apply Qmult_le_0_compat; [|lra].
  unfold Qdiv. apply Qmult_le_0_compat; [assumption|].
  apply Qlt_le_weak, Qinv_lt_0_compat. assumption.
Qed.

Lemma sellerScore_range (item : EbayItem) (minimum : option number) (r : Q) :
  feedbackPercentage (seller item) = Fin r ->
  inRange (calculateSellerScore item minimum).
Proof.
  intro Hr. unfold calculateSellerScore. rewrite Hr.
  destruct minimum as [m|]; [|range_const].
  destruct (truthy m) eqn:T; cbn [negb]; [|range_const].
  destruct m as [| | |m]; try discriminate.
  - cbn. range_const.
  - cbn. range_const.
  - unfold lt at 1.
    destruct (Qltb r m) eqn:E; [range_const|].
    bool_to_prop.
    cbn [sub neg add mul].
    unfold Math_min at 2, lt.
    destruct (Qltb 50 ((r + - m) * 2)) eqn:E2; bool_to_prop; cbn [add].
    + unfold Math_min, lt.
      destruct (Qltb (50 + 50) 100) eqn:E3; bool_to_prop; apply inRange_Fin; lra.
    + unfold Math_min, lt.
      destruct (Qltb (50 + (r + - m) * 2) 100) eqn:E3; bool_to_prop;
        apply inRange_Fin; lra.
Qed.

Lemma priceScore_range (item : EbayItem) (budget : option number) (p : Q) :
  priceOf item = Fin p -> 0 <= p ->
  inRange (calculatePriceScore item budget).
Proof.
  intros Hp Hp0. unfold calculatePriceScore. fold (priceOf item). rewrite Hp.
  destruct budget as [m|]; [|range_const].
  destruct (truthy m) eqn:T; cbn [negb]; [|range_const].
  destruct m as [| | |m]; try discriminate.
  - cbn. range_const.
  - cbn. range_const.
  - unfold gt, lt.
    destruct (Qltb m p) eqn:E; [range_const|].
    apply truthy_Fin in T. bool_to_prop.
    assert (Hm : 0 < m).
    { destruct (Qlt_le_dec 0 m) as [?|Hle]; [assumption|].
      exfalso. apply T. lra. }
    rewrite priceFormula_Fin by assumption.
    assert (Hd0 : 0 <= p / m).
    { unfold Qdiv. apply Qmult_le_0_compat; [assumption|].
      apply Qlt_le_weak, Qinv_lt_0_compat. assumption. }
    assert (Hd1 : p / m <= 1).
    { apply Qle_shift_div_r; [assumption|lra]. }
    destruct (Qltb 0 (100 + - (p / m * 50))) eqn:E2; bool_to_prop;
      apply inRange_Fin; lra.
Qed.

(** On a listing whose price parses to a non-negative number and whose
    seller rating is finite, the five sub-scores are on the 0 to 100 scale,
    whatever the preferences. *)
Lemma subscores_in_range (item : EbayItem) (preferences : UserPreferences) (p r : Q) :
  priceOf item = Fin p -> 0 <= p ->
  feedbackPercentage (seller item) = Fin r ->
  let f := rankingFactors (calculateRelevanceScore item preferences) in
  inRange (priceScore f) /\ inRange (conditionScore f) /\ inRange (sellerScore f) /\
  inRange (shippingScore f) /\ inRange (keywordScore f).
Proof.
  intros Hp Hp0 Hr. cbn.
  split; [eapply priceScore_range; eassumption|].
  split; [apply conditionScore_range|].
  split; [eapply sellerScore_range; eassumption|].
  split; [apply shippingScore_range | apply keywordScore_range].
Qed.

(** The composite is the weighted sum of the five sub-scores, rounded to
    two decimals, on every listing and every preferences value. *)
Lemma relevanceScore_composite (item : EbayItem) (preferences : UserPreferences) :
  let f := rankingFactors (calculateRelevanceScore item preferences) in
  relevanceScore (calculateRelevanceScore item preferences) =
  round2 (Fin 0.25 * priceScore f + Fin 0.15 * conditionScore f +
          Fin 0.20 * sellerScore f + Fin 0.15 * shippingScore f +
          Fin 0.25 * keywordScore f)%js.
Proof.
  cbv zeta. unfold calculateRelevanceScore.
  cbn [relevanceScore rankingFactors priceScore conditionScore sellerScore
       shippingScore keywordScore].
  rewrite (mul_comm (Fin 0.25) (calculatePriceScore _ _)),
          (mul_comm (Fin 0.15) (calculateConditionScore _ _)),
          (mul_comm (Fin 0.20) (calculateSellerScore _ _)),
          (mul_comm (Fin 0.15) (calculateShippingScore _ _)),
          (mul_comm (Fin 0.25) (calculateKeywordScore _ _)).
  reflexivity.
Qed.

(** C6. The price sub-score leaves the 0 to 100 scale: a listing priced
    "-50" against a max price of 100 scores 125, and the composite is
    computed from it. *)
Theorem priceScore_above_scale :
  let r := calculateRelevanceScore (Sample.phoneCase "-50") (Sample.withMaxPrice (Fin 100)) in
  priceOf (Sample.phoneCase "-50") ==n Fin (-50) /\
  priceScore (rankingFactors r) ==n Fin 125 /\
  ~ inRange (priceScore (rankingFactors r)) /\
  relevanceScore r ==n Fin 68.75.
Proof.
  cbv zeta. split; [|split; [|split]].
  - vm_compute. reflexivity.
  - vm_compute. reflexivity.
  - intros [_ H]. vm_compute in H. apply H. reflexivity.
  - vm_compute. reflexivity.
Qed.

(* ================================================================== *)
(** * Deal quality model: faults *)

Section DealFaults.
Context (B : Builtins) (marketAverages : list (string * number)).

Local Abbreviation scoreDeal_try := (MLDealScoringService.scoreDeal_try B marketAverages).
Local Abbreviation scoreDeal := (MLDealScoringService.scoreDeal B marketAverages).

(** The [try] block throws exactly on a listing that lacks a member it
    reads. *)
Lemma scoreDeal_try_returns_iff (item : JsItem) (category : option string) :
  wellShaped item = true <-> exists score, scoreDeal_try item category = inr score.
Proof.
  unfold wellShaped, MLDealScoringService.scoreDeal_try,
    MLDealScoringService.extractFeatures,
    MLDealScoringService.calculateShippingRatio,
    MLDealScoringService.calculateConditionScore,
    MLDealScoringService.calculateTitleQuality.
  destruct item as [t p c s o]; cbn [js_title js_price js_condition js_seller
                                     js_shippingOptions].
  destruct p as [p|]; cbn [property bind ret throw];
    [|split; [discriminate | intros [? H]; discriminate H]].
  destruct s as [s|]; cbn [property bind ret throw];
    [|split; [discriminate | intros [? H]; discriminate H]].
  destruct c as [c|]; destruct t as [t|]; destruct o as [[|[[cost|]] rest]|];
    cbn [property bind ret throw js_shippingCost];
    try (split; [discriminate | intros [? H]; discriminate H]);
    try (split; [intros _; eexists; reflexivity | reflexivity]).
  all: destruct (strict_eq (parseFloat (value cost)) (Fin 0));
    cbn [property bind ret throw];
    try (split; [discriminate | intros [? H]; discriminate H]);
    try (split; [intros _; eexists; reflexivity | reflexivity]).
Qed.

(** A listing of the declared shape never makes the [try] block throw. *)
Lemma scoreDeal_try_typed (item : EbayItem) (category : option string) :
  exists score, scoreDeal_try (js_of_item item) category = inr score.
Proof.
  apply scoreDeal_try_returns_iff.
  unfold wellShaped, js_of_item; cbn.
  destruct (shippingOptions item) as [[|o l]|]; reflexivity.
Qed.

Lemma scoreDeal_returns (item : JsItem) (category : option string) (score : DealScore) :
  scoreDeal_try item category = inr score -> scoreDeal item category = score.
Proof. unfold MLDealScoringService.scoreDeal. intros ->. reflexivity. Qed.

(** C4. [scoreDeal] is a total function: it returns a DealScore on every
    listing and category. When feature extraction or scoring throws, the
    value returned is exactly the neutral fallback: overallScore 50,
    confidence 0.1, the six factor scores 50, recommendation fair. *)
Theorem scoreDeal_fault_gives_neutral
    (item : JsItem) (category : option string) (error : JsError) :
  scoreDeal_try item category = inl error ->
  scoreDeal item category =
  {| overallScore := Fin 50;
     confidence := Fin 0.1;
     factors := {| d_priceScore := Fin 50; d_sellerScore := Fin 50;
                   d_shippingScore := Fin 50; d_conditionScore := Fin 50;
                   titleScore := Fin 50; freshnessScore := Fin 50 |};
     recommendation := fair |}.
Proof. unfold MLDealScoringService.scoreDeal. intros ->. reflexivity. Qed.

(** Every fault of a batch stays with its listing. *)
Lemma scoreBatchDeals_length (items : list JsItem) (category : option string) :
  List.length (MLDealScoringService.scoreBatchDeals B marketAverages items category)
  = List.length items.
Proof. unfold MLDealScoringService.scoreBatchDeals. apply length_map. Qed.

End DealFaults.

Lemma scoreDeal_fault_gives_neutral_witness :
  MLDealScoringService.scoreDeal_try Sample.builtins
    MLDealScoringService.initialMarketAverages Sample.unpricedListing None
  = inl (TypeError "Cannot read properties of undefined: value") /\
  overallScore
    (MLDealScoringService.scoreDeal Sample.builtins
       MLDealScoringService.initialMarketAverages Sample.unpricedListing None)
  = Fin 50.
Proof.
  assert (H : MLDealScoringService.scoreDeal_try Sample.builtins
                MLDealScoringService.initialMarketAverages Sample.unpricedListing None
              = inl (TypeError "Cannot read properties of undefined: value"))
    by reflexivity.
  split; [exact H|].
  rewrite (scoreDeal_fault_gives_neutral _ _ _ _ _ H). reflexivity.
Defined.

(* ================================================================== *)
(** * Embedding provider: cosine similarity *)

Section CosineFacts.
Context (B : Builtins).

Local Abbreviation cosine := (AzureOpenAIEmbeddingService.calculateCosineSimilarity B).

Lemma at_index_middle (pre a : Embedding) (x : number) (n : nat) :
  n = List.length pre ->
  AzureOpenAIEmbeddingService.at_index (pre ++ x :: a) n = x.
Proof.
  intros ->. unfold AzureOpenAIEmbeddingService.at_index. apply nth_middle.
Qed.

(** The loop over indices reads the two arrays in step. *)
Lemma cosineLoop_indices (pre1 pre2 a b : Embedding) (acc : number * number * number) :
  List.length pre1 = List.length pre2 ->
  List.length a = List.length b ->
  fold_left
    (fun '(dotProduct, norm1, norm2) i =>
       ((dotProduct + AzureOpenAIEmbeddingService.at_index (pre1 ++ a) i *
                      AzureOpenAIEmbeddingService.at_index (pre2 ++ b) i)%js,
        (norm1 + AzureOpenAIEmbeddingService.at_index (pre1 ++ a) i *
                 AzureOpenAIEmbeddingService.at_index (pre1 ++ a) i)%js,
        (norm2 + AzureOpenAIEmbeddingService.at_index (pre2 ++ b) i *
                 AzureOpenAIEmbeddingService.at_index (pre2 ++ b) i)%js))
    (seq (List.length pre1) (List.length a)) acc
  = fold_left cosineStep (combine a b) acc.
Proof.
  revert pre1 pre2 b acc.
  induction a as [|x a IH]; intros pre1 pre2 b acc Hpre Hab.
  - reflexivity.
  - destruct b as [|y b]; [discriminate|].
    destruct acc as [[d n1] n2].
    cbn [List.length seq fold_left combine cosineStep].
    rewrite !(at_index_middle pre1 a x _ eq_refl).
    rewrite !(at_index_middle pre2 b y _ Hpre).
    specialize (IH (pre1 ++ [x]) (pre2 ++ [y]) b
                   ((d + x * y)%js, (n1 + x * x)%js, (n2 + y * y)%js)).
    rewrite <- !app_assoc in IH. cbn [app] in IH.
    rewrite !length_app in IH. cbn [List.length] in IH.
    rewrite Nat.add_1_r in IH.
    rewrite IH; [reflexivity | lia | simpl in Hab; lia].
Qed.

Lemma cosineStep_split (a b : Embedding) (d n1 n2 : number) :
  List.length a = List.length b ->
  fold_left cosineStep (combine a b) (d, n1, n2) =
  (fold_left (fun acc '(x, y) => (acc + x * y)%js) (combine a b) d,
   fold_left (fun acc x => (acc + x * x)%js) a n1,
   fold_left (fun acc x => (acc + x * x)%js) b n2).
Proof.
  revert b d n1 n2.
  induction a as [|x a IH]; intros [|y b] d n1 n2 H; try discriminate.
  - reflexivity.
  - cbn [combine fold_left cosineStep]. apply IH. simpl in H. lia.
Qed.

(** On arrays of one length the loop leaves the dot product and the two
    sums of squares. *)
Lemma cosineLoop_spec (a b : Embedding) :
  List.length a = List.length b ->
  AzureOpenAIEmbeddingService.cosineLoop a b = (dotProduct a b, squaredNorm a, squaredNorm b).
Proof.
  intro H. unfold AzureOpenAIEmbeddingService.cosineLoop.
  pose proof (cosineLoop_indices [] [] a b (Fin 0, Fin 0, Fin 0) eq_refl H) as L.
  cbn [app List.length] in L. rewrite L.
  apply cosineStep_split. assumption.
Qed.

(** C7. [calculateCosineSimilarity] throws, with the dimension message,
    exactly when the two vectors differ in length. On vectors of one length
    it returns: 0 when the norm of either is 0, and otherwise the dot
    product divided by the product of the two norms. *)
Theorem cosine_throws_iff_lengths_differ (a b : Embedding) :
  ((exists error, cosine a b = inl error) <-> List.length a <> List.length b) /\
  (List.length a <> List.length b ->
     cosine a b = inl (newError "Embeddings must have the same dimension")) /\
  (List.length a = List.length b ->
     let norm1 := Math_sqrt B (squaredNorm a) in
     let norm2 := Math_sqrt B (squaredNorm b) in
     cosine a b =
     inr (if (strict_eq norm1 (Fin 0) || strict_eq norm2 (Fin 0))%bool then Fin 0
          else (dotProduct a b / (norm1 * norm2))%js)).
Proof.
  assert (Hneq : List.length a <> List.length b ->
                 cosine a b = inl (newError "Embeddings must have the same dimension")).
  { intro H. unfold AzureOpenAIEmbeddingService.calculateCosineSimilarity.
    apply Nat.eqb_neq in H. rewrite H. reflexivity. }
  assert (Heq : List.length a = List.length b ->
     let norm1 := Math_sqrt B (squaredNorm a) in
     let norm2 := Math_sqrt B (squaredNorm b) in
     cosine a b =
     inr (if (strict_eq norm1 (Fin 0) || strict_eq norm2 (Fin 0))%bool then Fin 0
          else (dotProduct a b / (norm1 * norm2))%js)).
  { intro H. cbv zeta.
    unfold AzureOpenAIEmbeddingService.calculateCosineSimilarity.
    rewrite cosineLoop_spec by assumption.
    apply Nat.eqb_eq in H. rewrite H. cbn [negb].
    destruct (strict_eq (Math_sqrt B (squaredNorm a)) (Fin 0)
              || strict_eq (Math_sqrt B (squaredNorm b)) (Fin 0))%bool; reflexivity. }
  split; [|split; assumption].
  split.
  - intros [error He] Hlen. rewrite (Heq Hlen) in He. discriminate He.
  - intro H. eexists. apply Hneq. assumption.
Qed.

End CosineFacts.

Lemma cosine_throws_iff_lengths_differ_witness :
  AzureOpenAIEmbeddingService.calculateCosineSimilarity Sample.builtins
    [Fin 1; Fin 2] [Fin 1]
  = inl (newError "Embeddings must have the same dimension") /\
  AzureOpenAIEmbeddingService.calculateCosineSimilarity Sample.builtins
    [Fin 3; Fin 4] [Fin 4; Fin 3]
  = inr (dotProduct [Fin 3; Fin 4] [Fin 4; Fin 3] / (Fin 5 * Fin 5))%js /\
  AzureOpenAIEmbeddingService.calculateCosineSimilarity Sample.builtins
    [Fin 0; Fin 0] [Fin 4; Fin 3]
  = inr (Fin 0).
Proof.
  split; [|split].
  - apply (cosine_throws_iff_lengths_differ Sample.builtins [Fin 1; Fin 2] [Fin 1]).
    simpl. discriminate.
  - destruct (cosine_throws_iff_lengths_differ Sample.builtins
                [Fin 3; Fin 4] [Fin 4; Fin 3]) as (_ & _ & H).
    rewrite (H eq_refl). reflexivity.
  - destruct (cosine_throws_iff_lengths_differ Sample.builtins
                [Fin 0; Fin 0] [Fin 4; Fin 3]) as (_ & _ & H).
    rewrite (H eq_refl). reflexivity.
Defined.

(* ================================================================== *)
(** * Embedding provider: batches *)

Section BatchFacts.
Import AzureOpenAIEmbeddingService.

Lemma slice_length {A : Type} (arr : list A) (i : nat) :
  List.length (slice arr i (i + batchSize)) = Nat.min batchSize (List.length arr - i).
Proof.
  unfold slice. rewrite length_firstn, length_skipn.
  replace (i + batchSize - i)%nat with batchSize by lia. reflexivity.
Qed.

Lemma nulls_length {A : Type} (n : nat) : List.length (@nulls A n) = n.
Proof. apply repeat_length. Qed.

(** A turn of the loop makes one entry per text of its group, when the
    endpoint answers with no more embeddings than texts. *)
Lemma batchStep_length (remote : Remote) (texts : list string) (i : nat)
    (results : list (option Embedding)) (calls : nat) :
  answersWithinBatch remote ->
  List.length results = i ->
  List.length (fst (batchStep remote texts i results calls))
  = (i + List.length (slice texts i (i + batchSize)))%nat.
Proof.
  intros Hremote Hlen. unfold batchStep.
  set (batch := slice texts i (i + batchSize)).
  set (cleanBatch := filter _ (map preprocessText batch)).
  assert (Hclean : (List.length cleanBatch <= List.length batch)%nat).
  { unfold cleanBatch. etransitivity; [apply filter_length_le|].
    rewrite length_map. apply Nat.le_refl. }
  destruct cleanBatch as [|c rest] eqn:E.
  - cbn [fst]. rewrite length_app, nulls_length. lia.
  - destruct (remote calls (InputBatch (c :: rest))) as [error|[embeddings|]] eqn:R;
      cbn [fst]; rewrite ?length_app, ?nulls_length, ?length_map; try lia.
    apply Hremote in R. lia.
Qed.

Lemma batchLoop_length (remote : Remote) (texts : list string) :
  answersWithinBatch remote ->
  forall fuel i results calls,
    List.length results = Nat.min i (List.length texts) ->
    (List.length texts <= i + batchSize * fuel)%nat ->
    List.length (fst (batchLoop fuel remote texts i results calls)) = List.length texts.
Proof.
  intros Hremote.
  induction fuel as [|fuel IH]; intros i results calls Hlen Hfuel.
  - cbn. lia.
  - cbn [batchLoop].
    destruct (Nat.ltb i (List.length texts)) eqn:E.
    + apply Nat.ltb_lt in E. unfold abind.
      destruct (batchStep remote texts i results calls) as [results' calls'] eqn:S.
      apply IH.
      * pose proof (batchStep_length remote texts i results calls Hremote) as L.
        rewrite S in L. cbn [fst] in L. rewrite L by lia.
        rewrite slice_length. lia.
      * lia.
    + apply Nat.ltb_ge in E. cbn. lia.
Qed.

(** [generateBatchEmbeddings] gives one entry per text, whichever groups
    fail, when the endpoint answers with no more embeddings than texts. *)
Lemma generateBatchEmbeddings_length (this : t) (texts : list string) (calls : nat) :
  (forall remote, client this = Some remote -> answersWithinBatch remote) ->
  List.length (fst (generateBatchEmbeddings this texts calls)) = List.length texts.
Proof.
  intro Hremote. unfold generateBatchEmbeddings.
  destruct (isConfigured this), (client this) as [remote|];
    try (cbn; apply length_map).
  apply batchLoop_length.
  - apply Hremote. reflexivity.
  - reflexivity.
  - unfold batchSize. lia.
Qed.

(** The fuel [generateBatchEmbeddings] gives is enough: with more fuel the
    loop does the same, so it ends on its own test [i < texts.length]. *)
Lemma batchLoop_fuel (remote : Remote) (texts : list string) :
  forall fuel i results calls,
    (List.length texts <= i + batchSize * fuel)%nat ->
    batchLoop (S fuel) remote texts i results calls
    = batchLoop fuel remote texts i results calls.
Proof.
  induction fuel as [|fuel IH]; intros i results calls Hfuel.
  - cbn [batchLoop].
    assert (E : Nat.ltb i (List.length texts) = false) by (apply Nat.ltb_ge; lia).
    rewrite E. reflexivity.
  - change (batchLoop (S (S fuel)) remote texts i results calls)
      with ((if Nat.ltb i (List.length texts)
             then abind (batchStep remote texts i results)
                        (fun results' =>
                           batchLoop (S fuel) remote texts (i + batchSize) results')
             else aret results) calls).
    change (batchLoop (S fuel) remote texts i results calls)
      with ((if Nat.ltb i (List.length texts)
             then abind (batchStep remote texts i results)
                        (fun results' =>
                           batchLoop fuel remote texts (i + batchSize) results')
             else aret results) calls).
    destruct (Nat.ltb i (List.length texts)); [|reflexivity].
    unfold abind. destruct (batchStep remote texts i results calls) as [results' calls'].
    apply IH. lia.
Qed.

Lemma generateEmbedding_rec_eq (fuel : nat) (this : t) (text : string)
    (retryCount calls : nat) :
  generateEmbedding_rec fuel this text retryCount calls =
  match isConfigured this, client this with
  | true, Some remote =>
      if negb (str_truthy (trim (preprocessText text))) then (None, calls)
      else
        match remote calls (InputText (preprocessText text)) with
        | Resolved (Some (first :: _)) => (Some first, S calls)
        | Resolved _ => (None, S calls)
        | Rejected error =>
            if (Nat.ltb retryCount 3 && isRetryableError error)%bool then
              match fuel with
              | S fuel' => generateEmbedding_rec fuel' this text (S retryCount) (S calls)
              | O => (None, S calls)
              end
            else (None, S calls)
        end
  | _, _ => (None, calls)
  end.
Proof. destruct fuel; reflexivity. Qed.

(** Three retries never use up the fuel of [generateEmbedding]. *)
Lemma generateEmbedding_fuel (this : t) (text : string) :
  forall fuel retryCount calls,
    (3 <= fuel + retryCount)%nat ->
    generateEmbedding_rec (S fuel) this text retryCount calls
    = generateEmbedding_rec fuel this text retryCount calls.
Proof.
  induction fuel as [|fuel IH]; intros retryCount calls Hfuel;
    rewrite generateEmbedding_rec_eq; symmetry;
    rewrite generateEmbedding_rec_eq; symmetry;
    destruct (isConfigured this), (client this) as [remote|]; try reflexivity;
    destruct (negb _); try reflexivity;
    destruct (remote calls _) as [error|[[|first rest]|]]; try reflexivity.
  - assert (E : Nat.ltb retryCount 3 = false) by (apply Nat.ltb_ge; lia).
    rewrite E. reflexivity.
  - destruct (Nat.ltb retryCount 3 && isRetryableError error)%bool; [|reflexivity].
    apply IH. lia.
Qed.

(** A group that fails gives [null] for its texts and the loop goes on
    with the next group. *)
Lemma batchStep_rejected (remote : Remote) (texts : list string) (i : nat)
    (results : list (option Embedding)) (calls : nat) (error : JsError) :
  (forall input, remote calls input = Rejected error) ->
  fst (batchStep remote texts i results calls)
  = results ++ nulls (List.length (slice texts i (i + batchSize))).
Proof.
  intro H. unfold batchStep.
  destruct (filter _ _); [reflexivity|].
  rewrite H. reflexivity.
Qed.

End BatchFacts.

(** C2. The result of [generateBatchEmbeddings] is not aligned with its
    input when a text of a group is empty after preprocessing: the
    embeddings of the texts kept are written first and the [null]s after
    them. On ["a"; " "; "bb"] the embedding of "bb" lands at index 1, the
    index of the blank text, and index 2 holds [null]. *)
Theorem generateBatchEmbeddings_misaligned :
  let texts := ["a"; " "; "bb"] in
  let results :=
    fst (AzureOpenAIEmbeddingService.generateBatchEmbeddings
           (Sample.configured Sample.lengthRemote) texts 0%nat) in
  map AzureOpenAIEmbeddingService.preprocessText texts = ["a"; ""; "bb"] /\
  Sample.lengthRemote 0%nat (InputBatch ["a"; "bb"]) = Resolved (Some [[Fin 1]; [Fin 2]]) /\
  results = [Some [Fin 1]; Some [Fin 2]; None] /\
  results <> [Some [Fin 1]; None; Some [Fin 2]].
Proof.
  cbv zeta. split; [|split; [|split]].
  - reflexivity.
  - reflexivity.
  - reflexivity.
  - vm_compute. discriminate.
Qed.

(* ================================================================== *)
(** * Fusion: what [rankItemsWithAI] resolves to *)

Lemma inr_inj {E A : Type} (a b : A) : @inr E A a = inr b -> a = b.
Proof. intro H. congruence. Qed.

Lemma sequence_mapi_from {A D C : Type} (name : string) (f : A -> nat -> D -> C)
    (dflt : D) (ds : list D) (l : list A) (k : nat) :
  (k + List.length l <= List.length ds)%nat ->
  sequence (mapi_from (fun x i => d <- property name (nth_error ds i) ;; ret (f x i d)) k l)
  = inr (mapi_from (fun x i => f x i (nth i ds dflt)) k l).
Proof.
  revert k. induction l as [|x l IH]; intros k Hk.
  - reflexivity.
  - cbn [mapi_from sequence List.length] in *.
    destruct (nth_error ds k) as [d|] eqn:E.
    + cbn [property bind ret].
      rewrite IH by lia. cbn [bind ret].
      rewrite (nth_error_nth _ _ dflt E). reflexivity.
    + apply nth_error_None in E. lia.
Qed.

Lemma In_mapi_from {A C : Type} (f : A -> nat -> C) (l : list A) (k : nat) (r : C) :
  In r (mapi_from f k l) <->
  exists j x, nth_error l j = Some x /\ r = f x (k + j)%nat.
Proof.
  revert k. induction l as [|y l IH]; intro k; cbn [mapi_from In].
  - split; [contradiction|]. intros (j & x & H & _). destruct j; discriminate H.
  - rewrite IH. split.
    + intros [H|(j & x & Hj & Hr)].
      * exists 0%nat, y. split; [reflexivity|]. rewrite Nat.add_0_r. auto.
      * exists (S j), x. split; [exact Hj|]. rewrite Nat.add_succ_r. exact Hr.
    + intros (j & x & Hj & Hr). destruct j as [|j].
      * left. cbn in Hj. injection Hj as ->. rewrite Nat.add_0_r in Hr. auto.
      * right. exists j, x. split; [exact Hj|]. rewrite Nat.add_succ_r in Hr. exact Hr.
Qed.

Lemma map_mapi_from {A C E : Type} (g : C -> E) (f : A -> nat -> C) (h : A -> E)
    (l : list A) (k : nat) :
  (forall x i, g (f x i) = h x) ->
  map g (mapi_from f k l) = map h l.
Proof.
  intro H. revert k. induction l as [|x l IH]; intro k; cbn [mapi_from map].
  - reflexivity.
  - rewrite H, IH. reflexivity.
Qed.

Lemma mapi_from_map {A A' C : Type} (f : A' -> nat -> C) (g : A -> A')
    (l : list A) (k : nat) :
  mapi_from f k (map g l) = mapi_from (fun x i => f (g x) i) k l.
Proof.
  revert k. induction l as [|x l IH]; intro k; cbn [mapi_from map].
  - reflexivity.
  - rewrite IH. reflexivity.
Qed.

Lemma mapi_from_ext_nth {A C : Type} (f g : A -> nat -> C) (l : list A) (k : nat) :
  (forall j x, nth_error l j = Some x -> f x (k + j)%nat = g x (k + j)%nat) ->
  mapi_from f k l = mapi_from g k l.
Proof.
  revert k. induction l as [|x l IH]; intros k H; cbn [mapi_from].
  - reflexivity.
  - f_equal.
    + specialize (H 0%nat x eq_refl). rewrite Nat.add_0_r in H. exact H.
    + apply IH. intros j y Hj. specialize (H (S j) y Hj).
      rewrite Nat.add_succ_r in H. exact H.
Qed.

Section FusionFacts.
Context (B : Builtins).
Context (service : AzureOpenAIEmbeddingService.t).
Context (marketAverages : list (string * number)).

Local Abbreviation rankItemsWithAI :=
  (EnhancedEbayRankingEngine.rankItemsWithAI B service marketAverages).
Local Abbreviation combineScores := (EnhancedEbayRankingEngine.combineScores B).

(** The private copy of the scorer computes what the preference engine
    computes. *)
Lemma getTraditionalRanking_spec (items : list EbayItem) (preferences : UserPreferences) :
  EnhancedEbayRankingEngine.getTraditionalRanking items preferences
  = map (fun listing => calculateRelevanceScore listing preferences) items.
Proof. reflexivity. Qed.

(** Step 4 never throws: there is a deal score for every listing. *)
Lemma combineAll_spec (items : list EbayItem) (preferences : UserPreferences)
    (semanticScores : list (option number)) :
  EnhancedEbayRankingEngine.combineAll B
    (EnhancedEbayRankingEngine.getTraditionalRanking items preferences)
    semanticScores
    (EnhancedEbayRankingEngine.scoreBatchDeals B marketAverages items)
  = inr (mapi (fusedItem B marketAverages preferences semanticScores) items).
Proof.
  unfold EnhancedEbayRankingEngine.combineAll, mapi.
  rewrite (sequence_mapi_from _ _ MLDealScoringService.neutralDealScore).
  - f_equal. rewrite getTraditionalRanking_spec, mapi_from_map.
    apply mapi_from_ext_nth. intros j listing Hj. cbn [Nat.add].
    unfold fusedItem. f_equal.
    unfold EnhancedEbayRankingEngine.scoreBatchDeals,
      MLDealScoringService.scoreBatchDeals.
    rewrite map_map.
    apply nth_error_nth.
    rewrite nth_error_map, Hj. reflexivity.
  - unfold EnhancedEbayRankingEngine.scoreBatchDeals,
      MLDealScoringService.scoreBatchDeals,
      EnhancedEbayRankingEngine.getTraditionalRanking.
    rewrite !length_map. cbn. apply Nat.le_refl.
Qed.

(** [rankItemsWithAI] always resolves, through its [try] block: to the
    fused items, sorted by final score. *)
Lemma rankItemsWithAI_resolves (items : list EbayItem) (preferences : UserPreferences)
    (userQuery : option string) (calls : nat) :
  fst (rankItemsWithAI items preferences userQuery calls)
  = inr (sort (descending finalOf)
              (mapi (fusedItem B marketAverages preferences
                       (semanticScoresAt B service items userQuery calls))
                    items)).
Proof.
  unfold EnhancedEbayRankingEngine.rankItemsWithAI,
    EnhancedEbayRankingEngine.rankItemsWithAI_try, semanticScoresAt, abind.
  destruct (EnhancedEbayRankingEngine.semanticPhase B service items userQuery calls)
    as [semanticScores calls'].
  cbn [fst aret]. rewrite combineAll_spec. reflexivity.
Qed.

Lemma resolved_rankItemsWithAI (items : list EbayItem) (preferences : UserPreferences)
    (userQuery : option string) (calls : nat) :
  resolved (rankItemsWithAI items preferences userQuery calls)
  = sort (descending finalOf)
         (mapi (fusedItem B marketAverages preferences
                  (semanticScoresAt B service items userQuery calls))
               items).
Proof. unfold resolved. rewrite rankItemsWithAI_resolves. reflexivity. Qed.

End FusionFacts.

(* ================================================================== *)
(** * Fusion: the claims *)

Section FusionClaims.
Context (B : Builtins).
Context (service : AzureOpenAIEmbeddingService.t).
Context (marketAverages : list (string * number)).

Local Abbreviation rankItemsWithAI :=
  (EnhancedEbayRankingEngine.rankItemsWithAI B service marketAverages).
Local Abbreviation combineScores := (EnhancedEbayRankingEngine.combineScores B).
Local Abbreviation scoreDeal := (MLDealScoringService.scoreDeal B marketAverages).

(** The semantic score a returned item carries is the one its final score
    was computed from. *)
Lemma semanticOrNeutral_combineScores (traditionalItem : RankedItem)
    (semantic : option number) (deal : DealScore) :
  semanticOrNeutral (semanticScore (combineScores traditionalItem semantic deal))
  = EnhancedEbayRankingEngine.normalizeSemantic semantic.
Proof.
  unfold EnhancedEbayRankingEngine.combineScores,
    EnhancedEbayRankingEngine.normalizeSemantic.
  cbn [semanticScore].
  destruct semantic as [s|]; cbn [opt_truthy]; [|reflexivity].
  destruct (truthy s); reflexivity.
Qed.

Lemma finalOf_combineScores (traditionalItem : RankedItem)
    (semantic : option number) (deal : DealScore) :
  finalOf (combineScores traditionalItem semantic deal)
  = round2 (Fin 0.35 * EnhancedEbayRankingEngine.normalizeSemantic semantic +
            Fin 0.35 * overallScore deal +
            Fin 0.30 * relevanceScore traditionalItem)%js.
Proof.
  unfold finalOf, EnhancedEbayRankingEngine.combineScores.
  cbn [aiRankingFactors finalScore].
  rewrite (mul_comm (Fin 0.35) (EnhancedEbayRankingEngine.normalizeSemantic _)),
          (mul_comm (Fin 0.35) (overallScore _)),
          (mul_comm (Fin 0.30) (relevanceScore _)).
  reflexivity.
Qed.

Lemma fusedItems_listings (preferences : UserPreferences)
    (semanticScores : list (option number)) (items : list EbayItem) :
  map listingOf (mapi (fusedItem B marketAverages preferences semanticScores) items)
  = items.
Proof.
  unfold mapi.
  rewrite (map_mapi_from listingOf _ (fun x => x)).
  - apply map_id.
  - reflexivity.
Qed.

(** C1, as the code has it. [rankItemsWithAI] resolves to a list in which
    every item's final score is 0.35 times its semantic score (the neutral
    50 when the item carries none) plus 0.35 times the deal overallScore of
    its listing plus 0.30 times the preference composite of its listing,
    rounded to two decimals; and when no final score is NaN the list is
    sorted non-increasing by final score. *)
Theorem fused_score_and_order (items : list EbayItem) (preferences : UserPreferences)
    (userQuery : option string) (calls : nat) :
  exists ranked,
    fst (rankItemsWithAI items preferences userQuery calls) = inr ranked /\
    (forall r, In r ranked ->
       In (listingOf r) items /\
       finalOf r =
       round2 (Fin 0.35 * semanticOrNeutral (semanticScore r) +
               Fin 0.35 * overallScore (scoreDeal (js_of_item (listingOf r)) None) +
               Fin 0.30 * relevanceScore
                            (calculateRelevanceScore (listingOf r) preferences))%js) /\
    (keyed finalOf ranked -> nonIncreasing finalOf ranked).
Proof.
  eexists. split; [apply rankItemsWithAI_resolves|]. split.
  - intros r Hr. apply sort_In in Hr. apply In_mapi_from in Hr.
    destruct Hr as (j & listing & Hj & ->).
    change (listingOf (fusedItem B marketAverages preferences
                         (semanticScoresAt B service items userQuery calls)
                         listing (0 + j)))
      with listing.
    split; [apply nth_error_In in Hj; exact Hj|].
    unfold fusedItem.
    rewrite finalOf_combineScores, semanticOrNeutral_combineScores.
    reflexivity.
  - intro Hk. apply sort_sorted.
    unfold keyed in *.
    eapply Permutation_Forall; [apply sort_perm | exact Hk].
Qed.

(** What Step 2 leaves when no query is supplied. *)
Lemma semanticScoresAt_no_query (items : list EbayItem) (calls : nat) :
  semanticScoresAt B service items None calls = [].
Proof. reflexivity. Qed.

Lemma lookup_score_nil (index : nat) : lookup_score [] index = None.
Proof. unfold lookup_score. destruct index; reflexivity. Qed.

(** The reason is one of four, by the score passed to
    [generateExplanation]; it is left out only for a falsy score. *)
Lemma semanticReason_buckets (s : number) (deal : DealScore) (traditionalItem : RankedItem) :
  semanticReason (EnhancedEbayRankingEngine.generateExplanation B s deal traditionalItem)
  = if truthy s then
      Some (if ge s (Fin 75) then "Highly relevant to your search intent"
            else if ge s (Fin 60) then "Good match for your search intent"
            else if ge s (Fin 40) then "Somewhat relevant to your search"
            else "Limited relevance to your search intent")
    else None.
Proof. reflexivity. Qed.

(** The score passed to [generateExplanation] is never falsy. *)
Lemma normalizeSemantic_truthy (semantic : option number) :
  truthy (EnhancedEbayRankingEngine.normalizeSemantic semantic) = true.
Proof.
  unfold EnhancedEbayRankingEngine.normalizeSemantic.
  destruct semantic as [s|]; cbn [opt_truthy]; [|reflexivity].
  destruct (truthy s) eqn:E; [exact E | reflexivity].
Qed.

(** C3. With no query supplied the semantic reason is not left out: every
    item returned carries "Somewhat relevant to your search", the bucket of
    the neutral 50 that the fusion step passes on. *)
Theorem no_query_semantic_reason_present (items : list EbayItem)
    (preferences : UserPreferences) (calls : nat) :
  exists ranked,
    fst (rankItemsWithAI items preferences None calls) = inr ranked /\
    List.length ranked = List.length items /\
    Forall (fun r => semanticReason (explanation r)
                     = Some "Somewhat relevant to your search")
           ranked.
Proof.
  eexists. split; [apply rankItemsWithAI_resolves|]. split.
  - rewrite sort_length.
    rewrite <- (length_map listingOf), fusedItems_listings. reflexivity.
  - apply Forall_forall. intros r Hr.
    apply sort_In in Hr. apply In_mapi_from in Hr.
    destruct Hr as (j & listing & _ & ->).
    rewrite semanticScoresAt_no_query.
    unfold fusedItem. rewrite lookup_score_nil. reflexivity.
Qed.

(** C8. The fused path returns one item for every input listing, whatever
    its preference composite; the preference-only path returns exactly the
    scored listings whose composite is greater than 0. *)
Theorem fused_keeps_all_preference_only_filters (items : list EbayItem)
    (preferences : UserPreferences) (userQuery : option string) (calls : nat) :
  (exists ranked,
     fst (rankItemsWithAI items preferences userQuery calls) = inr ranked /\
     Permutation (map listingOf ranked) items /\
     List.length ranked = List.length items) /\
  Permutation (rankItems items preferences)
    (filter (fun r => gt (relevanceScore r) (Fin 0))
            (map (fun listing => calculateRelevanceScore listing preferences) items)) /\
  (forall r, In r (rankItems items preferences) <->
     exists listing, In listing items /\
       r = calculateRelevanceScore listing preferences /\
       gt (relevanceScore r) (Fin 0) = true).
Proof.
  split; [|split].
  - eexists. split; [apply rankItemsWithAI_resolves|].
    assert (P : Permutation
                  (map listingOf
                     (sort (descending finalOf)
                        (mapi (fusedItem B marketAverages preferences
                                 (semanticScoresAt B service items userQuery calls))
                              items)))
                  items).
    { eapply perm_trans; [apply Permutation_map, sort_perm|].
      rewrite fusedItems_listings. apply Permutation_refl. }
    split; [exact P|].
    rewrite <- (length_map listingOf). apply Permutation_length. exact P.
  - unfold rankItems. apply sort_perm.
  - intro r. unfold rankItems. rewrite sort_In, filter_In, in_map_iff.
    split.
    + intros [(listing & <- & Hin) Hgt]. exists listing. auto.
    + intros (listing & Hin & -> & Hgt). split; [|exact Hgt].
      exists listing. auto.
Qed.

(** C9. A computed semantic score of exactly 0 is replaced by the neutral
    50 in the fusion step, as an absent score is: the item made is the one
    made without a semantic score, its final score has the semantic term
    0.35 times 50, and no final score is computed from a semantic
    contribution of 0. A cosine similarity of -1 is the score 0. *)
Theorem zero_semantic_score_is_neutral (traditionalItem : RankedItem)
    (deal : DealScore) (q : Q) :
  q == 0 ->
  EnhancedEbayRankingEngine.normalizeSemantic (Some (Fin q)) = Fin 50 /\
  combineScores traditionalItem (Some (Fin q)) deal
  = combineScores traditionalItem None deal /\
  finalOf (combineScores traditionalItem (Some (Fin q)) deal)
  = round2 (Fin 0.35 * Fin 50 + Fin 0.35 * overallScore deal +
            Fin 0.30 * relevanceScore traditionalItem)%js /\
  (forall semantic,
     ~ EnhancedEbayRankingEngine.normalizeSemantic semantic ==n Fin 0) /\
  EnhancedEbayRankingEngine.rescale (Fin (-1)) ==n Fin 0.
Proof.
  intro Hq.
  assert (Hf : truthy (Fin q) = false) by (apply falsy_Fin; assumption).
  assert (Hn : EnhancedEbayRankingEngine.normalizeSemantic (Some (Fin q)) = Fin 50).
  { unfold EnhancedEbayRankingEngine.normalizeSemantic. cbn [opt_truthy].
    rewrite Hf. reflexivity. }
  split; [exact Hn|]. split; [|split; [|split]].
  - unfold EnhancedEbayRankingEngine.combineScores. rewrite Hn.
    cbn [opt_truthy]. rewrite Hf. reflexivity.
  - rewrite finalOf_combineScores, Hn. reflexivity.
  - intros semantic H.
    pose proof (normalizeSemantic_truthy semantic) as T.
    destruct (EnhancedEbayRankingEngine.normalizeSemantic semantic) as [| | |x];
      try contradiction.
    apply truthy_Fin in T. apply T. exact H.
  - vm_compute. reflexivity.
Qed.

End FusionClaims.

(* ================================================================== *)
(** * Fusion: the model run on the sample listings *)

(** C1 as stated fails when a final score is NaN. The listing whose price
    text does not parse has a NaN price sub-score, hence a NaN final score;
    every comparison with it answers NaN, which [sort] reads as a tie, and
    the list stays in input order with the lower final score first. *)
Lemma fused_order_counterexample :
  let ranked :=
    resolved (EnhancedEbayRankingEngine.rankItemsWithAI Sample.builtins
                Sample.unconfigured MLDealScoringService.initialMarketAverages
                [Sample.plainCase; Sample.unparsedCase; Sample.leatherCase]
                Sample.leatherUnder100 None 0%nat) in
  priceOf Sample.unparsedCase = NaN /\
  map listingOf ranked = [Sample.plainCase; Sample.unparsedCase; Sample.leatherCase] /\
  (exists x z, map finalOf ranked = [Fin x; NaN; Fin z] /\ x < z) /\
  ~ nonIncreasing finalOf ranked.
Proof.
  cbv zeta.
  assert (Hf : exists x z,
             map finalOf
               (resolved (EnhancedEbayRankingEngine.rankItemsWithAI Sample.builtins
                  Sample.unconfigured MLDealScoringService.initialMarketAverages
                  [Sample.plainCase; Sample.unparsedCase; Sample.leatherCase]
                  Sample.leatherUnder100 None 0%nat))
             = [Fin x; NaN; Fin z] /\ x < z).
  { eexists. eexists. split; [vm_compute; reflexivity | reflexivity]. }
  split; [vm_compute; reflexivity|]. split; [vm_compute; reflexivity|].
  split; [exact Hf|].
  destruct Hf as (x & z & Hf & Hxz).
  intro H. apply nonIncreasing_map in H. rewrite Hf in H.
  apply StronglySorted_inv in H. destruct H as [_ H].
  apply Forall_inv_tail in H. apply Forall_inv in H.
  simpl in H. apply (Qlt_not_le _ _ Hxz H).
Qed.

Lemma fused_score_and_order_witness :
  exists ranked,
    fst (EnhancedEbayRankingEngine.rankItemsWithAI Sample.builtins
           Sample.unconfigured MLDealScoringService.initialMarketAverages
           [Sample.plainCase; Sample.leatherCase] Sample.leatherUnder100 None 0%nat)
    = inr ranked /\
    map listingOf ranked = [Sample.leatherCase; Sample.plainCase] /\
    keyed finalOf ranked /\
    nonIncreasing finalOf ranked.
Proof.
  destruct (fused_score_and_order Sample.builtins Sample.unconfigured
              MLDealScoringService.initialMarketAverages
              [Sample.plainCase; Sample.leatherCase] Sample.leatherUnder100 None 0%nat)
    as (ranked & Hr & _ & Hsorted).
  exists ranked.
  assert (He : ranked =
               sort (descending finalOf)
                 (mapi (fusedItem Sample.builtins MLDealScoringService.initialMarketAverages
                          Sample.leatherUnder100 [])
                       [Sample.plainCase; Sample.leatherCase])).
  { rewrite rankItemsWithAI_resolves in Hr. apply inr_inj in Hr. symmetry. exact Hr. }
  assert (Hk : keyed finalOf ranked).
  { rewrite He. unfold keyed. apply Forall_forall. intros r Hin.
    apply sort_In in Hin. cbn [mapi mapi_from In] in Hin.
    destruct Hin as [<-|[<-|[]]]; vm_compute; reflexivity. }
  split; [exact Hr|]. split; [rewrite He; vm_compute; reflexivity|].
  split; [exact Hk | exact (Hsorted Hk)].
Defined.

(** With no query the one listing ranked carries a semantic reason. *)
Example no_query_reason_on_sample :
  map (fun r => semanticReason (explanation r))
      (resolved (EnhancedEbayRankingEngine.rankItemsWithAI Sample.builtins
                   Sample.unconfigured MLDealScoringService.initialMarketAverages
                   [Sample.plainCase] Sample.noPreferences None 0%nat))
  = [Some "Somewhat relevant to your search"].
Proof. vm_compute. reflexivity. Qed.

(** The preference-only path drops the listing whose composite is NaN (it
    is not greater than 0); the fused path keeps it. *)
Example paths_on_sample :
  map item (rankItems [Sample.plainCase; Sample.unparsedCase] Sample.leatherUnder100)
  = [Sample.plainCase] /\
  map listingOf
      (resolved (EnhancedEbayRankingEngine.rankItemsWithAI Sample.builtins
                   Sample.unconfigured MLDealScoringService.initialMarketAverages
                   [Sample.plainCase; Sample.unparsedCase] Sample.leatherUnder100
                   None 0%nat))
  = [Sample.plainCase; Sample.unparsedCase].
Proof. split; vm_compute; reflexivity. Qed.

Lemma zero_semantic_score_is_neutral_witness :
  0 == 0 /\
  semanticScoresAt Sample.builtins (Sample.configured Sample.oppositeRemote)
    [Sample.plainCase] (Some "phone case") 0%nat = [Some (Fin 0)] /\
  EnhancedEbayRankingEngine.combineScores Sample.builtins
    (calculateRelevanceScore Sample.plainCase Sample.noPreferences) (Some (Fin 0))
    MLDealScoringService.neutralDealScore
  = EnhancedEbayRankingEngine.combineScores Sample.builtins
      (calculateRelevanceScore Sample.plainCase Sample.noPreferences) None
      MLDealScoringService.neutralDealScore.
Proof.
  split; [reflexivity|]. split; [vm_compute; reflexivity|].
  apply (zero_semantic_score_is_neutral Sample.builtins
           (calculateRelevanceScore Sample.plainCase Sample.noPreferences)
           MLDealScoringService.neutralDealScore 0 (Qeq_refl 0)).
Defined.

(* ================================================================== *)
(** * Rounding to two decimals *)

Lemma round2_Fin (x : Q) :
  round2 (Fin x) = Fin (inject_Z (Qfloor (x * 100 + (1 # 2))) / 100).
Proof. reflexivity. Qed.

Lemma round2_lower (lo : Z) (x : Q) :
  inject_Z lo / 100 <= x -> inject_Z lo / 100 <= inject_Z (Qfloor (x * 100 + (1 # 2))) / 100.
Proof.
  intro H.
  assert (Hz : (lo <= Qfloor (x * 100 + (1 # 2)))%Z).
  { rewrite <- (Qfloor_Z lo). apply Qfloor_resp_le.
    apply Qle_trans with (inject_Z lo / 100 * 100); [field_simplify; apply Qle_refl|].
    apply Qle_trans with (x * 100); [|lra].
    apply Qmult_le_compat_r; [assumption|discriminate]. }
  apply Qmult_le_compat_r; [|discriminate].
  rewrite <- Zle_Qle. exact Hz.
Qed.

Lemma round2_upper (hi : Z) (x : Q) :
  x <= inject_Z hi / 100 -> inject_Z (Qfloor (x * 100 + (1 # 2))) / 100 <= inject_Z hi / 100.
Proof.
  intro H.
  assert (Hz : (Qfloor (x * 100 + (1 # 2)) <= hi)%Z).
  { rewrite <- (Qfloor_half hi). apply Qfloor_resp_le.
    assert (x * 100 <= inject_Z hi).
    { apply Qle_trans with (inject_Z hi / 100 * 100); [|field_simplify; apply Qle_refl].
      apply Qmult_le_compat_r; [assumption|discriminate]. }
    lra. }
  apply Qmult_le_compat_r; [|discriminate].
  rewrite <- Zle_Qle. exact Hz.
Qed.

(** Rounding keeps a number between two bounds that are hundredths. *)
Lemma round2_between (lo hi : Z) (a : number) :
  between (inject_Z lo / 100) (inject_Z hi / 100) a ->
  between (inject_Z lo / 100) (inject_Z hi / 100) (round2 a).
Proof.
  intros (v & -> & Hlo & Hhi). rewrite round2_Fin.
  eexists. split; [reflexivity|].
  split; [apply round2_lower | apply round2_upper]; assumption.
Qed.

Lemma between_weaken (lo hi lo' hi' : Q) (a : number) :
  lo' == lo -> hi' == hi -> between lo hi a -> between lo' hi' a.
Proof.
  intros Hl Hh (v & -> & H1 & H2). exists v. split; [reflexivity|].
  rewrite Hl, Hh. split; assumption.
Qed.

Lemma between_inRange (a : number) : between 0 100 a <-> inRange a.
Proof.
  split.
  - intros (v & -> & H1 & H2). split; simpl; assumption.
  - intros [H1 H2]. destruct a as [| | |v]; simpl in *; try contradiction.
    exists v. auto.
Qed.

Lemma round2_inRange (a : number) : inRange a -> inRange (round2 a).
Proof.
  intro H. apply between_inRange.
  apply (between_weaken (inject_Z 0 / 100) (inject_Z 10000 / 100));
    [reflexivity | reflexivity |].
  apply round2_between.
  apply (between_weaken 0 100); [reflexivity | reflexivity |].
  apply between_inRange. exact H.
Qed.

(* ================================================================== *)
(** * Preference engine: what [rankItems] returns *)

Lemma gt_zero_not_NaN (a : number) : gt a (Fin 0) = true -> is_NaN a = false.
Proof. destruct a; simpl; intros; (discriminate || reflexivity). Qed.

(** X1. The list [rankItems] returns is sorted by relevance score, highest
    first, and holds only scores above 0, on every input. *)
Theorem rankItems_sorted_positive (items : list EbayItem) (preferences : UserPreferences) :
  nonIncreasing relevanceScore (rankItems items preferences) /\
  Forall (fun r => gt (relevanceScore r) (Fin 0) = true) (rankItems items preferences).
Proof.
  unfold rankItems.
  set (kept := filter _ _).
  assert (Hpos : Forall (fun r => gt (relevanceScore r) (Fin 0) = true) kept).
  { apply Forall_forall. intros r Hr. apply filter_In in Hr. apply Hr. }
  split.
  - apply (sort_sorted relevanceScore).
    eapply Forall_impl; [|exact Hpos]. intros r. apply gt_zero_not_NaN.
  - eapply Permutation_Forall; [apply Permutation_sym, sort_perm | exact Hpos].
Qed.

Lemma conditionScore_at_least_20 (item : EbayItem) (preferred : option (list string)) :
  between 20 100 (calculateConditionScore item preferred).
Proof.
  unfold calculateConditionScore.
  destruct preferred as [[|c l]|];
    repeat match goal with |- context [if ?b then _ else _] => destruct b end;
    eexists; (split; [reflexivity|]); split; unfold Qle; simpl; lia.
Qed.

(** The composite of a listing whose price is a non-negative number and
    whose seller rating is finite: between 3 and 100. *)
Lemma relevanceScore_bounds (item : EbayItem) (preferences : UserPreferences) :
  numericListing item = true ->
  between 3 100 (relevanceScore (calculateRelevanceScore item preferences)).
Proof.
  intro Hn. unfold numericListing in Hn.
  destruct (priceOf item) as [| | |p] eqn:Hp; try discriminate.
  destruct (feedbackPercentage (seller item)) as [| | |r] eqn:Hr; try discriminate.
  apply Qle_bool_iff in Hn.
  destruct (subscores_in_range item preferences p r Hp Hn Hr)
    as (H1 & _ & H3 & H4 & H5).
  cbn in H1, H3, H4, H5.
  apply between_inRange in H1, H3, H4, H5.
  destruct H1 as (a & Ea & ? & ?), H3 as (c & Ec & ? & ?),
           H4 as (d & Ed & ? & ?), H5 as (e & Ee & ? & ?).
  destruct (conditionScore_at_least_20 item (preferredCondition preferences))
    as (b & Eb & ? & ?).
  unfold calculateRelevanceScore. cbn [relevanceScore].
  rewrite Ea, Eb, Ec, Ed, Ee. cbn [mul add].
  apply (between_weaken (inject_Z 300 / 100) (inject_Z 10000 / 100));
    [reflexivity | reflexivity |].
  apply round2_between.
  eexists. split; [reflexivity|].
  split.
  - apply Qle_trans with 3; [apply Qle_lteq; right; reflexivity | lra].
  - apply Qle_trans with 100; [lra | apply Qle_lteq; right; reflexivity].
Qed.

(** X2. [rankItems] drops no listing whose price is a non-negative number and
    whose seller rating is finite, over budget or under the minimum rating
    as it may be: the condition sub-score is at least 20, so the composite
    is at least 3, and the filter on a composite above 0 keeps it. *)
Theorem rankItems_keeps_numeric_listings (items : list EbayItem)
    (preferences : UserPreferences) :
  Forall (fun listing => numericListing listing = true) items ->
  Permutation (map item (rankItems items preferences)) items /\
  Forall (fun r => between 3 100 (relevanceScore r)) (rankItems items preferences).
Proof.
  intro Hn. unfold rankItems.
  set (scored := map (fun listing => calculateRelevanceScore listing preferences) items).
  assert (Hb : Forall (fun r => between 3 100 (relevanceScore r)) scored).
  { unfold scored. apply Forall_map. eapply Forall_impl; [|exact Hn].
    intros listing H. apply relevanceScore_bounds. exact H. }
  assert (Hkeep : filter (fun r => gt (relevanceScore r) (Fin 0)) scored = scored).
  { apply forallb_filter_id. apply forallb_forall. intros r Hr.
    rewrite Forall_forall in Hb. destruct (Hb r Hr) as (v & -> & Hv & _).
    unfold gt, lt. apply Qltb_lt. lra. }
  rewrite Hkeep. split.
  - eapply perm_trans; [apply Permutation_map, sort_perm|].
    unfold scored. rewrite map_map. cbn [item calculateRelevanceScore].
    rewrite map_id. apply Permutation_refl.
  - eapply Permutation_Forall; [apply Permutation_sym, sort_perm | exact Hb].
Qed.

Lemma rankItems_keeps_numeric_listings_witness :
  Forall (fun listing => numericListing listing = true)
         [Sample.phoneCase "80"; Sample.phoneCase "250"] /\
  Permutation
    (map item (rankItems [Sample.phoneCase "80"; Sample.phoneCase "250"]
                 (Sample.withMaxPrice (Fin 100))))
    [Sample.phoneCase "80"; Sample.phoneCase "250"].
Proof.
  assert (H : Forall (fun listing => numericListing listing = true)
                     [Sample.phoneCase "80"; Sample.phoneCase "250"])
    by (repeat constructor).
  split; [exact H|].
  apply (rankItems_keeps_numeric_listings _ (Sample.withMaxPrice (Fin 100)) H).
Defined.

Lemma sort_ties {A : Type} (compareFn : A -> A -> number) (l : list A) :
  (forall x y, In x l -> In y l -> gt (compareFn x y) (Fin 0) = false) ->
  sort compareFn l = l.
Proof.
  induction l as [|x l IH]; intro H; [reflexivity|].
  cbn [sort fold_right]. fold (sort compareFn l).
  rewrite IH by (intros; apply H; right; assumption).
  destruct l as [|y l']; [reflexivity|].
  cbn [sort_insert]. rewrite H; [reflexivity | left; reflexivity | right; left; reflexivity].
Qed.

(** The scored item of a listing when no preference is set. *)
Lemma calculateRelevanceScore_no_preference (listing : EbayItem)
    (preferences : UserPreferences) :
  noPreference preferences = true ->
  calculateRelevanceScore listing preferences =
  {| item := listing;
     relevanceScore := round2 (Fin 50 * Fin 0.25 + Fin 50 * Fin 0.15 + Fin 50 * Fin 0.20 +
                               Fin 50 * Fin 0.15 + Fin 50 * Fin 0.25)%js;
     rankingFactors := {| priceScore := Fin 50; conditionScore := Fin 50;
                          sellerScore := Fin 50; shippingScore := Fin 50;
                          keywordScore := Fin 50 |} |}.
Proof.
  unfold noPreference. intro H.
  repeat (apply andb_prop in H; destruct H as [H ?]).
  destruct preferences as [mp pc ms fs co kw]; cbn in *.
  unfold calculateRelevanceScore; cbn.
  assert (E1 : calculatePriceScore listing mp = Fin 50).
  { unfold calculatePriceScore. destruct mp as [m|]; [|reflexivity].
    cbn in H. rewrite H. reflexivity. }
  assert (E2 : calculateConditionScore listing pc = Fin 50).
  { destruct pc as [[|c l]|]; try discriminate; reflexivity. }
  assert (E3 : calculateSellerScore listing ms = Fin 50).
  { unfold calculateSellerScore. destruct ms as [m|]; [|reflexivity].
    match goal with Hm : negb (opt_truthy (Some m)) = true |- _ => cbn in Hm; rewrite Hm end.
    reflexivity. }
  assert (E4 : calculateShippingScore listing fs = Fin 50).
  { destruct fs as [[|]|]; try discriminate; reflexivity. }
  assert (E5 : calculateKeywordScore listing kw = Fin 50).
  { destruct kw as [[|k l]|]; try discriminate; reflexivity. }
  rewrite E1, E2, E3, E4, E5. reflexivity.
Qed.

(** X3. When no preference is set, [rankItems] returns every listing, in the
    order given, each with relevance score 50 and the explanation
    ['Standard match']. *)
Theorem rankItems_no_preference (items : list EbayItem) (preferences : UserPreferences) :
  noPreference preferences = true ->
  map item (rankItems items preferences) = items /\
  Forall (fun r => relevanceScore r ==n Fin 50 /\
                   getScoreExplanation r = "Standard match")
         (rankItems items preferences).
Proof.
  intro H. unfold rankItems.
  set (scored := map (fun listing => calculateRelevanceScore listing preferences) items).
  assert (Hs : forall r, In r scored ->
                 relevanceScore r =
                 round2 (Fin 50 * Fin 0.25 + Fin 50 * Fin 0.15 + Fin 50 * Fin 0.20 +
                         Fin 50 * Fin 0.15 + Fin 50 * Fin 0.25)%js /\
                 getScoreExplanation r = "Standard match").
  { intros r Hr. apply in_map_iff in Hr. destruct Hr as (listing & <- & _).
    rewrite (calculateRelevanceScore_no_preference listing preferences H).
    split; reflexivity. }
  assert (Hkeep : filter (fun r => gt (relevanceScore r) (Fin 0)) scored = scored).
  { apply forallb_filter_id. apply forallb_forall. intros r Hr.
    destruct (Hs r Hr) as [-> _]. reflexivity. }
  rewrite Hkeep.
  assert (Hsort : sort (fun a b => (relevanceScore b - relevanceScore a)%js) scored = scored).
  { apply sort_ties. intros x y Hx Hy.
    destruct (Hs x Hx) as [-> _], (Hs y Hy) as [-> _]. reflexivity. }
  rewrite Hsort. split.
  - unfold scored. rewrite map_map. cbn [item calculateRelevanceScore]. apply map_id.
  - apply Forall_forall. intros r Hr. destruct (Hs r Hr) as [-> ->].
    split; [vm_compute|]; reflexivity.
Qed.

Lemma concat_starts (sep : string) (c : ascii) (x : string) (rest : list string) :
  exists t, String.concat sep (String c x :: rest) = String c t.
Proof. destruct rest; cbn; eexists; reflexivity. Qed.

(** A phrase heads the list of explanations: the text starts with its
    first letter. *)
Ltac phrase_first :=
  cbn [app negb andb];
  match goal with
  | |- context [String.concat ?sep (String ?c ?x :: ?rest)] =>
      let t := fresh "t" in
      let Ht := fresh "Ht" in
      destruct (concat_starts sep c x rest) as [t Ht]; rewrite Ht
  end;
  cbn [str_or str_truthy];
  split; [discriminate | split; discriminate].

(** X4. The explanation of a ranked item is never empty, and it is
    ['Standard match'] exactly when no factor has a phrase: no score above
    70, none below 30 (for shipping: none equal to 0). *)
Theorem getScoreExplanation_standard (rankedItem : RankedItem) :
  getScoreExplanation rankedItem <> "" /\
  (getScoreExplanation rankedItem = "Standard match" <->
   unremarkable (rankingFactors rankedItem) = true).
Proof.
  unfold getScoreExplanation, unremarkable.
  destruct (rankingFactors rankedItem) as [p c s sh k];
    cbn [priceScore conditionScore sellerScore shippingScore keywordScore].
  destruct (gt p (Fin 70)); [phrase_first|].
  destruct (lt p (Fin 30)); [phrase_first|].
  destruct (gt c (Fin 70)); [phrase_first|].
  destruct (lt c (Fin 30)); [phrase_first|].
  destruct (gt s (Fin 70)); [phrase_first|].
  destruct (lt s (Fin 30)); [phrase_first|].
  destruct (gt sh (Fin 70)); [phrase_first|].
  destruct (strict_eq sh (Fin 0)); [phrase_first|].
  destruct (gt k (Fin 70)); [phrase_first|].
  destruct (lt k (Fin 30)); [phrase_first|].
  cbn. split; [discriminate | split; reflexivity].
Qed.

Lemma rankItems_no_preference_witness :
  noPreference Sample.noPreferences = true /\
  map item (rankItems [Sample.plainCase; Sample.unparsedCase] Sample.noPreferences)
  = [Sample.plainCase; Sample.unparsedCase].
Proof.
  split; [reflexivity|].
  apply (rankItems_no_preference [Sample.plainCase; Sample.unparsedCase]
           Sample.noPreferences eq_refl).
Defined.

(* ================================================================== *)
(** * Deal quality model: the score returned *)

Lemma clamp_0_100 (x : number) :
  nanOrInRange (Math_max (Fin 0) (Math_min (Fin 100) x)).
Proof.
  destruct x as [| | |v]; [left; reflexivity | right | right | right].
  - cbn. split; simpl; [discriminate | apply Qle_refl].
  - cbn. split; simpl; [apply Qle_refl | discriminate].
  - unfold Math_min, lt.
    destruct (Qltb v 100) eqn:E1; unfold Math_max, lt.
    + destruct (Qltb 0 v) eqn:E2; bool_to_prop; split; simpl; lra.
    + destruct (Qltb 0 100) eqn:E2; bool_to_prop; split; simpl; lra.
Qed.

Lemma round2_nanOrInRange (a : number) : nanOrInRange a -> nanOrInRange (round2 a).
Proof.
  intros [->|H]; [left; reflexivity | right; apply round2_inRange; exact H].
Qed.

Lemma round2_at_least (lo : Z) (v : Q) :
  inject_Z lo / 100 <= v -> num_le (Fin (inject_Z lo / 100)) (round2 (Fin v)).
Proof. intro H. rewrite round2_Fin. simpl. apply round2_lower. exact H. Qed.

Lemma round2_at_most (hi : Z) (v : Q) :
  v <= inject_Z hi / 100 -> num_le (round2 (Fin v)) (Fin (inject_Z hi / 100)).
Proof. intro H. rewrite round2_Fin. simpl. apply round2_upper. exact H. Qed.

Lemma num_le_proper (a b a' b' : Q) :
  a' == a -> b' == b -> num_le (Fin a) (Fin b) -> num_le (Fin a') (Fin b').
Proof. simpl. intros -> ->. auto. Qed.

(** The recommendation is chosen from the score before rounding; the
    rounded score is within the closed bracket of the recommendation. *)
Lemma recommendation_bracket (raw : number) :
  nanOrInRange raw ->
  bracket (MLDealScoringService.getRecommendation raw) (round2 raw).
Proof.
  intros [->|[H0 H100]]; [left; reflexivity|].
  destruct raw as [| | |v]; simpl in H0, H100; try contradiction.
  unfold MLDealScoringService.getRecommendation, ge, le.
  assert (R : forall (z : Z) (q : Q), q == inject_Z z / 100 ->
              (q <= v -> num_le (Fin q) (round2 (Fin v))) /\
              (v <= q -> num_le (round2 (Fin v)) (Fin q))).
  { intros z q Hq. rewrite round2_Fin. simpl. split; intro Hv.
    - rewrite Hq. apply round2_lower. rewrite <- Hq. exact Hv.
    - rewrite Hq. apply round2_upper. rewrite <- Hq. exact Hv. }
  destruct (R 8000%Z 80 ltac:(reflexivity)) as [L80 U80].
  destruct (R 6500%Z 65 ltac:(reflexivity)) as [L65 U65].
  destruct (R 4000%Z 40 ltac:(reflexivity)) as [L40 U40].
  destruct (Qle_bool 80 v) eqn:E80.
  { apply Qle_bool_iff in E80. cbn [bracket]. apply L80. exact E80. }
  apply Qle_bool_false in E80.
  destruct (Qle_bool 65 v) eqn:E65.
  { apply Qle_bool_iff in E65. cbn [bracket].
    split; [apply L65; exact E65 | apply U80; lra]. }
  apply Qle_bool_false in E65.
  destruct (Qle_bool 40 v) eqn:E40.
  { apply Qle_bool_iff in E40. cbn [bracket].
    split; [apply L40; exact E40 | apply U65; lra]. }
  apply Qle_bool_false in E40.
  cbn [bracket]. right. apply U40. lra.
Qed.

(** The confidence before the clamp: between 0.35 and 0.95, for every
    feature vector, NaN features included. *)
Lemma calculateConfidence_between (features : DealFeatures) :
  between (inject_Z 35 / 100) (inject_Z 95 / 100)
          (MLDealScoringService.calculateConfidence features).
Proof.
  unfold MLDealScoringService.calculateConfidence.
  destruct (gt (sellerRating features) (Fin 0.95)),
           (gt (Math_abs (priceVsAverage features)) (Fin 0.3)),
           (gt (titleQualityScore features) (Fin 0.8)),
           (lt (sellerRating features) (Fin 0.9));
    eexists; (split; [vm_compute; reflexivity|]); split; vm_compute; discriminate.
Qed.

Section DealScoreFacts.
Context (B : Builtins) (marketAverages : list (string * number)).

Local Abbreviation scoreDeal_try := (MLDealScoringService.scoreDeal_try B marketAverages).
Local Abbreviation scoreDeal := (MLDealScoringService.scoreDeal B marketAverages).

(** What the [try] block returns, when it returns. *)
Lemma scoreDeal_try_inr (item : JsItem) (category : option string) (score : DealScore) :
  scoreDeal_try item category = inr score ->
  exists features,
    let raw := Math_max (Fin 0)
                 (Math_min (Fin 100)
                    (MLDealScoringService.calculateDealScore B features * Fin 100)%js) in
    score = {| overallScore := round2 raw;
               confidence := round2 (MLDealScoringService.calculateConfidence features);
               factors := MLDealScoringService.calculateFactorScores features;
               recommendation := MLDealScoringService.getRecommendation raw |}.
Proof.
  unfold MLDealScoringService.scoreDeal_try.
  destruct (MLDealScoringService.extractFeatures B marketAverages item category)
    as [error|features]; cbn [bind ret]; [discriminate|].
  intro H. apply inr_inj in H. exists features. symmetry. exact H.
Qed.

Lemma scoreDeal_overall_in_range (item : JsItem) (category : option string) :
  nanOrInRange (overallScore (scoreDeal item category)).
Proof.
  unfold MLDealScoringService.scoreDeal.
  destruct (scoreDeal_try item category) as [error|score] eqn:E.
  - right. split; simpl; discriminate.
  - destruct (scoreDeal_try_inr item category score E) as (features & ->).
    cbn [overallScore]. apply round2_nanOrInRange, clamp_0_100.
Qed.

(** X5. The overall score [scoreDeal] returns is NaN or lies between 0 and 100,
    and the recommendation returned with it brackets it: at least 80 for
    excellent, 65 to 80 for good, 40 to 65 for fair, NaN or at most 40 for
    poor. *)
Theorem scoreDeal_overall_and_recommendation (item : JsItem) (category : option string) :
  let score := scoreDeal item category in
  nanOrInRange (overallScore score) /\
  bracket (recommendation score) (overallScore score).
Proof.
  cbv zeta. unfold MLDealScoringService.scoreDeal.
  destruct (scoreDeal_try item category) as [error|score] eqn:E.
  - split.
    + right. split; simpl; discriminate.
    + cbn. split; discriminate.
  - destruct (scoreDeal_try_inr item category score E) as (features & ->).
    cbn [overallScore recommendation]. split.
    + apply round2_nanOrInRange, clamp_0_100.
    + apply recommendation_bracket, clamp_0_100.
Qed.

(** X6. The confidence of a computed score lies between 0.35 and 0.95, so the
    clamp to 0.1 .. 1.0 never acts; the confidence 0.1 is returned exactly
    when the [try] block threw. *)
Theorem scoreDeal_confidence (item : JsItem) (category : option string) :
  (forall score, scoreDeal_try item category = inr score ->
     between 0.35 0.95 (confidence score)) /\
  (confidence (scoreDeal item category) ==n Fin 0.1 <->
   exists error, scoreDeal_try item category = inl error).
Proof.
  assert (Hc : forall score, scoreDeal_try item category = inr score ->
     between 0.35 0.95 (confidence score)).
  { intros score E.
    destruct (scoreDeal_try_inr item category score E) as (features & ->).
    cbn [confidence].
    apply (between_weaken (inject_Z 35 / 100) (inject_Z 95 / 100));
      [reflexivity | reflexivity |].
    apply round2_between, calculateConfidence_between. }
  split; [exact Hc|].
  unfold MLDealScoringService.scoreDeal.
  destruct (scoreDeal_try item category) as [error|score] eqn:E.
  - split; [intros _; eexists; reflexivity | intros _; reflexivity].
  - split.
    + intro H. destruct (Hc score eq_refl) as (v & Ev & Hlo & _).
      rewrite Ev in H. simpl in H. exfalso. lra.
    + intros [error H]. discriminate H.
Qed.

End DealScoreFacts.

Lemma scoreDeal_confidence_witness :
  confidence
    (MLDealScoringService.scoreDeal Sample.builtins
       MLDealScoringService.initialMarketAverages Sample.unpricedListing None)
  ==n Fin 0.1.
Proof.
  apply (scoreDeal_confidence Sample.builtins MLDealScoringService.initialMarketAverages
           Sample.unpricedListing None).
  eexists. reflexivity.
Defined.

(* ================================================================== *)
(** * Deal quality model: title quality and market averages *)


Lemma map_get_app {V : Type} (a b : list (string * V)) (k : string) :
  map_get (a ++ b) k =
  match map_get a k with
  | Some v => Some v
  | None => map_get b k
  end.
Proof.
  induction a as [|[k' v'] a IH]; cbn [app map_get]; [reflexivity|].
  destruct (String.eqb k k'); [reflexivity | exact IH].
Qed.

Lemma map_get_update (updates m : list (string * number)) (k : string) :
  map_get (MLDealScoringService.updateMarketAverages updates m) k =
  match map_get (rev updates) k with
  | Some v => Some v
  | None => map_get m k
  end.
Proof.
  unfold MLDealScoringService.updateMarketAverages.
  revert m. induction updates as [|[k' v'] updates IH]; intro m; cbn [fold_left rev].
  - reflexivity.
  - rewrite IH, map_get_app. unfold map_set. cbn [map_get].
    destruct (map_get (rev updates) k); [reflexivity|].
    destruct (String.eqb k k'); reflexivity.
Qed.

Lemma map_get_absent {V : Type} (m : list (string * V)) (k : string) :
  ~ In k (map fst m) -> map_get m k = None.
Proof.
  induction m as [|[k' v'] m IH]; cbn [map fst In map_get]; intro H; [reflexivity|].
  destruct (String.eqb k k') eqn:E.
  - apply String.eqb_eq in E. exfalso. apply H. left. symmetry. exact E.
  - apply IH. intro Hin. apply H. right. exact Hin.
Qed.

Lemma map_get_unique {V : Type} (m : list (string * V)) (k : string) (v : V) :
  NoDup (map fst m) -> In (k, v) m -> map_get m k = Some v.
Proof.
  induction m as [|[k' v'] m IH]; cbn [map fst In map_get]; intros Hnd Hin; [contradiction|].
  inversion Hnd as [|? ? Hnotin Hnd']; subst.
  destruct Hin as [Heq|Hin].
  - injection Heq as -> ->. rewrite String.eqb_refl. reflexivity.
  - destruct (String.eqb k k') eqn:E.
    + apply String.eqb_eq in E. subst k'. exfalso. apply Hnotin.
      apply in_map_iff. exists (k, v). split; [reflexivity | exact Hin].
    + apply IH; assumption.
Qed.

(** X8. After [updateMarketAverages] with a map of averages (one entry per
    category), the table answers every category of the map with the new
    average and every other category as before. *)
Theorem updateMarketAverages_get (updates m : list (string * number)) :
  NoDup (map fst updates) ->
  (forall category average, In (category, average) updates ->
     map_get (MLDealScoringService.updateMarketAverages updates m) category
     = Some average) /\
  (forall category, ~ In category (map fst updates) ->
     map_get (MLDealScoringService.updateMarketAverages updates m) category
     = map_get m category).
Proof.
  intro Hnd. split.
  - intros category average Hin. rewrite map_get_update.
    rewrite (map_get_unique (rev updates) category average); [reflexivity | |].
    + rewrite map_rev. apply NoDup_rev. exact Hnd.
    + apply -> in_rev. exact Hin.
  - intros category Hnotin. rewrite map_get_update.
    rewrite map_get_absent; [reflexivity|].
    rewrite map_rev. intro Hin. apply Hnotin. apply in_rev. exact Hin.
Qed.

Section MarketAverages.
Context (B : Builtins).

(** [scoreDeal] reads the table at one key only: the category, or
    ['general']. *)
Lemma scoreDeal_reads_one_key (m m' : list (string * number)) (item : JsItem)
    (category : option string) :
  map_get m (str_or category "general") = map_get m' (str_or category "general") ->
  MLDealScoringService.scoreDeal B m item category
  = MLDealScoringService.scoreDeal B m' item category.
Proof.
  intro H.
  unfold MLDealScoringService.scoreDeal, MLDealScoringService.scoreDeal_try,
    MLDealScoringService.extractFeatures, MLDealScoringService.getMarketAverage.
  rewrite H. reflexivity.
Qed.

(** X9. Updating the averages of other categories leaves the score of a
    listing in its category as it was. *)
Theorem scoreDeal_other_categories (updates m : list (string * number)) (item : JsItem)
    (category : option string) :
  ~ In (str_or category "general") (map fst updates) ->
  MLDealScoringService.scoreDeal B
    (MLDealScoringService.updateMarketAverages updates m) item category
  = MLDealScoringService.scoreDeal B m item category.
Proof.
  intro H. apply scoreDeal_reads_one_key.
  rewrite map_get_update, map_get_absent; [reflexivity|].
  rewrite map_rev. intro Hin. apply H. apply in_rev. exact Hin.
Qed.


End MarketAverages.

Lemma updateMarketAverages_get_witness :
  NoDup (map fst Scenario.newAverages) /\
  map_get (MLDealScoringService.updateMarketAverages Scenario.newAverages
             MLDealScoringService.initialMarketAverages) "electronics"
  = Some (Fin 300) /\
  map_get (MLDealScoringService.updateMarketAverages Scenario.newAverages
             MLDealScoringService.initialMarketAverages) "books"
  = Some (Fin 15).
Proof.
  assert (H : NoDup (map fst Scenario.newAverages)).
  { cbn. repeat constructor; cbn; intuition discriminate. }
  split; [exact H|].
  destruct (updateMarketAverages_get Scenario.newAverages
              MLDealScoringService.initialMarketAverages H) as [Hnew Hold].
  split.
  - apply Hnew. left. reflexivity.
  - rewrite Hold; [reflexivity|]. cbn. intuition discriminate.
Defined.

Lemma scoreDeal_other_categories_witness :
  ~ In (str_or (Some "books") "general") (map fst Scenario.newAverages) /\
  MLDealScoringService.scoreDeal Sample.builtins
    (MLDealScoringService.updateMarketAverages Scenario.newAverages
       MLDealScoringService.initialMarketAverages)
    (js_of_item Sample.plainCase) (Some "books")
  = MLDealScoringService.scoreDeal Sample.builtins
      MLDealScoringService.initialMarketAverages
      (js_of_item Sample.plainCase) (Some "books").
Proof.
  assert (H : ~ In (str_or (Some "books") "general") (map fst Scenario.newAverages)).
  { cbn. intuition discriminate. }
  split; [exact H|].
  apply (scoreDeal_other_categories Sample.builtins Scenario.newAverages
           MLDealScoringService.initialMarketAverages (js_of_item Sample.plainCase)
           (Some "books") H).
Defined.


(* ================================================================== *)
(** * Embedding provider: preprocessing *)

Section EmbeddingFacts.
Import AzureOpenAIEmbeddingService.


Lemma trimStart_blank (s : string) : blank s = true -> trimStart s = "".
Proof.
  induction s as [|c s IH]; cbn; [reflexivity|].
  intro H. apply andb_prop in H. destruct H as [Hc Hs]. rewrite Hc. apply IH, Hs.
Qed.

Lemma replace_ws_blank (rep : string) (in_run : bool) (s : string) :
  blank rep = true -> blank s = true -> blank (replace_ws_from rep in_run s) = true.
Proof.
  intro Hrep. revert in_run. induction s as [|c s IH]; intros in_run H; cbn; [reflexivity|].
  cbn in H. apply andb_prop in H. destruct H as [Hc Hs]. rewrite Hc.
  destruct in_run; [apply IH, Hs|].
  assert (Happ : forall a b, blank a = true -> blank b = true -> blank (a ++ b) = true).
  { induction a as [|x a IHa]; cbn; intros b Ha Hb; [exact Hb|].
    apply andb_prop in Ha. destruct Ha as [Hx Ha]. rewrite Hx. apply IHa; assumption. }
  apply Happ; [exact Hrep | apply IH, Hs].
Qed.

Lemma trimStart_app_space (s : string) : trimStart (" " ++ s) = trimStart s.
Proof. reflexivity. Qed.

(** The cleaned text of a text that is not blank starts with a character
    that is not white space. *)
Lemma trimStart_replace_ws (in_run : bool) (s : string) :
  blank s = false ->
  exists c rest, is_ws c = false /\
    trimStart (replace_ws_from " " in_run s) = String c rest.
Proof.
  revert in_run. induction s as [|c s IH]; intros in_run H; cbn in H; [discriminate|].
  cbn [replace_ws_from]. destruct (is_ws c) eqn:Ec.
  - cbn [andb] in H. destruct in_run.
    + apply IH, H.
    + rewrite trimStart_app_space. apply IH, H.
  - exists c. eexists. split; [exact Ec|]. cbn [trimStart]. rewrite Ec. reflexivity.
Qed.

Lemma trimEnd_head (c : ascii) (s : string) :
  is_ws c = false -> exists rest, trimEnd (String c s) = String c rest.
Proof.
  intro Hc. cbn [trimEnd]. destruct (trimEnd s); [rewrite Hc|]; eexists; reflexivity.
Qed.

Lemma trim_head (c : ascii) (s : string) :
  is_ws c = false -> exists rest, trim (String c s) = String c rest.
Proof.
  intro Hc. unfold trim. cbn [trimStart]. rewrite Hc. apply trimEnd_head, Hc.
Qed.

Lemma maxChars_pos : exists n, maxChars = S n.
Proof. unfold maxChars. eexists. cbn. reflexivity. Qed.


Lemma preprocessText_blank (text : string) :
  str_truthy (trim (preprocessText text)) = negb (blank text).
Proof.
  unfold preprocessText. destruct (blank text) eqn:Hb; cbn [negb].
  - assert (Hc : trim (replace_ws " " text) = "").
    { unfold trim, replace_ws. rewrite trimStart_blank; [reflexivity|].
      apply replace_ws_blank; [reflexivity | exact Hb]. }
    rewrite Hc. destruct maxChars_pos as [n ->]. reflexivity.
  - destruct (trimStart_replace_ws false text Hb) as (c & rest & Hc & Hs).
    assert (Hclean : exists rest', trim (replace_ws " " text) = String c rest').
    { unfold trim, replace_ws. rewrite Hs. apply trimEnd_head, Hc. }
    destruct Hclean as [rest' ->].
    destruct maxChars_pos as [n ->].
    destruct (Nat.ltb (S n) _).
    + cbn [substring]. destruct (trim_head c (substring 0 n rest') Hc) as [r ->].
      reflexivity.
    + destruct (trim_head c rest' Hc) as [r ->]. reflexivity.
Qed.


(* ================================================================== *)
(** * Embedding provider: calls to the endpoint *)

Lemma generateEmbedding_rec_calls (this : t) (text : string) :
  forall fuel retryCount calls,
    (calls <= snd (generateEmbedding_rec fuel this text retryCount calls) <= calls + S fuel)%nat.
Proof.
  induction fuel as [|fuel IH]; intros retryCount calls;
    rewrite generateEmbedding_rec_eq;
    destruct (isConfigured this), (client this) as [remote|]; cbn [snd]; try lia;
    destruct (negb _); cbn [snd]; try lia;
    destruct (remote calls _) as [error|[[|first rest]|]]; cbn [snd]; try lia;
    destruct (Nat.ltb retryCount 3 && isRetryableError error)%bool; cbn [snd]; try lia.
  specialize (IH (S retryCount) (S calls)). lia.
Qed.

(** X12. [generateEmbedding] calls the endpoint at most four times (the call and
    three retries); it makes no call and returns [null] when the service
    is not configured or the text is blank, and it makes one call when
    that call is rejected with an error that is not retryable. *)
Theorem generateEmbedding_calls (this : t) (text : string) (calls : nat) :
  (calls <= snd (generateEmbedding this text calls) <= calls + 4)%nat /\
  (isConfigured this = false \/ client this = None \/ blank text = true ->
   generateEmbedding this text calls = (None, calls)) /\
  (forall remote error,
     isConfigured this = true -> client this = Some remote -> blank text = false ->
     remote calls (InputText (preprocessText text)) = Rejected error ->
     isRetryableError error = false ->
     generateEmbedding this text calls = (None, S calls)).
Proof.
  split; [apply generateEmbedding_rec_calls|]. split.
  - intro H. unfold generateEmbedding. rewrite generateEmbedding_rec_eq.
    destruct (isConfigured this) eqn:Ec, (client this) as [remote|] eqn:El;
      try reflexivity.
    destruct H as [H|[H|H]]; try discriminate.
    rewrite preprocessText_blank, H. reflexivity.
  - intros remote error Hc Hl Hb Hr He.
    unfold generateEmbedding. rewrite generateEmbedding_rec_eq.
    rewrite Hc, Hl.
    rewrite preprocessText_blank, Hb, Hr, He. cbn [negb]. rewrite andb_false_r. reflexivity.
Qed.

End EmbeddingFacts.

Lemma generateEmbedding_calls_witness :
  AzureOpenAIEmbeddingService.generateEmbedding Sample.unconfigured "phone case" 0%nat
  = (None, 0%nat) /\
  AzureOpenAIEmbeddingService.generateEmbedding (Sample.configured Scenario.rejecting)
    "phone case" 0%nat
  = (None, 1%nat).
Proof.
  split.
  - apply (generateEmbedding_calls Sample.unconfigured "phone case" 0%nat).
    left. reflexivity.
  - apply (generateEmbedding_calls (Sample.configured Scenario.rejecting)
             "phone case" 0%nat)
      with (remote := Scenario.rejecting) (error := newError "Service unavailable");
      reflexivity.
Defined.

(* ================================================================== *)
(** * Embedding provider: batches that fail, batches that answer *)

Section BatchOutcomes.
Import AzureOpenAIEmbeddingService.

Lemma nulls_add {A : Type} (a b : nat) : @nulls A a ++ nulls b = nulls (a + b).
Proof. unfold nulls. symmetry. apply repeat_app. Qed.

Lemma map_null {A C : Type} (l : list A) : map (fun _ => @None C) l = nulls (List.length l).
Proof. induction l as [|x l IH]; cbn; [reflexivity | rewrite IH; reflexivity]. Qed.

Lemma batchStep_all_rejected (remote : Remote) (texts : list string) (i : nat)
    (results : list (option Embedding)) (calls : nat) :
  alwaysRejects remote ->
  fst (batchStep remote texts i results calls)
  = results ++ nulls (List.length (slice texts i (i + batchSize))).
Proof.
  intro H. unfold batchStep.
  destruct (filter _ _) as [|c rest]; [reflexivity|].
  destruct (H calls (InputBatch (c :: rest))) as [error ->]. reflexivity.
Qed.

Lemma batchLoop_all_rejected (remote : Remote) (texts : list string) :
  alwaysRejects remote ->
  forall fuel i calls,
    (List.length texts <= i + batchSize * fuel)%nat ->
    fst (batchLoop fuel remote texts i (nulls (Nat.min i (List.length texts))) calls)
    = nulls (List.length texts).
Proof.
  intro Hremote.
  induction fuel as [|fuel IH]; intros i calls Hfuel.
  - cbn. f_equal. lia.
  - cbn [batchLoop].
    destruct (Nat.ltb i (List.length texts)) eqn:E.
    + apply Nat.ltb_lt in E. unfold abind.
      pose proof (batchStep_all_rejected remote texts i
                    (nulls (Nat.min i (List.length texts))) calls Hremote) as S.
      destruct (batchStep remote texts i _ calls) as [results' calls'].
      cbn [fst] in S. subst results'.
      rewrite nulls_add, slice_length.
      replace (Nat.min i (List.length texts) + Nat.min batchSize (List.length texts - i))%nat
        with (Nat.min (i + batchSize) (List.length texts)) by lia.
      apply IH. lia.
    + apply Nat.ltb_ge in E. cbn. f_equal. lia.
Qed.

(** X13. When the service is not configured, or its endpoint rejects every call,
    [generateBatchEmbeddings] returns [null] for every text: a list of the
    length of the input. *)
Theorem generateBatchEmbeddings_all_rejected (this : t) (texts : list string) (calls : nat) :
  (forall remote, client this = Some remote -> alwaysRejects remote) ->
  fst (generateBatchEmbeddings this texts calls) = map (fun _ => None) texts.
Proof.
  intro H. unfold generateBatchEmbeddings.
  destruct (isConfigured this), (client this) as [remote|]; try reflexivity.
  rewrite map_null.
  apply (batchLoop_all_rejected remote texts (H remote eq_refl) (List.length texts) 0 calls).
  unfold batchSize. lia.
Qed.

Lemma firstn_slice {A : Type} (l : list A) (i n : nat) :
  firstn i l ++ slice l i (i + n) = firstn (i + n) l.
Proof.
  unfold slice. replace (i + n - i)%nat with n by lia.
  revert l. induction i as [|i IH]; intro l; [reflexivity|].
  destruct l as [|x l]; cbn [firstn skipn app Nat.add].
  - rewrite firstn_nil. reflexivity.
  - rewrite IH. reflexivity.
Qed.

Lemma slice_In {A : Type} (l : list A) (i j : nat) (x : A) :
  In x (slice l i j) -> In x l.
Proof.
  unfold slice. intro H.
  rewrite <- (firstn_skipn i l). apply in_or_app. right.
  rewrite <- (firstn_skipn (j - i) (skipn i l)). apply in_or_app. left. exact H.
Qed.

Lemma filter_all {A : Type} (f : A -> bool) (l : list A) :
  Forall (fun x => f x = true) l -> filter f l = l.
Proof.
  intro H. apply forallb_filter_id. apply forallb_forall.
  apply Forall_forall. exact H.
Qed.

Section Aligned.
Context (embed : string -> Embedding) (remote : Remote).
Context (Hremote : answersWith embed remote).
Context (texts : list string).
Context (Htexts : Forall (fun text => blank text = false) texts).

Local Abbreviation entry := (fun text => Some (embed (preprocessText text))).

Lemma batchStep_aligned (i : nat) (calls : nat) :
  (i <= List.length texts)%nat ->
  fst (batchStep remote texts i (map entry (firstn i texts)) calls)
  = map entry (firstn (i + batchSize) texts).
Proof.
  intro Hi. unfold batchStep.
  set (batch := slice texts i (i + batchSize)).
  assert (Hclean : filter (fun text => str_truthy (trim text)) (map preprocessText batch)
                   = map preprocessText batch).
  { apply filter_all. apply Forall_map. apply Forall_forall. intros text Hin.
    apply slice_In in Hin. rewrite Forall_forall in Htexts.
    rewrite preprocessText_blank.
    rewrite (Htexts text Hin). reflexivity. }
  rewrite Hclean.
  assert (Hgoal : map entry (firstn (i + batchSize) texts)
                  = map entry (firstn i texts) ++ map entry batch).
  { rewrite <- map_app. unfold batch. rewrite firstn_slice. reflexivity. }
  rewrite Hgoal.
  destruct (map preprocessText batch) as [|c rest] eqn:E.
  - cbn [fst]. destruct batch; [reflexivity | discriminate E].
  - rewrite <- E, Hremote. cbn [fst].
    rewrite !map_map.
    rewrite !length_app, !length_map, length_firstn.
    replace (i + List.length batch
             - (Nat.min i (List.length texts) + List.length batch))%nat with 0%nat by lia.
    cbn [nulls repeat]. rewrite app_nil_r. reflexivity.
Qed.

Lemma batchLoop_aligned :
  forall fuel i calls,
    (List.length texts <= i + batchSize * fuel)%nat ->
    fst (batchLoop fuel remote texts i (map entry (firstn i texts)) calls)
    = map entry texts.
Proof.
  induction fuel as [|fuel IH]; intros i calls Hfuel.
  - cbn. rewrite firstn_all2 by lia. reflexivity.
  - cbn [batchLoop].
    destruct (Nat.ltb i (List.length texts)) eqn:E.
    + apply Nat.ltb_lt in E. unfold abind.
      pose proof (batchStep_aligned i calls ltac:(lia)) as S.
      destruct (batchStep remote texts i _ calls) as [results' calls'].
      cbn [fst] in S. subst results'. apply IH. lia.
    + apply Nat.ltb_ge in E. cbn. rewrite firstn_all2 by lia. reflexivity.
Qed.

End Aligned.

(** X14. When no text is blank and the endpoint answers every batch with one
    embedding per text, [generateBatchEmbeddings] is aligned with its
    input: entry [i] is the embedding of the preprocessed text [i]. *)
Theorem generateBatchEmbeddings_aligned (embed : string -> Embedding) (remote : Remote)
    (this : t) (texts : list string) (calls : nat) :
  isConfigured this = true ->
  client this = Some remote ->
  answersWith embed remote ->
  Forall (fun text => blank text = false) texts ->
  fst (generateBatchEmbeddings this texts calls)
  = map (fun text => Some (embed (preprocessText text))) texts.
Proof.
  intros Hc Hl Hremote Htexts. unfold generateBatchEmbeddings. rewrite Hc, Hl.
  apply (batchLoop_aligned embed remote Hremote texts Htexts (List.length texts) 0 calls).
  unfold batchSize. lia.
Qed.

Lemma batchStep_calls (remote : Remote) (texts : list string) (i : nat)
    (results : list (option Embedding)) (calls : nat) :
  (calls <= snd (batchStep remote texts i results calls) <= S calls)%nat.
Proof.
  unfold batchStep.
  destruct (filter _ _) as [|c rest]; cbn [snd]; [lia|].
  destruct (remote calls _) as [error|[embeddings|]]; cbn [snd]; lia.
Qed.

Lemma groups_step (m : nat) : (0 < m -> S (groups (m - batchSize)) <= groups m)%nat.
Proof.
  unfold groups, batchSize. cbn [Nat.sub]. intro H.
  destruct (Nat.le_gt_cases 16 m) as [Hm|Hm].
  - replace (m + 15)%nat with ((m - 16 + 15) + 1 * 16)%nat by lia.
    rewrite Nat.div_add by discriminate. lia.
  - replace (m - 16)%nat with 0%nat by lia. cbn [Nat.add].
    replace (15 / 16)%nat with 0%nat by reflexivity.
    assert ((1 * 16 <= m + 15)%nat) by lia.
    pose proof (Nat.Div0.div_le_mono (1 * 16) (m + 15) 16 H0) as D.
    rewrite Nat.div_mul in D by discriminate. lia.
Qed.

Lemma batchLoop_calls (remote : Remote) (texts : list string) :
  forall fuel i results calls,
    (calls <= snd (batchLoop fuel remote texts i results calls)
     <= calls + groups (List.length texts - i))%nat.
Proof.
  induction fuel as [|fuel IH]; intros i results calls.
  - cbn. lia.
  - cbn [batchLoop].
    destruct (Nat.ltb i (List.length texts)) eqn:E.
    + apply Nat.ltb_lt in E. unfold abind.
      pose proof (batchStep_calls remote texts i results calls) as S.
      destruct (batchStep remote texts i results calls) as [results' calls'].
      cbn [snd] in S.
      specialize (IH (i + batchSize)%nat results' calls').
      pose proof (groups_step (List.length texts - i) ltac:(lia)) as G.
      replace (List.length texts - (i + batchSize))%nat
        with (List.length texts - i - batchSize)%nat in IH by lia.
      lia.
    + cbn. lia.
Qed.

(** X15. [generateBatchEmbeddings] calls the endpoint at most once for every
    group of 16 texts, and not at all when the service is not
    configured. *)
Theorem generateBatchEmbeddings_calls (this : t) (texts : list string) (calls : nat) :
  (calls <= snd (generateBatchEmbeddings this texts calls)
   <= calls + groups (List.length texts))%nat /\
  (isConfigured this = false \/ client this = None ->
   snd (generateBatchEmbeddings this texts calls) = calls).
Proof.
  unfold generateBatchEmbeddings. split.
  - destruct (isConfigured this), (client this) as [remote|]; cbn [snd aret]; try lia.
    pose proof (batchLoop_calls remote texts (List.length texts) 0 [] calls) as H.
    rewrite Nat.sub_0_r in H. exact H.
  - intros [H|H]; rewrite H; [reflexivity|].
    destruct (isConfigured this); reflexivity.
Qed.

End BatchOutcomes.

Lemma generateBatchEmbeddings_all_rejected_witness :
  fst (AzureOpenAIEmbeddingService.generateBatchEmbeddings
         (Sample.configured Scenario.rejecting) ["a"; " "; "bb"] 0%nat)
  = [None; None; None].
Proof.
  apply (generateBatchEmbeddings_all_rejected (Sample.configured Scenario.rejecting)
           ["a"; " "; "bb"] 0%nat).
  intros remote H. injection H as <-. intros n input. eexists. reflexivity.
Defined.

Lemma generateBatchEmbeddings_aligned_witness :
  Forall (fun text => blank text = false) ["a"; "bb"] /\
  fst (AzureOpenAIEmbeddingService.generateBatchEmbeddings
         (Sample.configured Sample.lengthRemote) ["a"; "bb"] 0%nat)
  = map (fun text =>
           Some (Scenario.lengthOf (AzureOpenAIEmbeddingService.preprocessText text)))
        ["a"; "bb"].
Proof.
  assert (H : Forall (fun text => blank text = false) ["a"; "bb"])
    by (repeat constructor).
  split; [exact H|].
  apply (generateBatchEmbeddings_aligned Scenario.lengthOf Sample.lengthRemote
           (Sample.configured Sample.lengthRemote) ["a"; "bb"] 0%nat eq_refl eq_refl);
    [|exact H].
  intros n texts. reflexivity.
Defined.

Lemma generateBatchEmbeddings_calls_witness :
  snd (AzureOpenAIEmbeddingService.generateBatchEmbeddings Sample.unconfigured
         ["a"; "bb"] 7%nat)
  = 7%nat.
Proof.
  apply (generateBatchEmbeddings_calls Sample.unconfigured ["a"; "bb"] 7%nat).
  left. reflexivity.
Defined.

(* ================================================================== *)
(** * Fusion: semantic scores, fallback and the range of the final score *)

Section FusionRange.
Context (B : Builtins).
Context (service : AzureOpenAIEmbeddingService.t).
Context (marketAverages : list (string * number)).

Local Abbreviation rankItemsWithAI :=
  (EnhancedEbayRankingEngine.rankItemsWithAI B service marketAverages).

Lemma calculateSemanticScores_scored (items : list EbayItem) (userQuery : string)
    (calls : nat) :
  Forall scored
    (fst (EnhancedEbayRankingEngine.calculateSemanticScores B service items userQuery calls)).
Proof.
  unfold EnhancedEbayRankingEngine.calculateSemanticScores, abind.
  destruct (AzureOpenAIEmbeddingService.generateEmbedding service userQuery calls)
    as [[queryEmbedding|] calls1].
  - destruct (AzureOpenAIEmbeddingService.generateBatchEmbeddings service _ calls1)
      as [itemEmbeddings calls2].
    cbn [fst aret]. apply Forall_map. apply Forall_forall. intros [embedding|] _.
    + destruct (AzureOpenAIEmbeddingService.calculateCosineSimilarity B _ _);
        cbn [scored]; [exact I | apply clamp_0_100].
    + exact I.
  - cbn [fst aret]. apply Forall_map. apply Forall_forall. intros; exact I.
Qed.

(** X16. Every semantic score computed is NaN or lies between 0 and 100; and
    there is one entry per listing when the endpoint answers with no more
    embeddings than texts sent. *)
Theorem calculateSemanticScores_range_and_length (items : list EbayItem)
    (userQuery : string) (calls : nat) :
  Forall (fun s => match s with Some v => nanOrInRange v | None => True end)
    (fst (EnhancedEbayRankingEngine.calculateSemanticScores B service items userQuery calls)) /\
  ((forall remote, AzureOpenAIEmbeddingService.client service = Some remote ->
      answersWithinBatch remote) ->
   List.length
     (fst (EnhancedEbayRankingEngine.calculateSemanticScores B service items userQuery calls))
   = List.length items).
Proof.
  split; [apply calculateSemanticScores_scored|].
  intro Hremote.
  unfold EnhancedEbayRankingEngine.calculateSemanticScores, abind.
  destruct (AzureOpenAIEmbeddingService.generateEmbedding service userQuery calls)
    as [[queryEmbedding|] calls1].
  - pose proof (generateBatchEmbeddings_length service
                  (map (fun item => (title item ++ " " ++ str_or (shortDescription item) "")%string)
                       items)
                  calls1 Hremote) as L.
    destruct (AzureOpenAIEmbeddingService.generateBatchEmbeddings service _ calls1)
      as [itemEmbeddings calls2].
    cbn [fst aret] in *. rewrite length_map, L, length_map. reflexivity.
  - cbn [fst aret]. apply length_map.
Qed.

Lemma semanticScoresAt_scored (items : list EbayItem) (userQuery : option string)
    (calls : nat) :
  Forall scored (semanticScoresAt B service items userQuery calls).
Proof.
  unfold semanticScoresAt, EnhancedEbayRankingEngine.semanticPhase.
  destruct userQuery as [q|]; [|constructor].
  destruct (str_truthy q && AzureOpenAIEmbeddingService.isAvailable service)%bool;
    [apply calculateSemanticScores_scored | constructor].
Qed.

(** The semantic term of the fusion is always on the 0 to 100 scale: a
    score that is missing, 0 or NaN is replaced by 50. *)
Lemma normalizeSemantic_inRange (scores : list (option number)) (index : nat) :
  Forall scored scores ->
  inRange (EnhancedEbayRankingEngine.normalizeSemantic (lookup_score scores index)).
Proof.
  intro H. unfold lookup_score, EnhancedEbayRankingEngine.normalizeSemantic.
  destruct (nth_error scores index) as [[v|]|] eqn:E; cbn [opt_truthy];
    try (split; simpl; discriminate).
  destruct (truthy v) eqn:T; [|split; simpl; discriminate].
  apply nth_error_In in E. rewrite Forall_forall in H.
  destruct (H _ E) as [->|Hr]; [discriminate T | exact Hr].
Qed.

(** X17. [rankItemsWithAI] never uses [fallbackToTraditional]: on listings of
    the declared shape nothing in its [try] block throws, and the promise
    resolves to what the block returns. *)
Theorem rankItemsWithAI_never_falls_back (items : list EbayItem)
    (preferences : UserPreferences) (userQuery : option string) (calls : nat) :
  exists ranked,
    fst (EnhancedEbayRankingEngine.rankItemsWithAI_try B service marketAverages
           items preferences userQuery calls) = inr ranked /\
    fst (rankItemsWithAI items preferences userQuery calls) = inr ranked.
Proof.
  unfold EnhancedEbayRankingEngine.rankItemsWithAI,
    EnhancedEbayRankingEngine.rankItemsWithAI_try, abind.
  destruct (EnhancedEbayRankingEngine.semanticPhase B service items userQuery calls)
    as [semanticScores calls'].
  cbn [fst aret]. rewrite combineAll_spec. cbn [bind ret fst].
  eexists. split; reflexivity.
Qed.

Lemma weighted_inRange (s d r : Q) :
  0 <= s <= 100 -> 0 <= d <= 100 -> 0 <= r <= 100 ->
  inRange (round2 (Fin 0.35 * Fin s + Fin 0.35 * Fin d + Fin 0.30 * Fin r)%js).
Proof.
  intros Hs Hd Hr. apply round2_inRange. cbn [mul add]. split; simpl; lra.
Qed.

(** X18. For a listing whose price is a non-negative number and whose seller
    rating is finite, the final score is NaN or lies between 0 and 100, and
    it is NaN exactly when the deal score of the listing is NaN. *)
Theorem finalScore_range (items : list EbayItem) (preferences : UserPreferences)
    (userQuery : option string) (calls : nat) :
  exists ranked,
    fst (rankItemsWithAI items preferences userQuery calls) = inr ranked /\
    forall r, In r ranked -> numericListing (listingOf r) = true ->
      nanOrInRange (finalOf r) /\
      (finalOf r = NaN <->
       overallScore (MLDealScoringService.scoreDeal B marketAverages
                       (js_of_item (listingOf r)) None) = NaN).
Proof.
  eexists. split; [apply rankItemsWithAI_resolves|].
  intros r Hr Hn. apply sort_In in Hr. apply In_mapi_from in Hr.
  destruct Hr as (j & listing & Hj & ->).
  change (listingOf (fusedItem B marketAverages preferences
                       (semanticScoresAt B service items userQuery calls)
                       listing (0 + j)))
    with listing in *.
  unfold fusedItem. rewrite finalOf_combineScores.
  pose proof (normalizeSemantic_inRange
                (semanticScoresAt B service items userQuery calls) (0 + j)
                (semanticScoresAt_scored items userQuery calls)) as Hs.
  apply between_inRange in Hs. destruct Hs as (s & -> & Hs0 & Hs1).
  destruct (relevanceScore_bounds listing preferences Hn) as (rel & -> & Hr0 & Hr1).
  destruct (scoreDeal_overall_in_range B marketAverages (js_of_item listing) None)
    as [->|Hd].
  - split; [left; reflexivity | split; reflexivity].
  - apply between_inRange in Hd. destruct Hd as (d & -> & Hd0 & Hd1).
    split.
    + right. apply weighted_inRange; split; (assumption || lra).
    + rewrite round2_Fin || cbn [mul add]. split; intro H; discriminate H.
Qed.

End FusionRange.

Lemma calculateSemanticScores_range_and_length_witness :
  List.length
    (fst (EnhancedEbayRankingEngine.calculateSemanticScores Sample.builtins
            (Sample.configured Sample.lengthRemote)
            [Sample.plainCase; Sample.leatherCase] "phone case" 0%nat))
  = 2%nat.
Proof.
  apply (calculateSemanticScores_range_and_length Sample.builtins
           (Sample.configured Sample.lengthRemote)
           [Sample.plainCase; Sample.leatherCase] "phone case" 0%nat).
  intros remote H. injection H as <-. intros n texts data R.
  injection R as <-. rewrite length_map. apply Nat.le_refl.
Defined.

Lemma finalScore_range_witness :
  exists r,
    fst (EnhancedEbayRankingEngine.rankItemsWithAI Sample.builtins Sample.unconfigured
           MLDealScoringService.initialMarketAverages [Sample.plainCase]
           Sample.noPreferences None 0%nat)
    = inr [r] /\
    numericListing (listingOf r) = true /\
    nanOrInRange (finalOf r).
Proof.
  destruct (finalScore_range Sample.builtins Sample.unconfigured
              MLDealScoringService.initialMarketAverages [Sample.plainCase]
              Sample.noPreferences None 0%nat) as (ranked & Hr & H).
  rewrite rankItemsWithAI_resolves in Hr. apply inr_inj in Hr.
  cbn [mapi mapi_from sort sort_insert] in Hr. subst ranked.
  eexists. split; [rewrite rankItemsWithAI_resolves; reflexivity|].
  assert (Hn : numericListing Sample.plainCase = true) by reflexivity.
  split; [exact Hn|].
  apply H; [left; reflexivity | exact Hn].
Defined.

(* ================================================================== *)
(** * The eBay client and the search route *)

Section ClientFacts.
Import EbayAPIClient.

Lemma getAccessToken_inr (net : Network) (this this' : t) (token : string) :
  getAccessToken net this = (inr token, this') -> accessToken this' = Some token.
Proof.
  unfold getAccessToken.
  destruct (accessToken this) as [cached|] eqn:C.
  - destruct (str_truthy cached && lt (now net) (tokenExpiry this))%bool.
    + intro H. injection H as <- <-. exact C.
    + destruct (post_token net); intro H; [discriminate H|].
      injection H as <- <-. reflexivity.
  - destruct (post_token net); intro H; [discriminate H|].
    injection H as <- <-. reflexivity.
Qed.

(** X19. A token that [getAccessToken] returned is returned again, and the
    client left as it is, by every later call made before the expiry the
    client holds, whatever the token endpoint would answer then. *)
Theorem getAccessToken_reuses_token (net net' : Network) (this this' : t)
    (token : string) :
  getAccessToken net this = (inr token, this') ->
  str_truthy token = true ->
  lt (now net') (tokenExpiry this') = true ->
  getAccessToken net' this' = (inr token, this').
Proof.
  intros H T L. apply getAccessToken_inr in H.
  unfold getAccessToken. rewrite H, T, L. reflexivity.
Qed.

Lemma searchItems_failure (B : Builtins) (net : Network) (this : t)
    (criteria : EbaySearchCriteria.t) (limit : number) (error : JsError) :
  fst (searchItems B net this criteria limit) = inl error ->
  error = newError "Failed to search eBay items".
Proof.
  unfold searchItems.
  destruct (getAccessToken net this) as [[e|token] this'].
  - cbn [fst throw]. intro H. injection H as <-. reflexivity.
  - destruct (get_search net token (searchParams B criteria limit)).
    + cbn [fst throw]. intro H. injection H as <-. reflexivity.
    + cbn [fst ret]. intro H. discriminate H.
Qed.

End ClientFacts.

Lemma mapi_from_length {A C : Type} (f : A -> nat -> C) (k : nat) (l : list A) :
  List.length (mapi_from f k l) = List.length l.
Proof.
  revert k. induction l as [|x l IH]; intro k; cbn [mapi_from List.length].
  - reflexivity.
  - rewrite IH. reflexivity.
Qed.

Lemma slice_0_length {A : Type} (l : list A) (n : nat) :
  List.length (slice l 0 n) = Nat.min n (List.length l).
Proof.
  unfold slice. cbn [skipn]. rewrite Nat.sub_0_r. apply length_firstn.
Qed.

Lemma rankItems_length (items : list EbayItem) (preferences : UserPreferences) :
  (List.length (rankItems items preferences) <= List.length items)%nat.
Proof.
  unfold rankItems. rewrite sort_length.
  eapply Nat.le_trans; [apply filter_length_le|]. rewrite length_map. apply Nat.le_refl.
Qed.

Section RouteFacts.
Context (B : Builtins).
Context (azureOpenAIService : AzureOpenAIEmbeddingService.t).
Context (marketAverages : list (string * number)).
Context (net : EbayAPIClient.Network) (ebayAPI : EbayAPIClient.t).

Import SearchRoute.

Local Abbreviation POST := (SearchRoute.POST B azureOpenAIService marketAverages net ebayAPI).
Local Abbreviation search :=
  (fun body : SearchBody =>
     fst (EbayAPIClient.searchItems B net ebayAPI (searchCriteria body) (Fin 100))).

Lemma rankItemsWithAI_length (items : list EbayItem) (preferences : UserPreferences)
    (userQuery : option string) (calls : nat) :
  exists ranked,
    fst (EnhancedEbayRankingEngine.rankItemsWithAI B azureOpenAIService marketAverages
           items preferences userQuery calls) = inr ranked /\
    List.length ranked = List.length items.
Proof.
  eexists. split; [apply rankItemsWithAI_resolves|].
  rewrite sort_length. apply mapi_from_length.
Qed.

(** X20. A request whose body parses is answered with status 200, 400 or 500:
    400 exactly when the keywords are empty, 500 exactly when the search of
    the marketplace failed.  The statuses 401 and 429 are never given,
    because [searchItems] replaces every error, the authentication error
    too, by its own. *)
Theorem POST_status (body : SearchBody) (calls : nat) :
  let response := POST (inr body) calls in
  (status_of response = 200 \/ status_of response = 400 \/ status_of response = 500)%nat /\
  (status_of response = 400%nat <->
   str_truthy (EbaySearchCriteria.keywords (searchCriteria body)) = false) /\
  (status_of response = 500%nat <->
   str_truthy (EbaySearchCriteria.keywords (searchCriteria body)) = true /\
   exists error, search body = inl error).
Proof.
  unfold SearchRoute.POST, POST_try. cbn [bind].
  destruct (str_truthy (EbaySearchCriteria.keywords (searchCriteria body))) eqn:K;
    cbn [negb ret status_of].
  - destruct (EbayAPIClient.searchItems B net ebayAPI (searchCriteria body) (Fin 100))
      as [[error|items] this'] eqn:S.
    + pose proof (searchItems_failure B net ebayAPI (searchCriteria body) (Fin 100) error) as F.
      rewrite S in F. specialize (F eq_refl). subst error.
      cbn [fst bind message newError]. 
      change (includes "Failed to search eBay items" "authenticate") with false.
      change (includes "Failed to search eBay items" "rate limit") with false.
      cbn [status_of]. split; [auto|]. split.
      * split; intro H; discriminate H.
      * split; [intros _; split; [reflexivity | eexists; reflexivity] | reflexivity].
    + cbn [fst bind]. destruct items as [|item items].
      * cbn [ret status_of]. split; [auto|]. split.
        -- split; intro H; discriminate H.
        -- split; [intro H; discriminate H | intros (_ & e & H); discriminate H].
      * destruct (opt_flag (useAIRanking body)).
        -- rewrite rankItemsWithAI_resolves. cbn [bind ret status_of].
           split; [auto|]. split.
           ++ split; intro H; discriminate H.
           ++ split; [intro H; discriminate H | intros (_ & e & H); discriminate H].
        -- cbn [bind ret status_of]. split; [auto|]. split.
           ++ split; intro H; discriminate H.
           ++ split; [intro H; discriminate H | intros (_ & e & H); discriminate H].
  - split; [auto|]. split.
    + split; reflexivity.
    + split; [intro H; discriminate H | intros (H & _); discriminate H].
Qed.

(** X21. When the search finds listings, the answer carries at most 50 of them,
    [total] is their number and [originalTotal] the number found; on the
    AI path nothing is filtered, so [total] is the smaller of 50 and
    [originalTotal]; on the traditional path it is at most that. *)
Theorem POST_found (body : SearchBody) (calls : nat) (found : list EbayItem) :
  str_truthy (EbaySearchCriteria.keywords (searchCriteria body)) = true ->
  search body = inr found ->
  found <> [] ->
  exists items message,
    POST (inr body) calls
    = Found items (ranking_length items) (List.length found)
            (opt_flag (useAIRanking body)) message /\
    (ranking_length items <= Nat.min 50 (List.length found))%nat /\
    (opt_flag (useAIRanking body) = true ->
     ranking_length items = Nat.min 50 (List.length found)) /\
    (opt_flag (useAIRanking body) = false ->
     items = Traditional (slice (rankItems found (userPreferences body)) 0 50)).
Proof.
  intros K S N. unfold SearchRoute.POST, POST_try. cbn [bind].
  rewrite K. cbn [negb]. rewrite S.
  destruct found as [|item found']; [contradiction N; reflexivity|].
  set (found := item :: found') in *. cbn [bind].
  destruct (opt_flag (useAIRanking body)) eqn:AI.
  - destruct (rankItemsWithAI_length found (userPreferences body)
                (Some (EbaySearchCriteria.keywords (searchCriteria body))) calls)
      as (ranked & -> & L).
    cbn [bind ret]. eexists. eexists. split; [reflexivity|].
    cbn [top ranking_length]. rewrite slice_0_length, L.
    split; [apply Nat.le_refl|]. split; [reflexivity | intro H; discriminate H].
  - cbn [bind ret]. eexists. eexists. split; [reflexivity|].
    cbn [top ranking_length]. rewrite slice_0_length.
    pose proof (rankItems_length found (userPreferences body)).
    split; [lia|]. split; [intro H'; discriminate H' | reflexivity].
Qed.

End RouteFacts.

Lemma getAccessToken_reuses_token_witness :
  EbayAPIClient.getAccessToken Scenario.closed
    (snd (EbayAPIClient.getAccessToken (Scenario.shop []) EbayAPIClient.fresh))
  = (inr "token-1",
     snd (EbayAPIClient.getAccessToken (Scenario.shop []) EbayAPIClient.fresh)).
Proof.
  apply (getAccessToken_reuses_token (Scenario.shop []) Scenario.closed
           EbayAPIClient.fresh); reflexivity.
Defined.

Lemma POST_found_witness :
  exists items message,
    SearchRoute.POST Sample.builtins Sample.unconfigured
      MLDealScoringService.initialMarketAverages
      (Scenario.shop [Sample.plainCase; Sample.leatherCase]) EbayAPIClient.fresh
      (inr (Home.requestBody (Scenario.form "phone case" "" "100"))) 0%nat
    = SearchRoute.Found items 2 2 true message.
Proof.
  destruct (POST_found Sample.builtins Sample.unconfigured
              MLDealScoringService.initialMarketAverages
              (Scenario.shop [Sample.plainCase; Sample.leatherCase]) EbayAPIClient.fresh
              (Home.requestBody (Scenario.form "phone case" "" "100")) 0%nat
              [Sample.plainCase; Sample.leatherCase] eq_refl eq_refl
              ltac:(discriminate))
    as (items & message & HP & _ & Hai & _).
  exists items, message. rewrite HP, (Hai eq_refl). reflexivity.
Defined.

(* ================================================================== *)
(** * The search page: from the form to the ranking *)

Section PageFacts.

Lemma split_no_sep (sep : ascii) (s : string) :
  Forall (fun word => includes word (String sep EmptyString) = false) (split sep s).
Proof.
  induction s as [|c s IH]; cbn [split].
  - constructor; [reflexivity | constructor].
  - destruct (Ascii.eqb c sep) eqn:E.
    + constructor; [reflexivity | exact IH].
    + destruct (split sep s) as [|word words].
      * constructor; [|constructor]. cbn [includes prefix].
        destruct (ascii_dec sep c) as [->|_];
          [rewrite Ascii.eqb_refl in E; discriminate E | reflexivity].
      * inversion IH as [|? ? Hword Hwords]; subst. constructor; [|exact Hwords].
        cbn [includes prefix].
        destruct (ascii_dec sep c) as [->|_];
          [rewrite Ascii.eqb_refl in E; discriminate E |].
        cbn [orb]. exact Hword.
Qed.

(** X22. The keywords [handleSearch] sends are longer than two characters and
    hold no space; when every word of the query has at most two characters
    the list is empty, and the keyword score of every listing is then the
    neutral 50, whatever its title. *)
Theorem handleSearch_keywords (formData : SearchFormData.t) :
  (exists kws,
     keywords (SearchRoute.userPreferences (Home.requestBody formData)) = Some kws /\
     Forall (fun keyword =>
               (2 < String.length keyword)%nat /\ includes keyword " " = false) kws) /\
  (Forall (fun word => (String.length word <= 2)%nat)
          (split " " (SearchFormData.keywords formData)) ->
   forall item,
     calculateKeywordScore item
       (keywords (SearchRoute.userPreferences (Home.requestBody formData)))
     = Fin 50).
Proof.
  cbn [Home.requestBody Home.userPreferencesOf SearchRoute.userPreferences keywords].
  split.
  - eexists. split; [reflexivity|].
    apply Forall_forall. intros keyword H. apply filter_In in H.
    destruct H as [H L]. split.
    + apply Nat.ltb_lt. exact L.
    + pose proof (split_no_sep " " (SearchFormData.keywords formData)) as F.
      rewrite Forall_forall in F. exact (F _ H).
  - intros H item.
    replace (filter (fun keyword => Nat.ltb 2 (String.length keyword))
               (split " " (SearchFormData.keywords formData)))
      with (@nil string); [reflexivity|].
    symmetry. induction H as [|word words Hw _ IH]; [reflexivity|].
    cbn [filter]. apply Nat.ltb_ge in Hw. rewrite Hw. exact IH.
Qed.

Lemma viaJSON_price (x : number) (item : EbayItem) :
  notInfinite x = true ->
  calculatePriceScore item (viaJSON (Some x)) = calculatePriceScore item (Some x).
Proof. destruct x; intro H; try discriminate H; reflexivity. Qed.

Lemma viaJSON_seller (x : number) (item : EbayItem) :
  notInfinite x = true ->
  calculateSellerScore item (viaJSON (Some x)) = calculateSellerScore item (Some x).
Proof. destruct x; intro H; try discriminate H; reflexivity. Qed.

(** X23. [JSON.stringify] writes a NaN preference as null; the ranking does not
    see the difference.  Unless the maximum price or the minimum seller
    rating of the form reads as an infinity, the route ranks with the
    preferences it parsed exactly as the page's own preferences would. *)
Theorem requestBody_keeps_ranking (formData : SearchFormData.t) (items : list EbayItem) :
  (str_truthy (SearchFormData.maxPrice formData) = true ->
   notInfinite (parseFloat (SearchFormData.maxPrice formData)) = true) ->
  notInfinite (parseFloat (SearchFormData.minSellerRating formData)) = true ->
  rankItems items (SearchRoute.userPreferences (Home.requestBody formData))
  = rankItems items (Home.userPreferencesOf formData).
Proof.
  intros Hmax Hmin. unfold rankItems. do 2 f_equal.
  apply map_ext. intro item. unfold calculateRelevanceScore.
  cbn [Home.requestBody Home.userPreferencesOf SearchRoute.userPreferences
       maxPrice preferredCondition minimumSellerRating freeShippingOnly
       preferredCountries keywords].
  rewrite (viaJSON_seller _ item Hmin).
  destruct (str_truthy (SearchFormData.maxPrice formData)).
  - rewrite (viaJSON_price _ item (Hmax eq_refl)). reflexivity.
  - reflexivity.
Qed.

End PageFacts.

Lemma handleSearch_keywords_witness :
  Forall (fun word => (String.length word <= 2)%nat)
         (split " " (SearchFormData.keywords (Scenario.form "4k tv" "" ""))) /\
  calculateKeywordScore Sample.plainCase
    (keywords (SearchRoute.userPreferences
                 (Home.requestBody (Scenario.form "4k tv" "" ""))))
  = Fin 50.
Proof.
  assert (H : Forall (fun word => (String.length word <= 2)%nat)
                     (split " " (SearchFormData.keywords (Scenario.form "4k tv" "" ""))))
    by (cbn; repeat constructor).
  split; [exact H|].
  apply (handleSearch_keywords (Scenario.form "4k tv" "" "")). exact H.
Defined.

Lemma requestBody_keeps_ranking_witness :
  notInfinite (parseFloat (SearchFormData.maxPrice (Scenario.form "phone case" "" "n/a")))
  = true /\
  rankItems [Sample.plainCase]
    (SearchRoute.userPreferences (Home.requestBody (Scenario.form "phone case" "" "n/a")))
  = rankItems [Sample.plainCase] (Home.userPreferencesOf (Scenario.form "phone case" "" "n/a")).
Proof.
  split; [reflexivity|].
  apply (requestBody_keeps_ranking (Scenario.form "phone case" "" "n/a") [Sample.plainCase]).
  - intros _. reflexivity.
  - reflexivity.
Defined.

(* ================================================================== *)
(** * Cosine similarity: symmetry *)

Lemma dotProduct_comm (a b : Embedding) : dotProduct a b = dotProduct b a.
Proof.
  unfold dotProduct. generalize (Fin 0).
  revert b. induction a as [|x a IH]; intros [|y b] acc; try reflexivity.
  cbn [combine fold_left]. rewrite (mul_comm x y). apply IH.
Qed.

(** X24. [calculateCosineSimilarity] is symmetric: it returns, or throws, the
    same for two embeddings in either order, whatever [Math.sqrt] gives. *)
Theorem calculateCosineSimilarity_symmetric (B : Builtins) (a b : Embedding) :
  AzureOpenAIEmbeddingService.calculateCosineSimilarity B a b
  = AzureOpenAIEmbeddingService.calculateCosineSimilarity B b a.
Proof.
  unfold AzureOpenAIEmbeddingService.calculateCosineSimilarity.
  destruct (Nat.eq_dec (List.length a) (List.length b)) as [E|N].
  - rewrite (cosineLoop_spec a b E), (cosineLoop_spec b a (eq_sym E)).
    rewrite E, Nat.eqb_refl. cbn [negb].
    rewrite (orb_comm (strict_eq (Math_sqrt B (squaredNorm a)) (Fin 0))).
    rewrite (mul_comm (Math_sqrt B (squaredNorm a))), (dotProduct_comm a b).
    reflexivity.
  - assert (N' : List.length b <> List.length a) by (intro H; apply N; symmetry; exact H).
    apply Nat.eqb_neq in N. apply Nat.eqb_neq in N'. rewrite N, N'. reflexivity.
Qed.

(* ================================================================== *)
(** * Fusion: calls to the embedding endpoint *)

Section FusionCalls.
Context (B : Builtins).
Context (service : AzureOpenAIEmbeddingService.t).
Context (marketAverages : list (string * number)).

Lemma rankItemsWithAI_snd (items : list EbayItem) (preferences : UserPreferences)
    (userQuery : option string) (calls : nat) :
  snd (EnhancedEbayRankingEngine.rankItemsWithAI B service marketAverages
         items preferences userQuery calls)
  = snd (EnhancedEbayRankingEngine.semanticPhase B service items userQuery calls).
Proof.
  unfold EnhancedEbayRankingEngine.rankItemsWithAI,
    EnhancedEbayRankingEngine.rankItemsWithAI_try, abind.
  destruct (EnhancedEbayRankingEngine.semanticPhase B service items userQuery calls)
    as [semanticScores calls'].
  cbn [aret snd]. destruct (_ <- _ ;; _); reflexivity.
Qed.

Lemma generateBatchEmbeddings_snd (texts : list string) (calls : nat) :
  (calls <= snd (AzureOpenAIEmbeddingService.generateBatchEmbeddings service texts calls)
   <= calls + groups (List.length texts))%nat.
Proof.
  unfold AzureOpenAIEmbeddingService.generateBatchEmbeddings.
  destruct (AzureOpenAIEmbeddingService.isConfigured service),
    (AzureOpenAIEmbeddingService.client service) as [remote|]; cbn [snd aret]; try lia.
  pose proof (batchLoop_calls remote texts (List.length texts) 0 [] calls) as H.
  rewrite Nat.sub_0_r in H. exact H.
Qed.

(** X25. One ranking with AI calls the embedding endpoint at most four times
    for the query and once more for every group of 16 listings; it makes
    no call at all when there is no query, the query is empty, or the
    service is not configured. *)
Theorem rankItemsWithAI_calls (items : list EbayItem) (preferences : UserPreferences)
    (userQuery : option string) (calls : nat) :
  let after :=
    snd (EnhancedEbayRankingEngine.rankItemsWithAI B service marketAverages
           items preferences userQuery calls) in
  (calls <= after <= calls + 4 + groups (List.length items))%nat /\
  (userQuery = None \/ userQuery = Some "" \/
   AzureOpenAIEmbeddingService.isConfigured service = false ->
   after = calls).
Proof.
  cbv zeta. rewrite rankItemsWithAI_snd.
  unfold EnhancedEbayRankingEngine.semanticPhase. split.
  - destruct userQuery as [q|]; [|cbn [aret snd]; lia].
    destruct (str_truthy q && _)%bool; [|cbn [aret snd]; lia].
    unfold EnhancedEbayRankingEngine.calculateSemanticScores, abind.
    pose proof (generateEmbedding_rec_calls service q 3 0 calls) as E.
    fold (AzureOpenAIEmbeddingService.generateEmbedding service q calls) in E.
    destruct (AzureOpenAIEmbeddingService.generateEmbedding service q calls)
      as [[queryEmbedding|] calls1]; cbn [snd] in E.
    + pose proof (generateBatchEmbeddings_snd
                    (map (fun item => (title item ++ " " ++
                                       str_or (shortDescription item) "")%string) items)
                    calls1) as G.
      rewrite length_map in G.
      destruct (AzureOpenAIEmbeddingService.generateBatchEmbeddings service _ calls1)
        as [itemEmbeddings calls2].
      cbn [snd aret] in *. lia.
    + cbn [snd aret]. lia.
  - intros [->|[->|H]]; try reflexivity.
    destruct userQuery as [q|]; [|reflexivity].
    unfold AzureOpenAIEmbeddingService.isAvailable. rewrite H, andb_false_r. reflexivity.
Qed.

End FusionCalls.

Lemma rankItemsWithAI_calls_witness :
  snd (EnhancedEbayRankingEngine.rankItemsWithAI Sample.builtins
         (Sample.configured Sample.lengthRemote)
         MLDealScoringService.initialMarketAverages
         [Sample.plainCase; Sample.leatherCase] Sample.noPreferences (Some "") 5%nat)
  = 5%nat.
Proof.
  apply (rankItemsWithAI_calls Sample.builtins (Sample.configured Sample.lengthRemote)
           MLDealScoringService.initialMarketAverages
           [Sample.plainCase; Sample.leatherCase] Sample.noPreferences (Some "") 5%nat).
  right. left. reflexivity.
Defined.

(* ================================================================== *)
(** * The eBay client: the price filter *)

Section PriceFilter.
Context (B : Builtins).
Import EbayAPIClient.

(** X26. The search request carries a price filter exactly when the minimum or
    the maximum price is truthy: a price of 0 or NaN counts as absent.
    With a falsy minimum and a truthy maximum, the filter comes first and
    leaves the lower end open. *)
Theorem filters_price (criteria : EbaySearchCriteria.t) :
  (Exists (fun f => prefix "price:[" f = true) (filters B criteria) <->
   (opt_truthy (EbaySearchCriteria.minPrice criteria) ||
    opt_truthy (EbaySearchCriteria.maxPrice criteria))%bool = true) /\
  (opt_truthy (EbaySearchCriteria.minPrice criteria) = false ->
   forall v, EbaySearchCriteria.maxPrice criteria = Some v -> truthy v = true ->
     hd_error (filters B criteria)
     = Some ("price:[.." ++ Number_toString B v ++ "]")%string).
Proof.
  unfold filters. split.
  - destruct (opt_truthy (EbaySearchCriteria.minPrice criteria) ||
              opt_truthy (EbaySearchCriteria.maxPrice criteria))%bool.
    + split; [reflexivity|]. intros _. apply Exists_cons_hd. cbn.
      match goal with |- prefix "" ?s = true => destruct s; reflexivity end.
    + split; [|intro H; discriminate H].
      cbn [app]. intro H.
      destruct (opt_str_truthy (EbaySearchCriteria.condition criteria)),
        (opt_flag (EbaySearchCriteria.freeShipping criteria)),
        (opt_flag (EbaySearchCriteria.buyItNow criteria));
        cbn [app] in H;
        repeat match goal with
               | H : Exists _ (_ :: _) |- _ =>
                   apply Exists_cons in H; destruct H as [H|H]; [discriminate H|]
               | H : Exists _ [] |- _ => inversion H
               end.
  - intros Hmin v Hmax Hv. unfold number_or_empty.
    rewrite Hmin, Hmax. cbn [opt_truthy]. rewrite Hv, orb_true_r.
    reflexivity.
Qed.

End PriceFilter.

Lemma filters_price_witness :
  hd_error
    (EbayAPIClient.filters Sample.builtins
       (Home.searchCriteriaOf (Scenario.form "phone case" "0" "100")))
  = Some "price:[..100]".
Proof.
  destruct (filters_price Sample.builtins
              (Home.searchCriteriaOf (Scenario.form "phone case" "0" "100")))
    as [_ H].
  apply (H eq_refl (Fin 100)); reflexivity.
Defined.
